(** * SNC scraper: resume / progress-tracking subsystem

    A shallow embedding of the progress-tracking code of the SNC venture
    capital scraper, and the properties of it that the design document
    states.  The embedded functions come from

    - [helpers/vc_cache_manager.py]   (module [VCCacheManager]),
    - [helpers/search_page_helper.py] (module [SearchPageHelper]),
    - [snc_scraper_service.py]        (module [SNCVCScraper]),
    - [helpers/state_manager.py] and [helpers/enhanced_resume_detector.py]
                                      (module [StateManager]),
    - [helpers/vc_page_helper/vc_orchestrator.py] (module [VCOrchestrator]),
    - [helpers/page_orchestrator.py]  (module [PageOrchestrator]),
    - [populate_cache_from_results.py] (module [PopulateCache]).

    Conventions.  Values read back from JSON files are modelled by the type
    [json]; Python's [None] is [JNull].  A Python computation that can raise
    is a value of [pyresult]; a [try ... except Exception] block is a match
    on it.  Everything the code reads from its environment (the clock, the
    outcome of a file write, the content of a directory) is an explicit
    argument. *)

From Stdlib Require Import ZArith Ascii.
From stdpp Require Import gmap strings list fin_maps pretty.

#[local] Set Warnings "-register-all,-clear-no-such-hyp".
#[local] Open Scope Z_scope.

(* ===================================================================== *)
(** * Part I: the embedded program                                        *)
(* ===================================================================== *)

(** ** Python values and exceptions *)

Module Py.

(** The result of [json.load]: JSON numbers are the integers (the only
    numbers this code writes or inspects), objects are dictionaries with
    string keys. *)
Inductive json : Type :=
| JNull
| JBool (b : bool)
| JNum (z : Z)
| JStr (s : string)
| JList (l : list json)
| JDict (d : gmap string json).

(** The exception classes the embedded code can meet. *)
Inductive pyexc : Type :=
| TypeError
| AttributeError
| KeyError
| JSONDecodeError
| OSError.

Inductive pyresult (A : Type) : Type :=
| Ok (a : A)
| Raise (e : pyexc).
Arguments Ok {A} a.
Arguments Raise {A} e.

#[global] Instance pyresult_ret : MRet pyresult := fun A a => Ok a.
#[global] Instance pyresult_bind : MBind pyresult :=
  fun A B f m => match m with Ok a => f a | Raise e => Raise e end.

(** [bool(x)], the truth value Python gives a JSON value: [None], [False],
    [0], the empty string, list and dictionary are false. *)
Definition truthy (j : json) : bool :=
  match j with
  | JNull => false
  | JBool b => b
  | JNum z => negb (z =? 0)
  | JStr s => negb (String.eqb s "")
  | JList l => match l with [] => false | _ => true end
  | JDict d => negb (bool_decide (d = ∅))
  end.

(** [isinstance(x, dict)] *)
Definition is_dict (j : json) : bool :=
  match j with JDict _ => true | _ => false end.

(** [x == s] for a string literal [s] *)
Definition eq_str (j : json) (s : string) : bool :=
  match j with JStr s' => String.eqb s' s | _ => false end.

(** [d.get(key, default)] on a dictionary *)
Definition dict_get (d : gmap string json) (key : string) (default : json) : json :=
  match d !! key with Some v => v | None => default end.

(** [x.get(key, default)] on an arbitrary value: only dictionaries have
    the method. *)
Definition py_get (x : json) (key : string) (default : json) : pyresult json :=
  match x with
  | JDict d => Ok (dict_get d key default)
  | _ => Raise AttributeError
  end.

(** [x[key]] for a string key *)
Definition py_getitem (x : json) (key : string) : pyresult json :=
  match x with
  | JDict d => match d !! key with Some v => Ok v | None => Raise KeyError end
  | _ => Raise TypeError
  end.

(** [len(x)] *)
Definition py_len (x : json) : pyresult nat :=
  match x with
  | JStr s => Ok (String.length s)
  | JList l => Ok (length l)
  | JDict d => Ok (size d)
  | _ => Raise TypeError
  end.

(** [s.startswith(p)], [s.endswith(p)], [sub in s] *)
Definition startswith (s p : string) : bool := String.prefix p s.

Definition endswith (s p : string) : bool :=
  String.prefix (String.rev p) (String.rev s).

Fixpoint contains (s sub : string) : bool :=
  String.prefix sub s ||
  match s with
  | EmptyString => false
  | String _ s' => contains s' sub
  end.

(** [s.split(sep)] for a one-character separator: the list is never
    empty. *)
Fixpoint split (sep : Ascii.ascii) (s : string) : list string :=
  match s with
  | EmptyString => [EmptyString]
  | String c s' =>
      if Ascii.eqb c sep then EmptyString :: split sep s'
      else match split sep s' with
           | [] => [String c EmptyString]
           | seg :: segs => String c seg :: segs
           end
  end.

(** [url.split('/')[-1] if '/' in url else url], the identifier both the
    search-page helper and the orchestrator derive from a URL. *)
Definition url_id (url : string) : string :=
  if contains url "/" then List.last (split "/"%char url) EmptyString else url.

(** [key in x] for a string [key]: a key of a dictionary, an element of
    a list, a substring of a string. *)
Definition py_in (key : string) (x : json) : pyresult bool :=
  match x with
  | JDict d => Ok (bool_decide (is_Some (d !! key)))
  | JList l => Ok (existsb (fun j => eq_str j key) l)
  | JStr s => Ok (contains s key)
  | _ => Raise TypeError
  end.

End Py.
Import Py.

(** ** helpers/vc_cache_manager.py

    The methods that write ([add_vc], [mark_vc_completed],
    [mark_vc_failed]) are embedded on caches whose entries carry the ten
    fields of the cache file format.  The methods that only read
    ([_load_cache], [get_vc_status], [is_vc_completed]) are embedded on
    the value [json.load] returned, whatever its shape, since that is where
    a damaged file shows.  [cache_to_json] takes the first view to the
    second. *)

Module VCCacheManager.

(** One value of the cache dictionary, with the ten keys [add_vc] writes
    (the Cache Index record of the file format). *)
Record vc_entry : Type := {
  name : string;
  url : string;
  slug : string;
  first_seen_page : option Z;
  scraping_status : string;
  first_discovered : string;
  last_updated : string;
  last_scraped : option string;
  scrape_attempts : Z;
  data_hash : option string
}.

(** [self.cache_data] *)
Abbreviation cache := (gmap string vc_entry).

(** What [open] followed by [json.load] finds at [cache_file_path]. *)
Inductive cache_file : Type :=
| NoFile                                (* os.path.exists is false *)
| FileContent (loaded : pyresult json). (* open + json.load *)

(** [_load_cache]: the value of [self.cache_data] afterwards.  The [print]
    of [len(self.cache_data)] sits inside the [try], so a loaded value
    without a length also ends in the [except] branch. *)
Definition _load_cache (f : cache_file) : json :=
  match f with
  | NoFile => JDict ∅
  | FileContent loaded =>
      match (data ← loaded; _ ← py_len data; mret data) with
      | Ok data => data
      | Raise _ => JDict ∅
      end
  end.

(** [_save_cache]: [write_ok] is whether [makedirs], [open] and
    [json.dump] all succeed. *)
Definition _save_cache (write_ok : bool) : bool := write_ok.

(** [add_vc]; [t1] and [t2] are the two readings of [datetime.now()]. *)
Definition add_vc (write_ok : bool) (t1 t2 : string) (cache_data : cache)
    (slug name url : string) (first_seen_page : option Z) : cache * bool :=
  (<[slug := {| name := name;
                url := url;
                slug := slug;
                first_seen_page := first_seen_page;
                scraping_status := "pending";
                first_discovered := t1;
                last_updated := t2;
                last_scraped := None;
                scrape_attempts := 0;
                data_hash := None |}]> cache_data,
   _save_cache write_ok).

(** [get_vc_status] on the dictionary as loaded:
    [self.cache_data.get(slug, {}).get("scraping_status")]. *)
Definition get_vc_status (cache_data : json) (slug : string) : pyresult json :=
  e ← py_get cache_data slug (JDict ∅);
  py_get e "scraping_status" JNull.

(** [is_vc_completed] *)
Definition is_vc_completed (cache_data : json) (slug : string) : pyresult bool :=
  st ← get_vc_status cache_data slug;
  mret (eq_str st "completed").

(** [if data_hash:] for the optional argument *)
Definition hash_given (data_hash : option string) : bool :=
  match data_hash with
  | Some h => negb (String.eqb h "")
  | None => false
  end.

(** [mark_vc_completed]; [t1], [t2] are the two clock readings. *)
Definition mark_vc_completed (write_ok : bool) (t1 t2 : string)
    (cache_data : cache) (slug : string) (data_hash : option string)
    : cache * bool :=
  match cache_data !! slug with
  | Some e =>
      (<[slug := {| name := name e;
                    url := url e;
                    slug := VCCacheManager.slug e;
                    first_seen_page := first_seen_page e;
                    scraping_status := "completed";
                    first_discovered := first_discovered e;
                    last_updated := t2;
                    last_scraped := Some t1;
                    scrape_attempts := scrape_attempts e;
                    data_hash := if hash_given data_hash then data_hash
                                 else VCCacheManager.data_hash e |}]> cache_data,
       _save_cache write_ok)
  | None => (cache_data, false)
  end.

(** [mark_vc_failed] *)
Definition mark_vc_failed (write_ok : bool) (t : string)
    (cache_data : cache) (slug : string) : cache * bool :=
  match cache_data !! slug with
  | Some e =>
      (<[slug := {| name := name e;
                    url := url e;
                    slug := VCCacheManager.slug e;
                    first_seen_page := first_seen_page e;
                    scraping_status := "failed";
                    first_discovered := first_discovered e;
                    last_updated := t;
                    last_scraped := last_scraped e;
                    scrape_attempts := scrape_attempts e + 1;
                    data_hash := data_hash e |}]> cache_data,
       _save_cache write_ok)
  | None => (cache_data, false)
  end.

(** What [json.dump] writes for an entry, and so what a later
    [json.load] gives back. *)
Definition opt_json {A} (f : A → json) (o : option A) : json :=
  match o with Some a => f a | None => JNull end.

Definition entry_to_json (e : vc_entry) : json :=
  JDict (<["name" := JStr (name e)]>
        (<["url" := JStr (url e)]>
        (<["slug" := JStr (slug e)]>
        (<["first_seen_page" := opt_json JNum (first_seen_page e)]>
        (<["scraping_status" := JStr (scraping_status e)]>
        (<["first_discovered" := JStr (first_discovered e)]>
        (<["last_updated" := JStr (last_updated e)]>
        (<["last_scraped" := opt_json JStr (last_scraped e)]>
        (<["scrape_attempts" := JNum (scrape_attempts e)]>
        (<["data_hash" := opt_json JStr (data_hash e)]> ∅)))))))))).

Definition cache_to_json (c : cache) : json := JDict (entry_to_json <$> c).

(** [get_pending_vcs], [get_completed_vcs], [get_failed_vcs]: the entries
    whose status is the given one.  The order of the list (Python's is the
    order of insertion) is not part of the model. *)
Definition vcs_with_status (st : string) (cache_data : cache) : list vc_entry :=
  (filter (fun kv => scraping_status kv.2 = st) (map_to_list cache_data)).*2.

Definition get_pending_vcs (cache_data : cache) : list vc_entry :=
  vcs_with_status "pending" cache_data.

Definition get_completed_vcs (cache_data : cache) : list vc_entry :=
  vcs_with_status "completed" cache_data.

Definition get_failed_vcs (cache_data : cache) : list vc_entry :=
  vcs_with_status "failed" cache_data.

(** The four counters of [get_cache_stats]; its fifth field,
    [completion_rate], is a formatted floating-point number and is left
    out. *)
Record cache_stats : Type := {
  total_vcs : nat;
  completed : nat;
  pending : nat;
  failed : nat
}.

Definition get_cache_stats (cache_data : cache) : cache_stats :=
  {| total_vcs := size cache_data;
     completed := length (get_completed_vcs cache_data);
     pending := length (get_pending_vcs cache_data);
     failed := length (get_failed_vcs cache_data) |}.

(** A call of one of the three writing methods, with what it reads from
    its environment. *)
Inductive cache_call : Type :=
| CallAdd (write_ok : bool) (t1 t2 : string) (slug name url : string)
          (first_seen_page : option Z)
| CallCompleted (write_ok : bool) (t1 t2 : string) (slug : string)
                (data_hash : option string)
| CallFailed (write_ok : bool) (t : string) (slug : string).

(** [self.cache_data] after the call. *)
Definition do_call (cache_data : cache) (call : cache_call) : cache :=
  match call with
  | CallAdd w t1 t2 slug name url p => (add_vc w t1 t2 cache_data slug name url p).1
  | CallCompleted w t1 t2 slug h => (mark_vc_completed w t1 t2 cache_data slug h).1
  | CallFailed w t slug => (mark_vc_failed w t cache_data slug).1
  end.

Definition do_calls (cache_data : cache) (calls : list cache_call) : cache :=
  fold_left do_call calls cache_data.

End VCCacheManager.

(** ** The results directory *)

Module Disk.

(** A file of the results directory: its name, and what [open] followed
    by [json.load] gives for it. *)
Record result_file : Type := {
  filename : string;
  content : pyresult json
}.

(** [os.listdir(results_dir)] in the order the system lists it; [None]
    when [os.path.exists(results_dir)] is false. *)
Abbreviation results_dir := (option (list result_file)).

(** [f'page_{page_num}_'] *)
Definition page_prefix (page_num : Z) : string :=
  "page_" +:+ pretty page_num +:+ "_".

(** [filename.startswith(f'page_{page_num}_') and filename.endswith('.json')] *)
Definition is_page_file (page_num : Z) (filename : string) : bool :=
  startswith filename (page_prefix page_num) && endswith filename ".json".

(** ["completed" if "completed" in filename else "in_progress"] *)
Definition legacy_status (filename : string) : json :=
  JStr (if contains filename "completed" then "completed" else "in_progress").

End Disk.
Import Disk.

(** ** helpers/search_page_helper.py *)

Module SearchPageHelper.

(** The reading of one matching file in [load_existing_page_data]:
    [Some] is a [return], [None] lets the [for] loop go on. *)
Definition read_existing (filename : string) (page_data : json)
    : pyresult (option (json * json)) :=
  match page_data with
  | JDict d =>
      match d !! "vcs" with
      | Some vcs_list =>
          md ← mret (dict_get d "metadata" (JDict ∅));
          status ← py_get md "status" (JStr "unknown");
          _ ← py_len vcs_list;
          mret (Some (vcs_list, status))
      | None => mret None
      end
  | JList _ =>
      mret (Some (page_data, legacy_status filename))
  | _ => mret None
  end.

Fixpoint load_existing_loop (page_num : Z) (files : list result_file)
    : pyresult (json * json) :=
  match files with
  | [] => mret (JNull, JNull)
  | f :: rest =>
      if is_page_file page_num (filename f) then
        page_data ← content f;
        r ← read_existing (filename f) page_data;
        match r with
        | Some res => mret res
        | None => load_existing_loop page_num rest
        end
      else load_existing_loop page_num rest
  end.

(** [load_existing_page_data]: [(vcs_list, status)], or [(None, None)]. *)
Definition load_existing_page_data (dir : results_dir) (page_num : Z)
    : json * json :=
  match dir with
  | None => (JNull, JNull)
  | Some files =>
      match load_existing_loop page_num files with
      | Ok res => res
      | Raise _ => (JNull, JNull)
      end
  end.

Definition key_overview_fields : list string :=
  ["founded"; "overview"; "exits"; "investment_stages"].

(** [determine_vc_status] *)
Definition determine_vc_status (vc_data : json) : string :=
  match vc_data with
  | JDict d =>
      let has_key_overview :=
        existsb (fun field => truthy (dict_get d field JNull)) key_overview_fields in
      let has_investments := truthy (dict_get d "investments" JNull) in
      if has_key_overview && has_investments then "scraped" else "not_scraped"
  | _ => "not_scraped"
  end.

(** [for vc in existing_vcs]: what iterating a value yields. *)
Definition py_iter (x : json) : pyresult (list json) :=
  match x with
  | JList l => Ok l
  | JDict d => Ok (JStr <$> (map_to_list d).*1)
  | JStr s => Ok ((fun c => JStr (String c EmptyString)) <$> String.list_ascii_of_string s)
  | _ => Raise TypeError
  end.

(** Values that can be put in a [set]. *)
Definition hashable (j : json) : bool :=
  match j with
  | JList _ | JDict _ => false
  | _ => true
  end.

(** One round of the loop that fills [scraped_vc_ids]. *)
Definition add_scraped (scraped_vc_ids : list json) (vc : json)
    : pyresult (list json) :=
  match vc with
  | JDict d =>
      let vc_id := dict_get d "vc_id" (JStr "") in
      if truthy vc_id then
        if String.eqb (determine_vc_status vc) "scraped" then
          if hashable vc_id then Ok (vc_id :: scraped_vc_ids)
          else Raise TypeError
        else Ok scraped_vc_ids
      else Ok scraped_vc_ids
  | _ => Ok scraped_vc_ids
  end.

Fixpoint collect_scraped (scraped_vc_ids : list json) (vcs : list json)
    : pyresult (list json) :=
  match vcs with
  | [] => Ok scraped_vc_ids
  | vc :: rest =>
      ids ← add_scraped scraped_vc_ids vc;
      collect_scraped ids rest
  end.

(** [vc_id in scraped_vc_ids] for the string [vc_id] cut from a URL: only
    an equal string in the set compares equal to it. *)
Definition in_scraped (scraped_vc_ids : list json) (vc_id : string) : bool :=
  existsb (fun j => eq_str j vc_id) scraped_vc_ids.

(** [filter_unscraped_vcs]; the method has no [try], so what its body
    raises reaches the caller. *)
Definition filter_unscraped_vcs (all_vc_links : list string) (existing_vcs : json)
    : pyresult (list string) :=
  if negb (truthy existing_vcs) then Ok all_vc_links
  else
    vcs ← py_iter existing_vcs;
    scraped_vc_ids ← collect_scraped [] vcs;
    Ok (filter (fun url => negb (in_scraped scraped_vc_ids (url_id url)))
               all_vc_links).

(** The loop of [_filter_links_by_cache] over the cache as loaded. *)
Fixpoint cache_filter_loop (cache_data : json) (vc_links : list string)
    : pyresult (list string) :=
  match vc_links with
  | [] => Ok []
  | url :: rest =>
      done ← VCCacheManager.is_vc_completed cache_data (url_id url);
      kept ← cache_filter_loop cache_data rest;
      Ok (if done : bool then kept else url :: kept)
  end.

(** [_filter_links_by_cache]; [f] is the cache file that
    [VCCacheManager()] finds. *)
Definition _filter_links_by_cache (f : VCCacheManager.cache_file)
    (vc_links : list string) : list string :=
  match cache_filter_loop (VCCacheManager._load_cache f) vc_links with
  | Ok filtered_links => filtered_links
  | Raise _ => vc_links
  end.

(** [filter_unscraped_vcs_by_cache]; an omitted [enable_cache_filtering]
    is [False]. *)
Definition filter_unscraped_vcs_by_cache (dir : results_dir) (current_page : Z)
    (f : VCCacheManager.cache_file) (all_vc_links : list string)
    (enable_cache_filtering : option bool) : pyresult (list string) :=
  let '(existing_vcs, _) := load_existing_page_data dir current_page in
  vcs_to_scrape ← filter_unscraped_vcs all_vc_links existing_vcs;
  if default false enable_cache_filtering
  then Ok (_filter_links_by_cache f vcs_to_scrape)
  else Ok vcs_to_scrape.

End SearchPageHelper.

(** ** snc_scraper_service.py *)

Module SNCVCScraper.

(** One value of [self.vc_status]. *)
Record vc_record : Type := {
  status : string;
  url : string;
  attempts : Z;
  first_seen : string;
  last_updated : string;
  discovered_on_page : Z
}.

Abbreviation vc_status_map := (gmap string vc_record).

(** [x or y] on an optional page number *)
Definition page_or (x : option Z) (y : Z) : Z :=
  match x with
  | Some p => if p =? 0 then y else p
  | None => y
  end.

(** [_set_vc_status]; [t1], [t2] are the clock readings. *)
Definition _set_vc_status (t1 t2 : string) (current_page : Z)
    (vc_status : vc_status_map) (vc_id status : string)
    (url : option string) (discovered_on_page : option Z) : vc_status_map :=
  match vc_status !! vc_id with
  | None =>
      <[vc_id := {| status := status;
                    url := default "" url;
                    attempts := 0;
                    first_seen := t1;
                    last_updated := t2;
                    discovered_on_page := page_or discovered_on_page current_page |}]>
        vc_status
  | Some r =>
      <[vc_id := {| status := status;
                    url := SNCVCScraper.url r;
                    attempts := if String.eqb status "in_progress"
                                then attempts r + 1 else attempts r;
                    first_seen := first_seen r;
                    last_updated := t1;
                    discovered_on_page :=
                      match discovered_on_page with
                      | Some p => p
                      | None => SNCVCScraper.discovered_on_page r
                      end |}]>
        vc_status
  end.

(** [_get_vc_status] *)
Definition _get_vc_status (vc_status : vc_status_map) (vc_id : string) : string :=
  match vc_status !! vc_id with
  | Some r => status r
  | None => "pending"
  end.

(** The list [page_vc_ids] of [_update_page_completion]. *)
Definition page_vc_ids (vc_status : vc_status_map) (page_num : Z) : list string :=
  (filter (fun kv => discovered_on_page kv.2 = page_num) (map_to_list vc_status)).*1.

(** [_update_page_completion]: the set [self.completed_pages] afterwards. *)
Definition _update_page_completion (vc_status : vc_status_map)
    (completed_pages : gset Z) (page_num : Z) : gset Z :=
  let ids := page_vc_ids vc_status page_num in
  match ids with
  | [] => completed_pages
  | _ =>
      let completed_count :=
        length (filter (fun vc_id => _get_vc_status vc_status vc_id = "completed") ids) in
      if bool_decide (completed_count = length ids) && bool_decide (0 < length ids)%nat
      then {[page_num]} ∪ completed_pages
      else if bool_decide (page_num ∈ completed_pages)
           then completed_pages ∖ {[page_num]}
           else completed_pages
  end.

(** [_is_page_completed] *)
Definition _is_page_completed (completed_pages : gset Z) (page_num : Z) : bool :=
  bool_decide (page_num ∈ completed_pages).

(** The file name [save_page_with_enhanced_metadata] builds,
    [f"page_{page_num}_{status}_{len(vcs)}_vcs_{timestamp}.json"]. *)
Definition enhanced_filename (page_num : Z) (status : string) (vcs : list json)
    (timestamp : string) : string :=
  "page_" +:+ pretty page_num +:+ "_" +:+ status +:+ "_" +:+
  pretty (length vcs) +:+ "_vcs_" +:+ timestamp +:+ ".json".

(** The dictionary [save_page_with_enhanced_metadata] dumps when no
    additional metadata is given. *)
Definition enhanced_page_data (page_num : Z) (status : string) (vcs : list json)
    (timestamp scrape_date session_id user_type connection_type : string) : json :=
  JDict (<["metadata" :=
            JDict (<["page_number" := JNum page_num]>
                  (<["status" := JStr status]>
                  (<["total_vcs" := JNum (Z.of_nat (length vcs))]>
                  (<["scraped_timestamp" := JStr timestamp]>
                  (<["scrape_date" := JStr scrape_date]>
                  (<["session_id" := JStr session_id]>
                  (<["user_type" := JStr user_type]>
                  (<["connection_type" := JStr connection_type]>
                  (<["scraper_version" := JStr "enhanced_old_version"]> ∅)))))))))]>
        (<["vcs" := JList vcs]> ∅)).

(** The reading of the matching file in
    [load_page_with_enhanced_metadata]; all three branches [return]. *)
Definition read_enhanced (filename : string) (data : json)
    : pyresult (json * json * json) :=
  match data with
  | JDict d =>
      if bool_decide (is_Some (d !! "metadata")) && bool_decide (is_Some (d !! "vcs"))
      then
        vcs ← py_getitem data "vcs";
        md ← py_getitem data "metadata";
        st ← py_getitem md "status";
        mret (vcs, st, md)
      else if bool_decide (is_Some (d !! "vcs")) then
        md ← mret (dict_get d "metadata" (JDict ∅));
        st ← py_get md "status" (JStr "unknown");
        vcs ← py_getitem data "vcs";
        mret (vcs, st, md)
      else mret (data, legacy_status filename, JDict ∅)
  | _ => mret (data, legacy_status filename, JDict ∅)
  end.

Fixpoint load_page_loop (page_num : Z) (files : list result_file)
    : pyresult (json * json * json) :=
  match files with
  | [] => mret (JList [], JNull, JNull)
  | f :: rest =>
      if is_page_file page_num (filename f) then
        data ← content f;
        read_enhanced (filename f) data
      else load_page_loop page_num rest
  end.

(** [load_page_with_enhanced_metadata]: [(vcs_list, status, metadata)],
    or [([], None, None)]. *)
Definition load_page_with_enhanced_metadata (dir : results_dir) (page_num : Z)
    : json * json * json :=
  match dir with
  | None => (JList [], JNull, JNull)
  | Some files =>
      match load_page_loop page_num files with
      | Ok res => res
      | Raise _ => (JList [], JNull, JNull)
      end
  end.

(** [_get_pending_vcs] and [_get_completed_vcs]; Python lists the
    identifiers in their order of insertion, which the model does not
    keep. *)
Definition _get_pending_vcs (vc_status : vc_status_map) : list string :=
  (filter (fun kv => status kv.2 = "pending" ∨ status kv.2 = "failed")
     (map_to_list vc_status)).*1.

Definition _get_completed_vcs (vc_status : vc_status_map) : list string :=
  (filter (fun kv => status kv.2 = "completed") (map_to_list vc_status)).*1.

(** [f'_{status}_' in filename] for one of the statuses of the list *)
Definition has_status_tag (status_list : list string) (filename : string) : bool :=
  existsb (fun status => contains filename ("_" +:+ status +:+ "_")) status_list.

(** The loop of [_remove_old_page_files] over the listing: the files left.
    [can_remove] tells for which names [os.remove] succeeds; where it
    raises, the [except] around the loop ends the removal. *)
Fixpoint remove_old_loop (can_remove : string → bool) (page_num : Z)
    (status_list : list string) (files : list result_file) : list result_file :=
  match files with
  | [] => []
  | f :: rest =>
      if is_page_file page_num (filename f) && has_status_tag status_list (filename f)
      then if can_remove (filename f)
           then remove_old_loop can_remove page_num status_list rest
           else f :: rest
      else f :: remove_old_loop can_remove page_num status_list rest
  end.

(** [_remove_old_page_files]: the results directory afterwards. *)
Definition _remove_old_page_files (can_remove : string → bool) (dir : results_dir)
    (page_num : Z) (status_list : list string) : results_dir :=
  match dir with
  | None => None
  | Some files => Some (remove_old_loop can_remove page_num status_list files)
  end.

(** The metadata [save_page_with_enhanced_metadata] builds before any
    additional metadata is merged in. *)
Definition enhanced_metadata (page_num : Z) (status : string) (vcs : list json)
    (timestamp scrape_date session_id user_type connection_type : string)
    : gmap string json :=
  <["page_number" := JNum page_num]>
  (<["status" := JStr status]>
  (<["total_vcs" := JNum (Z.of_nat (length vcs))]>
  (<["scraped_timestamp" := JStr timestamp]>
  (<["scrape_date" := JStr scrape_date]>
  (<["session_id" := JStr session_id]>
  (<["user_type" := JStr user_type]>
  (<["connection_type" := JStr connection_type]>
  (<["scraper_version" := JStr "enhanced_old_version"]> ∅)))))))).

(** [page_data["metadata"].update(additional_metadata)] when the
    additional metadata is given and not empty. *)
Definition merged_metadata (additional_metadata : option (gmap string json))
    (metadata : gmap string json) : gmap string json :=
  match additional_metadata with
  | Some extra => extra ∪ metadata
  | None => metadata
  end.

(** What a call of [save_page_with_enhanced_metadata] reads from its
    environment: whether [os.makedirs] succeeds, for which names
    [os.remove] succeeds, whether [open] and [json.dump] succeed (a failure
    leaves no file), the place the system lists the new file at, and the
    two readings of the clock. *)
Record save_env : Type := {
  mkdir_ok : bool;
  can_remove : string → bool;
  write_ok : bool;
  position : nat;
  timestamp : string;
  scrape_date : string
}.

(** Writing the file [f]: a file of the same name is replaced. *)
Definition write_file (pos : nat) (f : result_file) (files : list result_file)
    : list result_file :=
  let others := filter (fun g => filename g ≠ filename f) files in
  take pos others ++ f :: drop pos others.

(** [save_page_with_enhanced_metadata]: the results directory afterwards
    and the value returned, the file name or [None]. *)
Definition save_page_with_enhanced_metadata (env : save_env)
    (session_id user_type connection_type : string) (dir : results_dir)
    (page_num : Z) (vcs : list json) (status : string)
    (additional_metadata : option (gmap string json))
    : results_dir * option string :=
  match (match dir with
         | Some files => Some files
         | None => if mkdir_ok env then Some [] else None
         end) with
  | None => (dir, None)
  | Some files =>
      let files :=
        if String.eqb status "completed"
        then remove_old_loop (can_remove env) page_num ["in_progress"; "partial"] files
        else files in
      let filename := enhanced_filename page_num status vcs (timestamp env) in
      let metadata :=
        merged_metadata additional_metadata
          (enhanced_metadata page_num status vcs (timestamp env) (scrape_date env)
             session_id user_type connection_type) in
      let page_data := JDict (<["metadata" := JDict metadata]> (<["vcs" := JList vcs]> ∅)) in
      if write_ok env
      then (Some (write_file (position env)
                    {| filename := filename; content := Ok page_data |} files),
            Some filename)
      else (Some files, None)
  end.

(** [save_page_with_enhanced_metadata] called with an arbitrary value as
    [vcs]: [len(vcs)] is first taken when the file name is built, after the
    old files were removed, and a value without length ends the call in
    its [except] branch. *)
Definition save_page_value (env : save_env)
    (session_id user_type connection_type : string) (dir : results_dir)
    (page_num : Z) (vcs : json) (status : string)
    (additional_metadata : option (gmap string json))
    : results_dir * option string :=
  match vcs with
  | JList l =>
      save_page_with_enhanced_metadata env session_id user_type connection_type dir
        page_num l status additional_metadata
  | _ =>
      match (match dir with
             | Some files => Some files
             | None => if mkdir_ok env then Some [] else None
             end) with
      | None => (dir, None)
      | Some files =>
          let files :=
            if String.eqb status "completed"
            then remove_old_loop (can_remove env) page_num ["in_progress"; "partial"] files
            else files in
          match py_len vcs with
          | Raise _ => (Some files, None)
          | Ok n =>
              let filename :=
                "page_" +:+ pretty page_num +:+ "_" +:+ status +:+ "_" +:+
                pretty n +:+ "_vcs_" +:+ timestamp env +:+ ".json" in
              let metadata :=
                merged_metadata additional_metadata
                  (<["page_number" := JNum page_num]>
                  (<["status" := JStr status]>
                  (<["total_vcs" := JNum (Z.of_nat n)]>
                  (<["scraped_timestamp" := JStr (timestamp env)]>
                  (<["scrape_date" := JStr (scrape_date env)]>
                  (<["session_id" := JStr session_id]>
                  (<["user_type" := JStr user_type]>
                  (<["connection_type" := JStr connection_type]>
                  (<["scraper_version" := JStr "enhanced_old_version"]> ∅))))))))) in
              let page_data :=
                JDict (<["metadata" := JDict metadata]> (<["vcs" := vcs]> ∅)) in
              if write_ok env
              then (Some (write_file (position env)
                            {| filename := filename; content := Ok page_data |} files),
                    Some filename)
              else (Some files, None)
          end
      end
  end.

(** [detect_rate_limit]: the body opens with [return False], and nothing
    of what follows it is reached. *)
Definition detect_rate_limit : bool := false.

End SNCVCScraper.

(** ** helpers/state_manager.py and helpers/enhanced_resume_detector.py *)

Module StateManager.

(** The part of the scraper instance the state manager touches. *)
Record scraper : Type := {
  results : results_dir;
  target_page : json
}.

Definition set_target_page (s : scraper) (p : json) : scraper :=
  {| results := results s; target_page := p |}.

(** The integer a value counts as in a comparison or a sum ([True] is 1). *)
Definition as_int (j : json) : option Z :=
  match j with
  | JNum z => Some z
  | JBool b => Some (if b then 1 else 0)
  | _ => None
  end.

(** [max(completed_pages) + 1] for a non-empty list.  Integers compare
    with integers only, and only an integer can be added to 1: anything
    else in the list makes [max] or the sum raise [TypeError]. *)
Definition max_plus_one (completed_pages : list json) : pyresult json :=
  match mapM as_int completed_pages with
  | Some (z :: zs) => Ok (JNum (fold_left Z.max zs z + 1))
  | _ => Raise TypeError
  end.

(** One round of the directory scan: the pair is
    [(in_progress_page, completed_pages)]. *)
Definition scan_file (st : json * list json) (f : result_file)
    : pyresult (json * list json) :=
  if startswith (filename f) "page_" && endswith (filename f) ".json" then
    match
      (page_data ← content f;
       has_metadata ← py_in "metadata" page_data;
       if has_metadata : bool then
         metadata ← py_getitem page_data "metadata";
         page_num ← py_get metadata "page_number" JNull;
         status ← py_get metadata "status" JNull;
         _ ← py_get metadata "total_vcs" (JNum 0);
         if eq_str status "in_progress" then mret (page_num, st.2)
         else if eq_str status "completed" then mret (st.1, st.2 ++ [page_num])
         else mret st
       else mret st)
    with
    | Raise JSONDecodeError => Ok st
    | r => r
    end
  else Ok st.

Fixpoint scan_files (st : json * list json) (files : list result_file)
    : pyresult (json * list json) :=
  match files with
  | [] => Ok st
  | f :: rest => st' ← scan_file st f; scan_files st' rest
  end.

(** The choice of the target page after the scan. *)
Definition choose_target (st : json * list json) : pyresult json :=
  match st.1 with
  | JNull =>
      match st.2 with
      | [] => Ok (JNum 1)
      | _ => max_plus_one st.2
      end
  | in_progress_page => Ok in_progress_page
  end.

(** [load_previous_state]: the scraper afterwards and the value returned. *)
Definition load_previous_state (s : scraper) : scraper * json :=
  let target_page :=
    match
      (st ← match results s with
            | Some files => scan_files (JNull, []) files
            | None => Ok (JNull, [])
            end;
       choose_target st)
    with
    | Ok p => p
    | Raise _ => JNum 1
    end in
  (set_target_page s target_page, target_page).

(** *** The experimental detector *)

Definition is_digit (c : Ascii.ascii) : bool :=
  (48 <=? Ascii.nat_of_ascii c)%nat && (Ascii.nat_of_ascii c <=? 57)%nat.

(** [int(digits)], read from the left with the value so far. *)
Fixpoint int_of_digits (acc : Z) (s : string) : Z :=
  match s with
  | EmptyString => acc
  | String c s' => int_of_digits (10 * acc + (Z.of_nat (Ascii.nat_of_ascii c) - 48)) s'
  end.

(** The longest run of digits at the head of [s], and what follows it. *)
Fixpoint span_digits (s : string) : string * string :=
  match s with
  | String c s' =>
      if is_digit c then let '(ds, rest) := span_digits s' in (String c ds, rest)
      else (EmptyString, s)
  | EmptyString => (EmptyString, EmptyString)
  end.

(** [re.search(r'page_(\d+)_', filename)] followed by
    [int(match.group(1))]: the leftmost place where [page_], at least one
    digit and [_] follow each other. *)
Definition match_page_at (s : string) : option Z :=
  if String.prefix "page_" s then
    let '(ds, rest) := span_digits (String.substring 5 (String.length s - 5) s) in
    if negb (String.eqb ds "") && String.prefix "_" rest
    then Some (int_of_digits 0 ds) else None
  else None.

Fixpoint search_page_number (s : string) : option Z :=
  match match_page_at s with
  | Some n => Some n
  | None =>
      match s with
      | EmptyString => None
      | String _ s' => search_page_number s'
      end
  end.

(** The page numbers of the files whose name holds [tag]. *)
Definition tagged_pages (tag : string) (files : list result_file) : list Z :=
  omap (fun f =>
          if contains (filename f) tag && endswith (filename f) ".json"
          then search_page_number (filename f) else None) files.

Definition max_list (l : list Z) : option Z :=
  match l with
  | [] => None
  | z :: zs => Some (fold_left Z.max zs z)
  end.

(** [_find_last_in_progress_page] *)
Definition _find_last_in_progress_page (dir : results_dir) : option Z :=
  match dir with
  | None => None
  | Some files => max_list (tagged_pages "in_progress" files)
  end.

(** [_find_next_available_page] *)
Definition _find_next_available_page (dir : results_dir) : Z :=
  match dir with
  | None => 1
  | Some files =>
      match max_list (tagged_pages "completed" files) with
      | Some m => m + 1
      | None => 1
      end
  end.

Fixpoint page_needs_work_loop (page_num : Z) (files : list result_file) : bool :=
  match files with
  | [] => true
  | f :: rest =>
      if is_page_file page_num (filename f) then
        if contains (filename f) "completed" then false
        else if contains (filename f) "in_progress" then true
        else page_needs_work_loop page_num rest
      else page_needs_work_loop page_num rest
  end.

(** [_page_needs_work] *)
Definition _page_needs_work (dir : results_dir) (page_num : Z) : bool :=
  match dir with
  | None => true
  | Some files => page_needs_work_loop page_num files
  end.

(** [_determine_optimal_resume_point] *)
Definition _determine_optimal_resume_point (dir : results_dir)
    (last_in_progress verification_page : Z) : Z :=
  if _page_needs_work dir verification_page then verification_page
  else last_in_progress.

(** [detect_resume_point_experimental] of a detector built on the scraper
    [s] with the flag [enable_experimental]: [None] when the flag is off. *)
Definition detect_resume_point_experimental (enable_experimental : bool)
    (s : scraper) : pyresult json :=
  if negb enable_experimental then Ok JNull
  else
    match _find_last_in_progress_page (results s) with
    | None => Ok (JNum (_find_next_available_page (results s)))
    | Some last_in_progress_page =>
        let verification_page := Z.max 1 (last_in_progress_page - 1) in
        Ok (JNum (_determine_optimal_resume_point (results s)
                    last_in_progress_page verification_page))
    end.

(** *** The wrapper *)

Section Experimental.

(** The module-level name [EnhancedResumeDetector]: [None] when the
    import failed, otherwise what
    [EnhancedResumeDetector(self.scraper, enable_experimental=True)]
    followed by [detect_resume_point_experimental()] gives in the running
    environment. *)
Variable EnhancedResumeDetector : option (scraper → pyresult json).

(** [load_previous_state_experimental]; an omitted
    [enable_experimental] is [None] and takes the default [False]. *)
Definition load_previous_state_experimental (s : scraper)
    (enable_experimental : option bool) : scraper * json :=
  match EnhancedResumeDetector with
  | Some detect =>
      if default false enable_experimental then
        match detect s with
        | Ok JNull => load_previous_state s
        | Ok experimental_resume_point =>
            (set_target_page s experimental_resume_point,
             experimental_resume_point)
        | Raise _ => load_previous_state s
        end
      else load_previous_state s
  | None => load_previous_state s
  end.

End Experimental.

End StateManager.

(** ** helpers/vc_page_helper/vc_orchestrator.py *)

Module VCOrchestrator.

(** [_validate_vc_page].  [page_source] is what
    [self.scraper.driver.page_source.lower()] gives, [current_url] what
    each reading of [self.scraper.driver.current_url] gives, and
    [error_text] the text of the exception in the [except] branch, where
    the URL is read again outside any [try]. *)
Definition _validate_vc_page (page_source current_url : pyresult string)
    (error_text : string) (vc_id : string) : pyresult json :=
  match
    (src ← page_source;
     if contains src "presumed inactive no recent investments in israel" then
       url ← current_url;
       Ok (JDict (<["status" := JStr "inactive"]>
                 (<["name" := JStr "Inactive VC (Not Scraped)"]>
                 (<["vc_id" := JStr vc_id]>
                 (<["url" := JStr url]>
                 (<["reason" := JStr "PRESUMED INACTIVE No recent investments in Israel"]>
                 (<["validation_type" := JStr "inactive"]>
                 (<["scraped_at" := JStr ""]>
                 (<["overview" := JStr ""]>
                 (<["investments" := JList []]> ∅))))))))))
     else if contains src "this profile has limited information" then
       url ← current_url;
       Ok (JDict (<["status" := JStr "limited_info"]>
                 (<["name" := JStr "Limited Info VC (Not Scraped)"]>
                 (<["vc_id" := JStr vc_id]>
                 (<["url" := JStr url]>
                 (<["reason" := JStr "This profile has limited information"]>
                 (<["validation_type" := JStr "limited_info"]>
                 (<["scraped_at" := JStr ""]>
                 (<["overview" := JStr ""]>
                 (<["investments" := JList []]> ∅))))))))))
     else
       url ← current_url;
       Ok (JDict (<["status" := JStr "valid"]>
                 (<["reason" := JStr "VC page is valid for scraping"]>
                 (<["vc_id" := JStr vc_id]>
                 (<["url" := JStr url]>
                 (<["validation_type" := JStr "valid"]> ∅)))))))
  with
  | Ok result => Ok result
  | Raise _ =>
      url ← current_url;
      Ok (JDict (<["status" := JStr "valid"]>
                (<["reason" := JStr ("Validation error: " +:+ error_text)]>
                (<["vc_id" := JStr vc_id]>
                (<["url" := JStr url]>
                (<["validation_type" := JStr "error"]> ∅))))))
  end.

(** The part of the scraper instance the orchestrator reads and writes. *)
Record tracking : Type := {
  vc_status : SNCVCScraper.vc_status_map;
  scraped_urls : gset string;
  scraped_vc_ids : gset string;
  scraped_count : Z;
  rate_limit_detected : bool;
  current_page : Z
}.

(** What one visit of an investor page gives: the readings of the clock
    (two for the first [_set_vc_status] of a new identifier, one for each
    later one), what the driver shows to [_validate_vc_page], and what
    [scrape_investor_overview] and [extract_investment_data] return or
    raise. *)
Record page_visit : Type := {
  clock : string * string * string;
  page_source : pyresult string;
  current_url : pyresult string;
  error_text : string;
  overview : pyresult json;
  investment : string → pyresult json
}.

(** [self.scraper._set_vc_status(vc_id, status, url)] on the instance *)
Definition set_status (t1 t2 : string) (st : tracking) (vc_id status : string)
    (url : option string) : tracking :=
  {| vc_status := SNCVCScraper._set_vc_status t1 t2 (current_page st) (vc_status st)
                    vc_id status url None;
     scraped_urls := scraped_urls st;
     scraped_vc_ids := scraped_vc_ids st;
     scraped_count := scraped_count st;
     rate_limit_detected := rate_limit_detected st;
     current_page := current_page st |}.

(** [url.split('?')[0].split('/')[-1] if '/' in url else url] *)
Definition vc_slug (url : string) : string :=
  if contains url "/"
  then List.last (split "/"%char (List.hd EmptyString (split "?"%char url))) EmptyString
  else url.

(** The dictionary display [{**overview_data, "investments": ..., ...}] *)
Definition complete_data (overview_data investment_data : json) : pyresult json :=
  match overview_data with
  | JDict od =>
      investments ← py_getitem investment_data "investments";
      by_sector ← py_getitem investment_data "investment_rounds_by_sector";
      by_type ← py_getitem investment_data "investment_rounds_by_type";
      summary ← py_getitem investment_data "summary";
      Ok (JDict (<["investment_summary" := summary]>
                (<["investment_rounds_by_type_detailed" := by_type]>
                (<["investment_rounds_by_sector_detailed" := by_sector]>
                (<["investments" := investments]> od)))))
  | _ => Raise TypeError
  end.

(** What the closing [print] calls read. *)
Definition closing_prints (overview_data investment_data : json) : pyresult unit :=
  _ ← py_getitem overview_data "name";
  summary ← py_getitem investment_data "summary";
  _ ← py_getitem summary "total_investments";
  _ ← py_getitem summary "total_sectors";
  _ ← py_getitem summary "total_round_types";
  Ok tt.

(** [scrape_investor_complete_with_investments]: the instance afterwards,
    and the value returned or the exception that leaves the method. *)
Definition scrape_investor_complete_with_investments (visit : page_visit)
    (st : tracking) (url : string) : tracking * pyresult json :=
  let vc_id := url_id url in
  let '(t1, t2, t3) := clock visit in
  if String.eqb (SNCVCScraper._get_vc_status (vc_status st) vc_id) "completed"
  then (st, Ok JNull)
  else
    let st := set_status t1 t2 st vc_id "in_progress" (Some url) in
    if SNCVCScraper.detect_rate_limit then
      let st := set_status t3 t3 st vc_id "failed" None in
      ({| vc_status := vc_status st;
          scraped_urls := scraped_urls st;
          scraped_vc_ids := scraped_vc_ids st;
          scraped_count := scraped_count st;
          rate_limit_detected := true;
          current_page := current_page st |}, Ok JNull)
    else
      match
        (validation_result ←
           _validate_vc_page (page_source visit) (current_url visit)
             (error_text visit) vc_id;
         status ← py_getitem validation_result "status";
         Ok (validation_result, status))
      with
      | Raise e => (st, Raise e)
      | Ok (validation_result, status) =>
          if negb (eq_str status "valid") then (st, Ok validation_result)
          else
            match overview visit with
            | Raise e => (st, Raise e)
            | Ok overview_data =>
                if negb (truthy overview_data)
                then (set_status t3 t3 st vc_id "failed" None, Ok JNull)
                else
                  match
                    (investment_data ← investment visit (vc_slug url);
                     data ← complete_data overview_data investment_data;
                     Ok (investment_data, data))
                  with
                  | Raise e => (st, Raise e)
                  | Ok (investment_data, data) =>
                      let st := set_status t3 t3 st vc_id "completed" (Some url) in
                      let st :=
                        {| vc_status := vc_status st;
                           scraped_urls := {[url]} ∪ scraped_urls st;
                           scraped_vc_ids := {[vc_id]} ∪ scraped_vc_ids st;
                           scraped_count := scraped_count st + 1;
                           rate_limit_detected := rate_limit_detected st;
                           current_page := current_page st |} in
                      match closing_prints overview_data investment_data with
                      | Raise e => (st, Raise e)
                      | Ok _ => (st, Ok data)
                      end
                  end
            end
      end.

End VCOrchestrator.

(** ** helpers/page_orchestrator.py *)

Module PageOrchestrator.

(** What one run over a page gets from the browser and the system: the
    de-duplicated links [unique_links] of the first attempt of
    [extract_vc_links_from_search_page] and of its fallback, or the
    exception that ends the attempt; what
    [scrape_vcs_in_parallel_tabs] returns for the links it is given; and
    the environment of the save. *)
Record page_run : Type := {
  found : pyresult (list string);
  fallback : pyresult (list string);
  scrape_vcs_in_parallel_tabs : list string → pyresult (list json);
  saving : SNCVCScraper.save_env;
  session_id : string;
  user_type : string;
  connection_type : string
}.

(** [SearchPageHelper.extract_vc_links_from_search_page]: both attempts
    filter the links against the snapshot of [self.scraper.current_page];
    the last [except] returns the empty list. *)
Definition extract_vc_links_from_search_page (run : page_run) (dir : results_dir)
    (current_page : Z) : list string :=
  let '(existing_vcs, _) := SearchPageHelper.load_existing_page_data dir current_page in
  match
    (unique_links ← found run;
     SearchPageHelper.filter_unscraped_vcs unique_links existing_vcs)
  with
  | Ok vcs_to_scrape => vcs_to_scrape
  | Raise _ =>
      match
        (unique_links ← fallback run;
         SearchPageHelper.filter_unscraped_vcs unique_links existing_vcs)
      with
      | Ok vcs_to_scrape => vcs_to_scrape
      | Raise _ => []
      end
  end.

(** [existing_vcs + new_results] *)
Definition py_add_list (existing_vcs : json) (new_results : list json)
    : pyresult (list json) :=
  match existing_vcs with
  | JList l => Ok (l ++ new_results)
  | _ => Raise TypeError
  end.

(** Steps 4 to 6 of [process_single_page]. *)
Definition scrape_and_save (run : page_run) (dir : results_dir) (page_num : Z)
    (existing_vcs : json) (vcs_to_scrape : list string)
    : results_dir * pyresult (json * Z) :=
  match
    (new_results ← match vcs_to_scrape with
                   | [] => Ok []
                   | _ => scrape_vcs_in_parallel_tabs run vcs_to_scrape
                   end;
     py_add_list existing_vcs new_results)
  with
  | Raise e => (dir, Raise e)
  | Ok all_page_results =>
      ((SNCVCScraper.save_page_with_enhanced_metadata (saving run) (session_id run)
          (user_type run) (connection_type run) dir page_num all_page_results
          "completed" None).1,
       Ok (JList all_page_results, page_num))
  end.

(** [process_single_page]: the results directory afterwards and the pair
    returned, or the exception that leaves the method.  What the calls
    write to the progress directory and to the tracking dictionaries of the
    instance is left out. *)
Definition process_single_page (run : page_run) (dir : results_dir)
    (current_page : Z) (page_num : option Z) : results_dir * pyresult (json * Z) :=
  let page_num := default current_page page_num in
  let '(existing_vcs, existing_status, _) :=
    SNCVCScraper.load_page_with_enhanced_metadata dir page_num in
  if truthy existing_vcs then
    if eq_str existing_status "completed" then (dir, Ok (existing_vcs, page_num))
    else
      match extract_vc_links_from_search_page run dir current_page with
      | [] => (dir, Ok (JList [], page_num))
      | all_vc_links =>
          match SearchPageHelper.filter_unscraped_vcs all_vc_links existing_vcs with
          | Raise e => (dir, Raise e)
          | Ok [] =>
              ((SNCVCScraper.save_page_value (saving run) (session_id run)
                  (user_type run) (connection_type run) dir page_num existing_vcs
                  "completed" None).1,
               Ok (existing_vcs, page_num))
          | Ok vcs_to_scrape =>
              scrape_and_save run dir page_num existing_vcs vcs_to_scrape
          end
      end
  else
    match extract_vc_links_from_search_page run dir current_page with
    | [] => (dir, Ok (JList [], page_num))
    | all_vc_links => scrape_and_save run dir page_num (JList []) all_vc_links
    end.

End PageOrchestrator.

(** ** populate_cache_from_results.py *)

Module PopulateCache.

(** A dictionary [vc_info] of [extract_vc_data_from_results], for an item
    whose fields are character strings, as the signature of [add_vc] asks. *)
Record vc_info : Type := {
  slug : string;
  name : string;
  url : string;
  page_number : Z;
  scraped_at : string;
  source_file : string
}.

(** What one round of the loop [for vc in vcs] reads from its environment:
    whether the save of [add_vc] succeeds, whether the one of
    [mark_vc_completed] does, and the readings of the clock in the two
    calls. *)
Record round_env : Type := {
  add_saved : bool;
  mark_saved : bool;
  add_clock : string * string;
  mark_clock : string * string
}.

(** [cache_manager.get_vc_status(slug) is not None] on the cache in
    memory, read through what [get_vc_status] does on its dictionary, where
    it does not raise. *)
Definition already_in_cache (cache_data : VCCacheManager.cache) (slug : string) : bool :=
  match VCCacheManager.get_vc_status (VCCacheManager.cache_to_json cache_data) slug with
  | Ok JNull => false
  | _ => true
  end.

(** The two assignments to [cache_manager.cache_data[slug]] that follow
    a non-empty [scraped_at]. *)
Definition set_scraped_at (cache_data : VCCacheManager.cache) (slug scraped_at : string)
    : VCCacheManager.cache :=
  match cache_data !! slug with
  | Some e =>
      <[slug := {| VCCacheManager.name := VCCacheManager.name e;
                   VCCacheManager.url := VCCacheManager.url e;
                   VCCacheManager.slug := VCCacheManager.slug e;
                   VCCacheManager.first_seen_page := VCCacheManager.first_seen_page e;
                   VCCacheManager.scraping_status := VCCacheManager.scraping_status e;
                   VCCacheManager.first_discovered := VCCacheManager.first_discovered e;
                   VCCacheManager.last_updated := scraped_at;
                   VCCacheManager.last_scraped := Some scraped_at;
                   VCCacheManager.scrape_attempts := VCCacheManager.scrape_attempts e;
                   VCCacheManager.data_hash := VCCacheManager.data_hash e |}]> cache_data
  | None => cache_data
  end.

(** One round of the loop [for vc in vcs] of [populate_cache_from_results]:
    the cache in memory afterwards, and whether the round counts the item
    as added. *)
Definition populate_vc (cache_data : VCCacheManager.cache) (round : round_env * vc_info)
    : VCCacheManager.cache * bool :=
  let '(env, vc) := round in
  if already_in_cache cache_data (slug vc) then (cache_data, false)
  else
    let '(cache_data, success) :=
      VCCacheManager.add_vc (add_saved env) (add_clock env).1 (add_clock env).2
        cache_data (slug vc) (name vc) (url vc) (Some (page_number vc)) in
    if success then
      let cache_data :=
        (VCCacheManager.mark_vc_completed (mark_saved env) (mark_clock env).1
           (mark_clock env).2 cache_data (slug vc) None).1 in
      let cache_data :=
        if negb (String.eqb (scraped_at vc) "")
        then set_scraped_at cache_data (slug vc) (scraped_at vc)
        else cache_data in
      (cache_data, true)
    else (cache_data, false).

(** The loop over the items of a file, and of the files that follow. *)
Definition populate_vcs (cache_data : VCCacheManager.cache)
    (rounds : list (round_env * vc_info)) : VCCacheManager.cache :=
  fold_left (fun c round => (populate_vc c round).1) rounds cache_data.

End PopulateCache.

(** ** Notions of the design document *)

Module Spec.
Import VCCacheManager SearchPageHelper.


(** A value is non-empty: a character string, list or dictionary with
    something in it; a number other than zero; [true].  A missing value
    ([None]) is empty. *)
Inductive NonEmpty : json → Prop :=
| ne_true : NonEmpty (JBool true)
| ne_num z : z ≠ 0 → NonEmpty (JNum z)
| ne_str s : s ≠ "" → NonEmpty (JStr s)
| ne_list x l : NonEmpty (JList (x :: l))
| ne_dict d : d ≠ ∅ → NonEmpty (JDict d).

(** The field [field] of the record [d] is populated. *)
Definition populated (d : gmap string json) (field : string) : Prop :=
  ∃ x, d !! field = Some x ∧ NonEmpty x.

(** The item [vc] classifies as scraped: a record with one of the key
    overview fields populated and investments populated. *)
Definition classified_scraped (vc : json) : Prop :=
  ∃ d, vc = JDict d ∧
       (∃ field, field ∈ key_overview_fields ∧ populated d field) ∧
       populated d "investments".

(** What the writing methods keep true of every entry: it sits under its
    own slug, its status is one of the three the methods write, its attempt
    count is not negative, a completed entry has a scrape time, and a
    pending entry has no attempt, no scrape time and no hash. *)
Definition entry_ok (key : string) (e : vc_entry) : Prop :=
  slug e = key ∧
  (scraping_status e = "pending" ∨ scraping_status e = "completed" ∨
   scraping_status e = "failed") ∧
  0 ≤ scrape_attempts e ∧
  (scraping_status e = "completed" → is_Some (last_scraped e)) ∧
  (scraping_status e = "pending" →
     scrape_attempts e = 0 ∧ last_scraped e = None ∧ data_hash e = None).

Definition cache_ok (c : cache) : Prop := ∀ key e, c !! key = Some e → entry_ok key e.

(** The call adds an entry under [slug]. *)
Definition adds (slug : string) (call : cache_call) : Prop :=
  match call with
  | CallAdd _ _ _ slug' _ _ _ => slug' = slug
  | _ => False
  end.

(** The call is a [mark_vc_failed] of [slug]. *)
Definition fails (slug : string) (call : cache_call) : Prop :=
  match call with
  | CallFailed _ _ slug' => slug' = slug
  | _ => False
  end.

#[global] Instance adds_dec slug call : Decision (adds slug call).
Proof. destruct call; simpl; apply _. Defined.

#[global] Instance fails_dec slug call : Decision (fails slug call).
Proof. destruct call; simpl; apply _. Defined.

(** The cache file cannot be read: it is missing, [open] or [json.load]
    raises, or what is loaded has no length to report. *)
Inductive unreadable : cache_file → Prop :=
| unreadable_missing : unreadable NoFile
| unreadable_raises e : unreadable (FileContent (Raise e))
| unreadable_unsized j e : py_len j = Raise e → unreadable (FileContent (Ok j)).

(** The snapshot [items] records the identifier [vc_id] as scraped. *)
Definition recorded_scraped (items : list json) (vc_id : string) : Prop :=
  ∃ d, JDict d ∈ items ∧ d !! "vc_id" = Some (JStr vc_id) ∧ vc_id ≠ "" ∧
       classified_scraped (JDict d).

(** The same as a test: the item carries [vc_id] as a non-empty
    identifier and classifies as scraped. *)
Definition records_scraped (vc_id : string) (vc : json) : bool :=
  match vc with
  | JDict d =>
      eq_str (dict_get d "vc_id" JNull) vc_id && negb (String.eqb vc_id "") &&
      String.eqb (determine_vc_status vc) "scraped"
  | _ => false
  end.

(** The candidates of [links] that the snapshot records as scraped. *)
Definition already_scraped (items : list json) (links : list string) : list string :=
  filter (fun url => existsb (records_scraped (url_id url)) items = true) links.

(** The identifier under which an item classified as scraped is recorded,
    when it has one. *)
Definition scraped_id (vc : json) : option string :=
  match vc with
  | JDict d =>
      match d !! "vc_id" with
      | Some (JStr s) =>
          if negb (String.eqb s "") && String.eqb (determine_vc_status vc) "scraped"
          then Some s else None
      | _ => None
      end
  | _ => None
  end.

Definition scraped_ids (items : list json) : list string := omap scraped_id items.

(** M, the number of items of the snapshot classified as scraped. *)
Definition scraped_count (items : list json) : nat :=
  length (filter (fun vc => determine_vc_status vc = "scraped") items).

(** No item of the snapshot has a list or a dictionary as its [vc_id]. *)
Definition plain_ids (items : list json) : Prop :=
  ∀ d v, JDict d ∈ items → d !! "vc_id" = Some v → hashable v = true.

(** [f] is a structured snapshot of the unit [u.1] with status [u.2],
    under a name the state manager scans. *)
Definition snapshot_of (f : result_file) (u : Z * string) : Prop :=
  startswith (filename f) "page_" = true ∧
  endswith (filename f) ".json" = true ∧
  ∃ d md, content f = Ok (JDict d) ∧
          d !! "metadata" = Some (JDict md) ∧
          md !! "page_number" = Some (JNum u.1) ∧
          md !! "status" = Some (JStr u.2).

(** The units of a listing with a given status, in listing order. *)
Definition units_with (st : string) (units : list (Z * string)) : list Z :=
  (filter (fun u => u.2 = st) units).*1.

(** The resume plan of the design document: the highest in-progress unit,
    else one past the highest completed unit, else the first unit. *)
Definition resume_plan (units : list (Z * string)) : Z :=
  match StateManager.max_list (units_with "in_progress" units) with
  | Some p => p
  | None =>
      match StateManager.max_list (units_with "completed" units) with
      | Some c => c + 1
      | None => 1
      end
  end.

(** The same with the in-progress unit listed last in place of the
    highest one. *)
Definition listed_plan (units : list (Z * string)) : Z :=
  match last (units_with "in_progress" units) with
  | Some p => p
  | None =>
      match StateManager.max_list (units_with "completed" units) with
      | Some c => c + 1
      | None => 1
      end
  end.

(** Files the directory scan of [load_previous_state] passes over: a name
    that is not [page_*.json], a file that is not JSON, a dictionary
    without [metadata], a list holding no string [metadata] (the legacy
    format among them), or metadata whose status is neither [in_progress]
    nor [completed]. *)
Definition passed_over (f : result_file) : Prop :=
  startswith (filename f) "page_" && endswith (filename f) ".json" = false ∨
  content f = Raise JSONDecodeError ∨
  (∃ d, content f = Ok (JDict d) ∧ d !! "metadata" = None) ∨
  (∃ l, content f = Ok (JList l) ∧ existsb (fun j => eq_str j "metadata") l = false) ∨
  (∃ d md, content f = Ok (JDict d) ∧ d !! "metadata" = Some (JDict md) ∧
           eq_str (dict_get md "status" JNull) "in_progress" = false ∧
           eq_str (dict_get md "status" JNull) "completed" = false).

(** Files named [page_*.json] on which the scan raises something else
    than [JSONDecodeError]: the file cannot be opened or read, it holds
    [null], a number or a boolean, or its [metadata] is not a
    dictionary. *)
Definition breaks_scan (f : result_file) : Prop :=
  startswith (filename f) "page_" && endswith (filename f) ".json" = true ∧
  ((∃ e, content f = Raise e ∧ e ≠ JSONDecodeError) ∨
   content f = Ok JNull ∨
   (∃ z, content f = Ok (JNum z)) ∨
   (∃ b, content f = Ok (JBool b)) ∨
   (∃ d m, content f = Ok (JDict d) ∧ d !! "metadata" = Some m ∧ is_dict m = false)).

(** The file [save_page_with_enhanced_metadata] writes for the unit [u]
    when it is given no additional metadata. *)
Definition written_for (f : result_file) (u : Z * string) : Prop :=
  ∃ vcs timestamp scrape_date session_id user_type connection_type,
    filename f = SNCVCScraper.enhanced_filename u.1 u.2 vcs timestamp ∧
    content f = Ok (SNCVCScraper.enhanced_page_data u.1 u.2 vcs timestamp scrape_date
                      session_id user_type connection_type).



(** The entry the cache migration creates in a round for an identifier
    that was not in the cache. *)
Definition migrated (round : PopulateCache.round_env * PopulateCache.vc_info)
    (e : vc_entry) : Prop :=
  name e = PopulateCache.name round.2 ∧
  url e = PopulateCache.url round.2 ∧
  first_seen_page e = Some (PopulateCache.page_number round.2) ∧
  scrape_attempts e = 0 ∧
  scraping_status e
  = (if PopulateCache.add_saved round.1 then "completed" else "pending").

End Spec.

(** ** Sample data used by the examples of Parts II and III *)

Module Samples.
Import VCCacheManager.

Definition acme_url : string :=
  "https://finder.startupnationcentral.org/investor_page/acme".

(** The cache entry of an investor that failed twice and then completed. *)
Definition acme_done : vc_entry :=
  {| name := "Acme Ventures";
     url := acme_url;
     slug := "acme";
     first_seen_page := Some 3;
     scraping_status := "completed";
     first_discovered := "2025-01-05 10:00:00";
     last_updated := "2025-01-06 09:30:00";
     last_scraped := Some "2025-01-06 09:30:00";
     scrape_attempts := 2;
     data_hash := Some "hash123" |}.

Definition one_entry_cache : cache := {["acme" := acme_done]}.

Definition beta_url : string :=
  "https://finder.startupnationcentral.org/investor_page/beta".

Definition gamma_url : string :=
  "https://finder.startupnationcentral.org/investor_page/gamma".

Definition a_round : json := JDict {["company" := JStr "Widgets Ltd"]}.

(** A snapshot item with a key overview field and investments. *)
Definition acme_item : json :=
  JDict (<["vc_id" := JStr "acme"]>
        (<["founded" := JStr "2001"]>
        (<["investments" := JList [a_round]]> ∅))).

(** An item with a key overview field and an empty investments list. *)
Definition beta_item : json :=
  JDict (<["vc_id" := JStr "beta"]>
        (<["overview" := JStr "Seed fund"]>
        (<["investments" := JList []]> ∅))).

(** An item with investments and no key overview field. *)
Definition delta_item : json :=
  JDict (<["vc_id" := JStr "delta"]>
        (<["name" := JStr "Delta Capital"]>
        (<["investments" := JList [a_round]]> ∅))).

(** The tracking record of an investor found on page 1 and inactive. *)
Definition inactive_on_page_1 : SNCVCScraper.vc_record :=
  {| SNCVCScraper.status := "inactive";
     SNCVCScraper.url := beta_url;
     SNCVCScraper.attempts := 1;
     SNCVCScraper.first_seen := "2025-01-05 10:00:00";
     SNCVCScraper.last_updated := "2025-01-05 10:00:09";
     SNCVCScraper.discovered_on_page := 1 |}.

(** A snapshot file as [save_page_with_enhanced_metadata] leaves it. *)
Definition saved_page (page_num : Z) (status : string) (vcs : list json)
    (timestamp : string) : result_file :=
  {| filename := SNCVCScraper.enhanced_filename page_num status vcs timestamp;
     content := Ok (SNCVCScraper.enhanced_page_data page_num status vcs timestamp
                      "2025-01-05 10:15:00" "20250105_100000" "manual" "manual") |}.

(** A legacy snapshot: a bare list of items under a status-bearing name. *)
Definition legacy_page_2 : result_file :=
  {| filename := "page_2_completed_1_vcs_20240301_120000.json";
     content := Ok (JList [acme_item]) |}.

(** A scraper whose results directory holds the given files. *)
Definition scraper_with (files : list result_file) : StateManager.scraper :=
  {| StateManager.results := Some files; StateManager.target_page := JNull |}.

(** Pages 3 and 2 both in progress, listed in this order. *)
Definition two_in_progress : list result_file :=
  [saved_page 3 "in_progress" [acme_item] "101500";
   saved_page 2 "in_progress" [beta_item] "093000"].

(** A detector that fails in its environment. *)
Definition failing_detector : StateManager.scraper → pyresult json :=
  fun _ => Raise OSError.

(** An instance that tracks nothing yet, and a visit of a page that shows
    the inactive notice. *)
Definition fresh_tracking : VCOrchestrator.tracking :=
  {| VCOrchestrator.vc_status := ∅;
     VCOrchestrator.scraped_urls := ∅;
     VCOrchestrator.scraped_vc_ids := ∅;
     VCOrchestrator.scraped_count := 0;
     VCOrchestrator.rate_limit_detected := false;
     VCOrchestrator.current_page := 1 |}.

Definition inactive_visit : VCOrchestrator.page_visit :=
  {| VCOrchestrator.clock :=
       ("2025-01-05 10:00:00", "2025-01-05 10:00:00", "2025-01-05 10:00:09");
     VCOrchestrator.page_source :=
       Ok "acme capital presumed inactive no recent investments in israel";
     VCOrchestrator.current_url := Ok acme_url;
     VCOrchestrator.error_text := EmptyString;
     VCOrchestrator.overview := Ok JNull;
     VCOrchestrator.investment := fun _ => Ok JNull |}.

(** A run that finds the link of Acme and scrapes it, and a run in which
    the browser fails at every step. *)
Definition acme_run : PageOrchestrator.page_run :=
  {| PageOrchestrator.found := Ok [acme_url];
     PageOrchestrator.fallback := Raise OSError;
     PageOrchestrator.scrape_vcs_in_parallel_tabs := fun _ => Ok [acme_item];
     PageOrchestrator.saving :=
       {| SNCVCScraper.mkdir_ok := true;
          SNCVCScraper.can_remove := fun _ => true;
          SNCVCScraper.write_ok := true;
          SNCVCScraper.position := 0;
          SNCVCScraper.timestamp := "121500";
          SNCVCScraper.scrape_date := "2025-01-05 12:15:00" |};
     PageOrchestrator.session_id := "20250105_100000";
     PageOrchestrator.user_type := "manual";
     PageOrchestrator.connection_type := "manual" |}.

Definition failing_run : PageOrchestrator.page_run :=
  {| PageOrchestrator.found := Raise OSError;
     PageOrchestrator.fallback := Raise OSError;
     PageOrchestrator.scrape_vcs_in_parallel_tabs := fun _ => Raise OSError;
     PageOrchestrator.saving :=
       {| SNCVCScraper.mkdir_ok := false;
          SNCVCScraper.can_remove := fun _ => false;
          SNCVCScraper.write_ok := false;
          SNCVCScraper.position := 0;
          SNCVCScraper.timestamp := "131500";
          SNCVCScraper.scrape_date := "2025-01-05 13:15:00" |};
     PageOrchestrator.session_id := "20250105_130000";
     PageOrchestrator.user_type := "manual";
     PageOrchestrator.connection_type := "manual" |}.

(** A round of the cache migration for Acme, all saves succeeding. *)
Definition acme_round : PopulateCache.round_env * PopulateCache.vc_info :=
  ({| PopulateCache.add_saved := true;
      PopulateCache.mark_saved := true;
      PopulateCache.add_clock := ("2025-02-01T09:00:00", "2025-02-01T09:00:00");
      PopulateCache.mark_clock := ("2025-02-01T09:00:01", "2025-02-01T09:00:01") |},
   {| PopulateCache.slug := "acme";
      PopulateCache.name := "Acme Capital (migrated)";
      PopulateCache.url := acme_url;
      PopulateCache.page_number := 3;
      PopulateCache.scraped_at := "2025-01-05 10:15:00";
      PopulateCache.source_file := "page_3_completed_1_vcs_20250105_101500.json" |}).

End Samples.

(* ===================================================================== *)
(** * Part II: properties                                                 *)
(* ===================================================================== *)

(** ** The cache manager *)

Module CacheProps.
Import VCCacheManager Samples.

Lemma add_vc_lookup_other w t1 t2 (c : cache) slug name url p k :
  k ≠ slug → (add_vc w t1 t2 c slug name url p).1 !! k = c !! k.
Proof. intros Hk. unfold add_vc. simpl. by rewrite lookup_insert_ne. Qed.

(** C1, as the design document states it, fails: on a cache that already
    holds the completed entry ["acme"], a further [add_vc "acme"] whose
    write succeeds returns [True] and leaves a pending entry with no
    attempts in its place. *)
Lemma add_vc_present_not_noop :
  let r := add_vc true "2025-02-01 08:00:00" "2025-02-01 08:00:00"
             one_entry_cache "acme" "Acme Ventures" acme_url (Some 3) in
  one_entry_cache !! "acme" = Some acme_done ∧
  r.2 = true ∧
  r.1 ≠ one_entry_cache ∧
  (scraping_status <$> r.1 !! "acme") = Some "pending" ∧
  (scrape_attempts <$> r.1 !! "acme") = Some 0 ∧
  (last_scraped <$> r.1 !! "acme") = Some None.
Proof.
  simpl. unfold one_entry_cache. split_and!.
  - apply lookup_singleton_eq.
  - reflexivity.
  - intros Heq.
    apply (f_equal (fun m : cache => scraping_status <$> m !! "acme")) in Heq.
    rewrite lookup_insert_eq, lookup_singleton_eq in Heq. discriminate Heq.
  - by rewrite lookup_insert_eq.
  - by rewrite lookup_insert_eq.
  - by rewrite lookup_insert_eq.
Qed.

(** C1, amended: [add_vc] on an identifier already present keeps the size
    of the cache, its key set and every other entry, but it replaces the
    entry by a fresh pending one (no attempts, new time stamps, no scrape
    time, no hash) and returns the outcome of saving the cache. *)
Theorem add_vc_present_overwrites w t1 t2 (c : cache) slug name url p e :
  c !! slug = Some e →
  let r := add_vc w t1 t2 c slug name url p in
  r.2 = w ∧
  size r.1 = size c ∧
  dom r.1 = dom c ∧
  r.1 !! slug = Some {| name := name; url := url; slug := slug;
                        first_seen_page := p; scraping_status := "pending";
                        first_discovered := t1; last_updated := t2;
                        last_scraped := None; scrape_attempts := 0;
                        data_hash := None |} ∧
  ∀ k, k ≠ slug → r.1 !! k = c !! k.
Proof.
  intros He. simpl. split_and!.
  - done.
  - apply map_size_insert_Some. by exists e.
  - apply dom_insert_lookup_L. by exists e.
  - apply lookup_insert_eq.
  - intros k Hk. by rewrite lookup_insert_ne.
Qed.

Lemma add_vc_present_overwrites_witness :
  let r := add_vc false "t1" "t2" one_entry_cache "acme" "Acme" "u" None in
  one_entry_cache !! "acme" = Some acme_done ∧
  r.2 = false ∧ size r.1 = size one_entry_cache.
Proof.
  assert (Hl : one_entry_cache !! "acme" = Some acme_done)
    by (unfold one_entry_cache; apply lookup_singleton_eq).
  destruct (add_vc_present_overwrites false "t1" "t2" one_entry_cache
              "acme" "Acme" "u" None acme_done Hl) as (H1 & H2 & _).
  split; [exact Hl|]. split; assumption.
Defined.

(** C8: on an unknown identifier [mark_vc_completed] and [mark_vc_failed]
    return [False] and leave the cache as it is; on a known one
    [mark_vc_failed] returns the outcome of the save, and the entry then
    has status [failed], the new time stamp and one more attempt. *)
Theorem mark_unknown_noop_failed_counts w t1 t2 (c : cache) slug h :
  (c !! slug = None →
     mark_vc_completed w t1 t2 c slug h = (c, false) ∧
     mark_vc_failed w t1 c slug = (c, false)) ∧
  (∀ e, c !! slug = Some e →
     let r := mark_vc_failed w t1 c slug in
     r.2 = w ∧
     ∃ e', r.1 !! slug = Some e' ∧
           scraping_status e' = "failed" ∧
           last_updated e' = t1 ∧
           scrape_attempts e' = scrape_attempts e + 1).
Proof.
  split.
  - intros Hn. unfold mark_vc_completed, mark_vc_failed. by rewrite Hn.
  - intros e He. unfold mark_vc_failed. rewrite He. simpl. split; [done|].
    eexists. split; [apply lookup_insert_eq|]. done.
Qed.

Lemma mark_unknown_noop_failed_counts_witness :
  (mark_vc_completed true "t1" "t2" one_entry_cache "nobody" (Some "h")
     = (one_entry_cache, false) ∧
   mark_vc_failed true "t1" one_entry_cache "nobody" = (one_entry_cache, false)) ∧
  (mark_vc_failed true "t1" one_entry_cache "acme").2 = true.
Proof.
  split.
  - apply (mark_unknown_noop_failed_counts true "t1" "t2" one_entry_cache
             "nobody" (Some "h")).
    unfold one_entry_cache. by apply lookup_singleton_ne.
  - apply (mark_unknown_noop_failed_counts true "t1" "t2" one_entry_cache
             "acme" None) with (e := acme_done).
    unfold one_entry_cache. apply lookup_singleton_eq.
Defined.

(** C10: on a known identifier [mark_vc_completed] leaves the name, url,
    slug, first page, discovery time and attempt count of the entry as
    they were, and its hash too unless a non-empty hash is given;
    [mark_vc_failed] leaves the name, url, slug, first page, discovery
    time, scrape time and hash as they were; both leave every other entry
    of the cache untouched. *)
Theorem mark_frame w t1 t2 (c : cache) slug h e :
  c !! slug = Some e →
  let rc := mark_vc_completed w t1 t2 c slug h in
  let rf := mark_vc_failed w t1 c slug in
  (∃ e', rc.1 !! slug = Some e' ∧
         name e' = name e ∧ url e' = url e ∧
         VCCacheManager.slug e' = VCCacheManager.slug e ∧
         first_seen_page e' = first_seen_page e ∧
         first_discovered e' = first_discovered e ∧
         scrape_attempts e' = scrape_attempts e ∧
         data_hash e' = (if hash_given h then h else data_hash e)) ∧
  (∀ k, k ≠ slug → rc.1 !! k = c !! k) ∧
  (∃ e', rf.1 !! slug = Some e' ∧
         name e' = name e ∧ url e' = url e ∧
         VCCacheManager.slug e' = VCCacheManager.slug e ∧
         first_seen_page e' = first_seen_page e ∧
         first_discovered e' = first_discovered e ∧
         last_scraped e' = last_scraped e ∧
         data_hash e' = data_hash e) ∧
  (∀ k, k ≠ slug → rf.1 !! k = c !! k).
Proof.
  intros He. unfold mark_vc_completed, mark_vc_failed. rewrite He. simpl.
  split_and!.
  - eexists. split; [apply lookup_insert_eq|]. done.
  - intros k Hk. by rewrite lookup_insert_ne.
  - eexists. split; [apply lookup_insert_eq|]. done.
  - intros k Hk. by rewrite lookup_insert_ne.
Qed.

Lemma mark_frame_witness :
  one_entry_cache !! "acme" = Some acme_done ∧
  (mark_vc_completed true "t1" "t2" one_entry_cache "acme" (Some "h2")).1 !! "other"
  = one_entry_cache !! "other".
Proof.
  assert (Hl : one_entry_cache !! "acme" = Some acme_done)
    by (unfold one_entry_cache; apply lookup_singleton_eq).
  split; [exact Hl|].
  destruct (mark_frame true "t1" "t2" one_entry_cache "acme" (Some "h2")
              acme_done Hl) as (_ & H & _).
  apply H. discriminate.
Defined.

End CacheProps.

(** ** The cache as a filter *)

Module CacheReadProps.
Import VCCacheManager SearchPageHelper Spec Samples.

Lemma is_vc_completed_empty slug : is_vc_completed (JDict ∅) slug = Ok false.
Proof.
  unfold is_vc_completed, get_vc_status. simpl.
  unfold dict_get. rewrite lookup_empty. simpl.
  unfold dict_get. rewrite lookup_empty. reflexivity.
Qed.

Lemma unreadable_loads_empty f : unreadable f → _load_cache f = JDict ∅.
Proof.
  intros [ | e | j e Hlen]; simpl; try reflexivity.
  by rewrite Hlen.
Qed.

Lemma cache_filter_loop_empty links : cache_filter_loop (JDict ∅) links = Ok links.
Proof.
  induction links as [|url rest IH]; simpl; [reflexivity|].
  rewrite is_vc_completed_empty. simpl. rewrite IH. reflexivity.
Qed.

(** What [json.load] reads back from a saved cache answers
    [is_vc_completed] by the status field of the entry. *)
Lemma is_vc_completed_saved (c : cache) slug :
  is_vc_completed (cache_to_json c) slug
  = Ok (bool_decide (scraping_status <$> c !! slug = Some "completed")).
Proof.
  unfold is_vc_completed, get_vc_status, cache_to_json. simpl.
  unfold dict_get. rewrite lookup_fmap.
  destruct (c !! slug) as [e|]; simpl.
  - unfold dict_get.
    repeat (rewrite lookup_insert_ne by discriminate).
    rewrite lookup_insert_eq. simpl. f_equal. symmetry.
    destruct (String.eqb_spec (scraping_status e) "completed") as [Heq|Hne].
    + apply bool_decide_eq_true_2. by rewrite Heq.
    + apply bool_decide_eq_false_2. intros [=]. done.
  - unfold dict_get. rewrite lookup_empty. reflexivity.
Qed.

(** A link is dropped by [_filter_links_by_cache] only when the cache
    answers that its identifier is completed. *)
Lemma cache_filter_loop_drops cache_data links kept url :
  cache_filter_loop cache_data links = Ok kept →
  url ∈ links → url ∉ kept →
  is_vc_completed cache_data (url_id url) = Ok true.
Proof.
  revert kept. induction links as [|u rest IH]; intros kept Hrun Hin Hout.
  - by apply elem_of_nil in Hin.
  - simpl in Hrun.
    destruct (is_vc_completed cache_data (url_id u)) as [b|e] eqn:Hb; [|done].
    simpl in Hrun.
    destruct (cache_filter_loop cache_data rest) as [k|e] eqn:Hk; [|done].
    simpl in Hrun. injection Hrun as <-.
    apply elem_of_cons in Hin as [->|Hin].
    + destruct b; [done|]. exfalso. apply Hout. by left.
    + apply (IH k); [done|done|].
      intros Hk'. apply Hout. destruct b; [done|]. by right.
Qed.

(** C7: when the cache file cannot be read (it is missing, or opening,
    parsing or measuring it raises) the cache is loaded as the empty
    dictionary and [is_vc_completed] returns [False], without raising, for
    every identifier; [_filter_links_by_cache] then returns the links it was
    given, and it also returns them whenever the filtering loop itself
    raises. *)
Theorem cache_failure_keeps_candidates f (links : list string) :
  (unreadable f →
     _load_cache f = JDict ∅ ∧
     (∀ slug, is_vc_completed (_load_cache f) slug = Ok false) ∧
     _filter_links_by_cache f links = links) ∧
  (∀ e, cache_filter_loop (_load_cache f) links = Raise e →
        _filter_links_by_cache f links = links).
Proof.
  split.
  - intros Hf. pose proof (unreadable_loads_empty f Hf) as Hl. split_and!.
    + exact Hl.
    + intros slug. rewrite Hl. apply is_vc_completed_empty.
    + unfold _filter_links_by_cache. rewrite Hl.
      by rewrite cache_filter_loop_empty.
  - intros e He. unfold _filter_links_by_cache. by rewrite He.
Qed.

Lemma cache_failure_keeps_candidates_witness :
  unreadable (FileContent (Raise JSONDecodeError)) ∧
  is_vc_completed (_load_cache (FileContent (Raise JSONDecodeError))) "acme" = Ok false ∧
  _filter_links_by_cache (FileContent (Raise JSONDecodeError)) [acme_url] = [acme_url] ∧
  cache_filter_loop (_load_cache (FileContent (Ok (JList [])))) [acme_url]
    = Raise AttributeError ∧
  _filter_links_by_cache (FileContent (Ok (JList []))) [acme_url] = [acme_url].
Proof.
  assert (Hu : unreadable (FileContent (Raise JSONDecodeError)))
    by apply unreadable_raises.
  assert (Hr : cache_filter_loop (_load_cache (FileContent (Ok (JList []))))
                 [acme_url] = Raise AttributeError) by reflexivity.
  destruct (cache_failure_keeps_candidates
              (FileContent (Raise JSONDecodeError)) [acme_url]) as [H1 _].
  destruct (H1 Hu) as (_ & Hc & Hf).
  destruct (cache_failure_keeps_candidates
              (FileContent (Ok (JList []))) [acme_url]) as [_ H2].
  split_and!; [exact Hu | apply Hc | exact Hf | exact Hr | exact (H2 _ Hr)].
Defined.

End CacheReadProps.

(** ** The work selector *)

Module SearchProps.
Import SearchPageHelper Spec Samples.

Lemma truthy_NonEmpty j : truthy j = true ↔ NonEmpty j.
Proof.
  destruct j as [ | b | z | s | l | d]; simpl.
  - split; [discriminate | inversion 1].
  - split; [intros ->; constructor | by inversion 1].
  - rewrite negb_true_iff, Z.eqb_neq.
    split; [by constructor | by inversion 1].
  - rewrite negb_true_iff, String.eqb_neq.
    split; [by constructor | by inversion 1].
  - destruct l; split; try discriminate; try constructor; inversion 1.
  - rewrite negb_true_iff, bool_decide_eq_false.
    split; [by constructor | by inversion 1].
Qed.

Lemma truthy_get_populated d field :
  truthy (dict_get d field JNull) = true ↔ populated d field.
Proof.
  unfold dict_get, populated.
  destruct (d !! field) as [x|]; simpl.
  - rewrite truthy_NonEmpty. split; [eauto | by intros (? & [= ->] & ?)].
  - split; [discriminate | by intros (? & ? & ?)].
Qed.

Lemma determine_vc_status_values vc :
  determine_vc_status vc = "scraped" ∨ determine_vc_status vc = "not_scraped".
Proof.
  destruct vc; simpl; auto.
  destruct (_ && _); auto.
Qed.

Lemma determine_vc_status_scraped vc :
  determine_vc_status vc = "scraped" ↔ classified_scraped vc.
Proof.
  unfold classified_scraped.
  destruct vc as [ | b | z | s | l | d];
    try (simpl; split; [discriminate | by intros (? & ? & _)]).
  unfold determine_vc_status. cbv beta iota zeta.
  match goal with |- context [if ?c then _ else _] => destruct c eqn:Hc end.
  - apply andb_true_iff in Hc as [Hk Hi].
    apply existsb_exists in Hk as (field & Hin & Hf).
    split; [intros _ | done].
    exists d. split_and!; [done | | by apply truthy_get_populated].
    exists field. split; [by apply list_elem_of_In | by apply truthy_get_populated].
  - split; [discriminate|].
    intros (d' & [= <-] & (field & Hin & Hf) & Hi). exfalso.
    apply andb_false_iff in Hc as [Hk | Hk].
    + apply not_true_iff_false in Hk. apply Hk, existsb_exists.
      exists field. split; [by apply list_elem_of_In | by apply truthy_get_populated].
    + apply truthy_get_populated in Hi. congruence.
Qed.

(** C5: [determine_vc_status] answers [scraped] exactly for a record with
    at least one of the key overview fields [founded], [overview], [exits],
    [investment_stages] non-empty and with [investments] non-empty, and
    [not_scraped] for everything else: for a value that is not a record,
    for a record whose investments are empty whatever its key fields, and
    for a record none of whose key fields is populated whatever its
    investments. *)
Theorem determine_vc_status_spec vc :
  (determine_vc_status vc = "scraped" ↔ classified_scraped vc) ∧
  (determine_vc_status vc = "not_scraped" ↔ ¬ classified_scraped vc) ∧
  (is_dict vc = false → determine_vc_status vc = "not_scraped") ∧
  (∀ d, vc = JDict d → ¬ populated d "investments" →
        determine_vc_status vc = "not_scraped") ∧
  (∀ d, vc = JDict d →
        (∀ field, field ∈ key_overview_fields → ¬ populated d field) →
        determine_vc_status vc = "not_scraped").
Proof.
  assert (Hnot : determine_vc_status vc = "not_scraped" ↔ ¬ classified_scraped vc).
  { rewrite <- determine_vc_status_scraped.
    destruct (determine_vc_status_values vc) as [-> | ->]; naive_solver. }
  split_and!.
  - apply determine_vc_status_scraped.
  - exact Hnot.
  - intros Hd. by destruct vc.
  - intros d -> Hi. apply Hnot. intros (d' & [= <-] & _ & Hi'). by apply Hi.
  - intros d -> Hk. apply Hnot.
    intros (d' & [= <-] & (field & Hin & Hf) & _). by apply (Hk field).
Qed.

Lemma determine_vc_status_spec_witness :
  determine_vc_status acme_item = "scraped" ∧
  determine_vc_status beta_item = "not_scraped" ∧
  determine_vc_status delta_item = "not_scraped" ∧
  determine_vc_status (JStr "acme") = "not_scraped".
Proof.
  destruct (determine_vc_status_spec acme_item) as (Hs & _).
  destruct (determine_vc_status_spec beta_item) as (_ & _ & _ & Hinv & _).
  destruct (determine_vc_status_spec delta_item) as (_ & _ & _ & _ & Hkey).
  destruct (determine_vc_status_spec (JStr "acme")) as (_ & _ & Hnd & _).
  split_and!.
  - apply Hs. eexists. split; [reflexivity|]. split.
    + exists "founded". split; [constructor|].
      exists (JStr "2001"). split; [reflexivity | by constructor].
    + exists (JList [a_round]). split; [reflexivity | constructor].
  - eapply Hinv; [reflexivity|].
    intros (x & Hx & Hne). vm_compute in Hx. injection Hx as <-. inversion Hne.
  - eapply Hkey; [reflexivity|].
    intros field Hin (x & Hx & _).
    unfold key_overview_fields in Hin.
    repeat (apply elem_of_cons in Hin as [-> | Hin]; [vm_compute in Hx; discriminate Hx|]).
    by apply elem_of_nil in Hin.
  - apply Hnd. reflexivity.
Defined.

#[local] Arguments determine_vc_status : simpl never.

Lemma eq_str_eq j s : eq_str j s = true ↔ j = JStr s.
Proof.
  destruct j; simpl; try (split; [discriminate | by intros [=]]).
  rewrite String.eqb_eq. split; [by intros -> | by intros [= ->]].
Qed.

Lemma in_scraped_elem ids s : in_scraped ids s = true ↔ JStr s ∈ ids.
Proof.
  unfold in_scraped. rewrite existsb_exists. split.
  - intros (j & Hin & Hj). apply eq_str_eq in Hj as ->. by apply list_elem_of_In.
  - intros Hin. exists (JStr s). split; [by apply list_elem_of_In|].
    by apply eq_str_eq.
Qed.

Lemma records_scraped_recorded items s :
  existsb (records_scraped s) items = true ↔ recorded_scraped items s.
Proof.
  rewrite existsb_exists. unfold recorded_scraped. split.
  - intros (vc & Hin & Hvc). destruct vc as [ | | | | | d]; try discriminate.
    unfold records_scraped in Hvc.
    apply andb_true_iff in Hvc as [Hvc Hst].
    apply andb_true_iff in Hvc as [Hid Hne].
    apply eq_str_eq in Hid. apply negb_true_iff, String.eqb_neq in Hne.
    apply String.eqb_eq, determine_vc_status_scraped in Hst.
    exists d. split_and!; [by apply list_elem_of_In | | done | done].
    unfold dict_get in Hid. by destruct (d !! "vc_id") as [v|]; simplify_eq.
  - intros (d & Hin & Hid & Hne & Hst). exists (JDict d).
    split; [by apply list_elem_of_In|].
    unfold records_scraped, dict_get. rewrite Hid. simpl.
    rewrite String.eqb_refl. simpl.
    apply andb_true_iff. split.
    + by apply negb_true_iff, String.eqb_neq.
    + by apply String.eqb_eq, determine_vc_status_scraped.
Qed.

Lemma add_scraped_ok ids vc :
  (∀ d v, vc = JDict d → d !! "vc_id" = Some v → hashable v = true) →
  ∃ ids', add_scraped ids vc = Ok ids' ∧
          ∀ s, JStr s ∈ ids' ↔ JStr s ∈ ids ∨ records_scraped s vc = true.
Proof.
  intros Hplain.
  destruct vc as [ | b | z | s0 | l | d];
    try (exists ids; split; [reflexivity | intros s; simpl; split; [by left | by intros [?|?]]]).
  unfold add_scraped, records_scraped, dict_get.
  destruct (d !! "vc_id") as [v|] eqn:Hv.
  - destruct (truthy v) eqn:Htr.
    + destruct (String.eqb (determine_vc_status (JDict d)) "scraped") eqn:Hst.
      * rewrite (Hplain d v eq_refl Hv). eexists. split; [reflexivity|].
        intros s. rewrite elem_of_cons, andb_true_r. split.
        -- intros [Heq | Hin]; [right | by left]. subst v. simpl in *.
           rewrite String.eqb_refl. simpl.
           apply negb_true_iff in Htr. by rewrite Htr.
        -- intros [Hin | Hrec]; [by right | left].
           apply andb_true_iff in Hrec as [Hid _]. symmetry. by apply eq_str_eq.
      * exists ids. split; [done|]. intros s. rewrite andb_false_r.
        split; [by left | by intros [?|?]].
    + exists ids. split; [done|]. intros s. split; [by left|].
      intros [Hin | Hrec]; [done|]. exfalso.
      apply andb_true_iff in Hrec as [Hrec _].
      apply andb_true_iff in Hrec as [Hid Hne].
      apply eq_str_eq in Hid. subst v. simpl in Htr.
      apply negb_false_iff in Htr. apply negb_true_iff in Hne. congruence.
  - simpl. exists ids. split; [done|]. intros s.
    split; [by left | by intros [?|?]].
Qed.

Lemma collect_scraped_ok items : ∀ ids,
  plain_ids items →
  ∃ ids', collect_scraped ids items = Ok ids' ∧
          ∀ s, JStr s ∈ ids' ↔ JStr s ∈ ids ∨ existsb (records_scraped s) items = true.
Proof.
  induction items as [|vc rest IH]; intros ids Hplain.
  - exists ids. split; [done|]. intros s. simpl.
    split; [by left | by intros [?|?]].
  - destruct (add_scraped_ok ids vc) as (ids1 & H1 & Hids1).
    { intros d v -> Hv. apply (Hplain d v); [by left | done]. }
    destruct (IH ids1) as (ids2 & H2 & Hids2).
    { intros d v Hin Hv. apply (Hplain d v); [by right | done]. }
    exists ids2. split.
    + simpl. rewrite H1. simpl. exact H2.
    + intros s. rewrite Hids2, Hids1. simpl. rewrite orb_true_iff. tauto.
Qed.

Lemma length_filter_split {A} (P : A → Prop) `{!∀ x, Decision (P x)} (l : list A) :
  (length (filter (fun x => ¬ P x) l) + length (filter P l) = length l)%nat.
Proof.
  induction l as [|x l IH]; [reflexivity|].
  rewrite !filter_cons. destruct (decide (P x)); destruct (decide (¬ P x));
    simpl; try lia; tauto.
Qed.

Lemma records_scraped_id s vc : records_scraped s vc = true ↔ scraped_id vc = Some s.
Proof.
  destruct vc as [ | | | | | d]; simpl; try (split; discriminate).
  unfold dict_get. destruct (d !! "vc_id") as [[ | | | s' | | ]|]; simpl;
    try (split; discriminate).
  destruct (String.eqb_spec s' s) as [->|Hne]; simpl.
  - by destruct (negb (s =? "")%string && _).
  - split; [discriminate|].
    destruct (negb (s' =? "")%string && _); [by intros [= ->] | discriminate].
Qed.

Lemma records_scraped_ids items s :
  existsb (records_scraped s) items = true ↔ s ∈ scraped_ids items.
Proof.
  unfold scraped_ids. rewrite existsb_exists, list_elem_of_omap.
  split; intros (vc & Hin & Hvc); exists vc.
  - split; [by apply list_elem_of_In | by apply records_scraped_id].
  - split; [by apply list_elem_of_In | by apply records_scraped_id].
Qed.

Lemma already_scraped_length items (links : list string) :
  length (already_scraped items links)
  = length (filter (fun s => s ∈ scraped_ids items) (url_id <$> links)).
Proof.
  unfold already_scraped.
  induction links as [|url links IH]; [reflexivity|].
  rewrite fmap_cons, !filter_cons.
  pose proof (records_scraped_ids items (url_id url)) as Hrec.
  repeat case_decide; simpl; rewrite ?IH; try reflexivity; exfalso; tauto.
Qed.

(** When the identifiers of the pool are pairwise distinct and the recorded
    identifiers are pairwise distinct identifiers of the pool, the pool
    holds as many recorded candidates as there are recorded identifiers. *)
Lemma already_scraped_count items (links : list string) :
  NoDup (url_id <$> links) → NoDup (scraped_ids items) →
  (∀ s, s ∈ scraped_ids items → s ∈ url_id <$> links) →
  length (already_scraped items links) = length (scraped_ids items).
Proof.
  intros Hlinks Hids Hsub. rewrite already_scraped_length.
  apply Permutation_length, NoDup_Permutation.
  - by apply NoDup_filter.
  - done.
  - intros s. rewrite list_elem_of_filter. split; [tauto|].
    intros Hs. split; [done | by apply Hsub].
Qed.

(** The links [filter_unscraped_vcs] keeps are those of the pool that
    [already_scraped] does not hold. *)
Lemma filter_unscraped_vcs_items links items :
  items ≠ [] → plain_ids items →
  filter_unscraped_vcs links (JList items)
  = Ok (filter (fun url => ¬ existsb (records_scraped (url_id url)) items = true) links).
Proof.
  intros Hne Hplain. unfold filter_unscraped_vcs.
  destruct items as [|vc rest]; [done|]. simpl truthy. simpl negb.
  cbv iota. simpl py_iter. unfold mbind, pyresult_bind.
  destruct (collect_scraped_ok (vc :: rest) [] Hplain) as (ids & Hc & Hids).
  rewrite Hc. simpl. f_equal.
  apply list_filter_iff. intros url.
  rewrite negb_True, Is_true_true, in_scraped_elem, Hids.
  rewrite elem_of_nil. tauto.
Qed.

(** The scenario of the design document: of the pool A, B, C, with A
    recorded with a key field and investments and B with empty
    investments, B and C remain. *)
Lemma filter_unscraped_vcs_scenario :
  filter_unscraped_vcs [acme_url; beta_url; gamma_url] (JList [acme_item; beta_item])
  = Ok [beta_url; gamma_url].
Proof. vm_compute. reflexivity. Qed.

(** C6, as the design document states it, fails: with the pool of the one
    link [beta_url] and a snapshot whose one item, [acme_item], classifies
    as scraped, N = 1 and M = 1, yet the link is returned. *)
Lemma filter_unscraped_vcs_not_n_minus_m :
  let links := [beta_url] in
  let items := [acme_item] in
  let M := length (filter (fun vc => determine_vc_status vc = "scraped") items) in
  NoDup links ∧ M = 1%nat ∧
  filter_unscraped_vcs links (JList items) = Ok [beta_url] ∧
  length [beta_url] ≠ (length links - M)%nat.
Proof.
  simpl. split_and!.
  - apply NoDup_singleton.
  - reflexivity.
  - reflexivity.
  - discriminate.
Qed.

(** C6, amended: without a snapshot item list ([None] or the empty list)
    [filter_unscraped_vcs] returns every candidate; with a snapshot none of
    whose items has a list or dictionary as [vc_id], it returns exactly the
    candidates whose identifier (the last path segment of the URL) is not
    the [vc_id] of an item classified scraped, without duplicates when the
    pool has none: N - K links, where K counts the candidates of the pool
    that the snapshot records as scraped.  K is M, the number of items
    classified scraped, when each of these carries an identifier of its
    own that is the identifier of a candidate, and the candidates have
    pairwise distinct identifiers. *)
Theorem filter_unscraped_vcs_spec (links : list string) existing :
  (truthy existing = false → filter_unscraped_vcs links existing = Ok links) ∧
  (∀ items, existing = JList items → items ≠ [] → plain_ids items →
     ∃ kept, filter_unscraped_vcs links existing = Ok kept ∧
       (∀ url, url ∈ kept ↔ url ∈ links ∧ ¬ recorded_scraped items (url_id url)) ∧
       (NoDup links → NoDup kept) ∧
       length kept = (length links - length (already_scraped items links))%nat ∧
       (NoDup (url_id <$> links) → NoDup (scraped_ids items) →
        length (scraped_ids items) = scraped_count items →
        (∀ s, s ∈ scraped_ids items → s ∈ url_id <$> links) →
        length kept = (length links - scraped_count items)%nat)).
Proof.
  split.
  - intros Hf. unfold filter_unscraped_vcs. by rewrite Hf.
  - intros items -> Hne Hplain. eexists. split.
    { by apply filter_unscraped_vcs_items. }
    assert (Hlen : length (filter (fun url =>
                ¬ existsb (records_scraped (url_id url)) items = true) links)
              = (length links - length (already_scraped items links))%nat).
    { pose proof (length_filter_split
        (fun url => existsb (records_scraped (url_id url)) items = true) links) as Hl.
      cbv beta in Hl. unfold already_scraped. lia. }
    split_and!.
    + intros url. rewrite list_elem_of_filter, records_scraped_recorded. tauto.
    + apply NoDup_filter.
    + exact Hlen.
    + intros Hlinks Hids Hcount Hsub.
      by rewrite Hlen, (already_scraped_count _ _ Hlinks Hids Hsub), Hcount.
Qed.

Lemma filter_unscraped_vcs_spec_witness :
  filter_unscraped_vcs [acme_url; beta_url; gamma_url] JNull
    = Ok [acme_url; beta_url; gamma_url] ∧
  scraped_count [acme_item; beta_item] = 1%nat ∧
  filter_unscraped_vcs [acme_url; beta_url; gamma_url] (JList [acme_item; beta_item])
    = Ok [beta_url; gamma_url] ∧
  length [beta_url; gamma_url] = (3 - scraped_count [acme_item; beta_item])%nat.
Proof.
  destruct (filter_unscraped_vcs_spec [acme_url; beta_url; gamma_url] JNull)
    as [H0 _].
  destruct (filter_unscraped_vcs_spec [acme_url; beta_url; gamma_url]
              (JList [acme_item; beta_item])) as [_ H1].
  split; [apply H0; reflexivity|]. split; [reflexivity|].
  destruct (H1 [acme_item; beta_item] eq_refl) as (kept & Hk & _ & _ & _ & Hlen).
  - discriminate.
  - intros d v Hin Hv. unfold acme_item, beta_item in Hin.
    repeat (apply elem_of_cons in Hin as [[= ->] | Hin];
            [vm_compute in Hv; injection Hv as <-; reflexivity|]).
    by apply elem_of_nil in Hin.
  - assert (Hrun : filter_unscraped_vcs [acme_url; beta_url; gamma_url]
                     (JList [acme_item; beta_item]) = Ok [beta_url; gamma_url])
      by (vm_compute; reflexivity).
    split; [exact Hrun|].
    rewrite Hrun in Hk. injection Hk as <-. apply Hlen.
    + apply (bool_decide_unpack _). by vm_compute.
    + apply (bool_decide_unpack _). by vm_compute.
    + reflexivity.
    + intros s Hs. vm_compute in Hs. apply list_elem_of_singleton in Hs as ->.
      vm_compute. constructor.
Defined.

End SearchProps.

(** ** Page completion *)

Module PageProps.
Import SNCVCScraper Samples.

Lemma page_vc_ids_elem (vs : vc_status_map) p id :
  id ∈ page_vc_ids vs p ↔ ∃ r, vs !! id = Some r ∧ discovered_on_page r = p.
Proof.
  unfold page_vc_ids. rewrite list_elem_of_fmap. split.
  - intros ([id' r] & -> & Hin). apply list_elem_of_filter in Hin as [Hp Hin].
    apply elem_of_map_to_list in Hin. by exists r.
  - intros (r & Hr & Hp). exists (id, r). split; [done|].
    apply list_elem_of_filter. split; [done|]. by apply elem_of_map_to_list.
Qed.

Lemma filter_length_all {A} (P : A → Prop) `{!∀ x, Decision (P x)} (l : list A) :
  length (filter P l) = length l ↔ Forall P l.
Proof.
  induction l as [|x l IH].
  - split; [constructor | reflexivity].
  - rewrite filter_cons. destruct (decide (P x)) as [Hx|Hx].
    + simpl. rewrite Forall_cons. split.
      * intros [= Hl]. split; [done|]. by apply IH.
      * intros [_ Hl]. f_equal. by apply IH.
    + split.
      * intros Hl. pose proof (length_filter P l). simpl in Hl. lia.
      * intros Hall. by apply Forall_cons in Hall as [? _].
Qed.

Lemma get_status_lookup (vs : vc_status_map) id r :
  vs !! id = Some r → _get_vc_status vs id = status r.
Proof. intros H. unfold _get_vc_status. by rewrite H. Qed.

(** C2, as the design document states it, fails: a page whose one
    investor is [inactive] has at least one item and only terminal
    statuses, and [_update_page_completion] does not mark it completed;
    and a page without any item that was marked completed before the call
    is still marked after it. *)
Lemma update_page_completion_inactive :
  let vc_status : vc_status_map := {["beta" := inactive_on_page_1]} in
  page_vc_ids vc_status 1 = ["beta"] ∧
  _get_vc_status vc_status "beta" = "inactive" ∧
  (1 ∉ _update_page_completion vc_status ∅ 1) ∧
  page_vc_ids vc_status 2 = [] ∧
  2 ∈ _update_page_completion vc_status {[2]} 2.
Proof.
  assert (He : _update_page_completion {["beta" := inactive_on_page_1]} ∅ 1 = ∅)
    by (vm_compute; reflexivity).
  assert (He2 : _update_page_completion {["beta" := inactive_on_page_1]} {[2]} 2 = {[2]})
    by (vm_compute; reflexivity).
  simpl. split_and!.
  - vm_compute. reflexivity.
  - vm_compute. reflexivity.
  - rewrite He. apply not_elem_of_empty.
  - vm_compute. reflexivity.
  - rewrite He2. by apply elem_of_singleton.
Qed.

(** C2, amended: when at least one investor was discovered on the page,
    [_update_page_completion] leaves the page marked completed exactly when
    the status of every such investor is [completed] ([inactive] and
    [limited_info] do not count), so a page marked before and now holding
    an investor of another status is unmarked; when no investor was
    discovered on the page the set of completed pages is left as it was;
    no other page is touched. *)
Theorem update_page_completion_spec (vc_status : vc_status_map)
    (completed_pages : gset Z) (page_num : Z) :
  let after := _update_page_completion vc_status completed_pages page_num in
  let discovered :=
    ∃ vc_id r, vc_status !! vc_id = Some r ∧ discovered_on_page r = page_num in
  let all_completed :=
    ∀ vc_id r, vc_status !! vc_id = Some r → discovered_on_page r = page_num →
               status r = "completed" in
  (discovered → (page_num ∈ after ↔ all_completed)) ∧
  (¬ discovered → after = completed_pages) ∧
  (∀ q, q ≠ page_num → (q ∈ after ↔ q ∈ completed_pages)).
Proof.
  intros after discovered all_completed.
  subst after discovered all_completed. unfold _update_page_completion.
  pose proof (page_vc_ids_elem vc_status page_num) as Helem.
  destruct (page_vc_ids vc_status page_num) as [|id0 ids] eqn:Hids.
  - split_and!; [|done|done].
    intros (vc_id & r & Hr & Hp). exfalso.
    apply (elem_of_nil vc_id), Helem. eauto.
  - cbv beta iota zeta.
    assert (Hpos : (0 < length (id0 :: ids))%nat) by (simpl; lia).
    rewrite (bool_decide_eq_true_2 _ Hpos), andb_true_r.
    assert (Hsome : ∃ vc_id r, vc_status !! vc_id = Some r ∧
                               discovered_on_page r = page_num).
    { destruct (proj1 (Helem id0)) as (r & Hr & Hp); [by left | eauto]. }
    assert (Hall : length (filter (fun vc_id => _get_vc_status vc_status vc_id = "completed")
                             (id0 :: ids))
                   = length (id0 :: ids)
                   ↔ ∀ vc_id r, vc_status !! vc_id = Some r →
                                 discovered_on_page r = page_num →
                                 status r = "completed").
    { rewrite filter_length_all, Forall_forall. split.
      - intros H vc_id r Hr Hp. rewrite <- (get_status_lookup _ _ _ Hr).
        apply H, Helem. eauto.
      - intros H vc_id Hin. apply Helem in Hin as (r & Hr & Hp).
        rewrite (get_status_lookup _ _ _ Hr). eauto. }
    destruct (decide (length (filter (fun vc_id => _get_vc_status vc_status vc_id = "completed")
                                (id0 :: ids)) = length (id0 :: ids))) as [Hc|Hc].
    + rewrite (bool_decide_eq_true_2 _ Hc). split_and!.
      * intros _. split; [intros _; by apply Hall|].
        intros _. apply elem_of_union_l. by apply elem_of_singleton.
      * intros Hno. by destruct Hno.
      * intros q Hq. rewrite elem_of_union, elem_of_singleton. tauto.
    + rewrite (bool_decide_eq_false_2 _ Hc). split_and!.
      * intros _. split; [|intros H; by apply Hall in H].
        intros Hin. exfalso. case_bool_decide as Hcp; [|done].
        apply elem_of_difference in Hin as [_ Hin]. apply Hin.
        by apply elem_of_singleton.
      * intros Hno. by destruct Hno.
      * intros q Hq. case_bool_decide as Hcp; [|done].
        rewrite elem_of_difference, elem_of_singleton. tauto.
Qed.

Lemma update_page_completion_spec_witness :
  let vc_status : vc_status_map := {["beta" := inactive_on_page_1]} in
  vc_status !! "beta" = Some inactive_on_page_1 ∧
  discovered_on_page inactive_on_page_1 = 1 ∧
  (1 ∉ _update_page_completion vc_status {[1]} 1) ∧
  (2 ∈ _update_page_completion vc_status {[1]} 1 ↔ 2 ∈ ({[1]} : gset Z)).
Proof.
  simpl.
  assert (Hb : ({["beta" := inactive_on_page_1]} : vc_status_map) !! "beta"
               = Some inactive_on_page_1) by apply lookup_singleton_eq.
  destruct (update_page_completion_spec {["beta" := inactive_on_page_1]} {[1]} 1)
    as (H1 & _ & H3).
  split_and!; [exact Hb | reflexivity | | apply H3; discriminate].
  intros Hin.
  assert (Hd : ∃ vc_id r, ({["beta" := inactive_on_page_1]} : vc_status_map) !! vc_id
                          = Some r ∧ discovered_on_page r = 1).
  { exists "beta", inactive_on_page_1. split; [exact Hb | reflexivity]. }
  pose proof (proj1 (H1 Hd) Hin "beta" inactive_on_page_1 Hb eq_refl) as Hst.
  discriminate Hst.
Defined.

End PageProps.

(** ** Loading a snapshot *)

Module SnapshotProps.
Import SNCVCScraper SearchPageHelper Samples.

Lemma load_page_loop_skip page_num (pre rest : list result_file) :
  (∀ g, g ∈ pre → is_page_file page_num (filename g) = false) →
  load_page_loop page_num (pre ++ rest) = load_page_loop page_num rest.
Proof.
  induction pre as [|g pre IH]; intros Hpre; [reflexivity|].
  simpl. rewrite (Hpre g) by (by left).
  apply IH. intros g' Hg'. apply Hpre. by right.
Qed.

Lemma load_existing_loop_skip page_num (pre rest : list result_file) :
  (∀ g, g ∈ pre → is_page_file page_num (filename g) = false) →
  load_existing_loop page_num (pre ++ rest) = load_existing_loop page_num rest.
Proof.
  induction pre as [|g pre IH]; intros Hpre; [reflexivity|].
  simpl. rewrite (Hpre g) by (by left).
  apply IH. intros g' Hg'. apply Hpre. by right.
Qed.

(** C3, as the design document states it, fails: with an in-progress and a
    completed snapshot of page 1 on disk, listed in this order, both
    loaders return the in-progress one. *)
Lemma load_snapshot_no_priority :
  let dir := Some [saved_page 1 "in_progress" [beta_item] "101500";
                    saved_page 1 "completed" [beta_item; acme_item] "111500"] in
  (load_page_with_enhanced_metadata dir 1).1 = (JList [beta_item], JStr "in_progress") ∧
  load_existing_page_data dir 1 = (JList [beta_item], JStr "in_progress") ∧
  (load_page_with_enhanced_metadata
     (Some [saved_page 1 "completed" [beta_item; acme_item] "111500"]) 1).1
  = (JList [beta_item; acme_item], JStr "completed").
Proof. simpl. split_and!; vm_compute; reflexivity. Qed.

(** C3, amended: [load_page_with_enhanced_metadata] and
    [load_existing_page_data] return the first snapshot of the unit in the
    order the directory lists its files, whatever its status and whatever
    snapshots follow it; no priority of completed over in-progress over
    legacy is applied.  Of that file they return the item list, the status
    and (the former) the metadata of the structured format, and for the
    legacy bare list the list itself with the status [completed] when the
    file name contains [completed] and [in_progress] otherwise; with no
    directory or no file of the unit they return the empty answer. *)
Theorem load_snapshot_first_listed page_num (pre post : list result_file) f :
  (∀ g, g ∈ pre → is_page_file page_num (filename g) = false) →
  is_page_file page_num (filename f) = true →
  let dir := Some (pre ++ f :: post) in
  (∀ d md items st,
     content f = Ok (JDict d) →
     d !! "metadata" = Some (JDict md) → d !! "vcs" = Some (JList items) →
     md !! "status" = Some st →
     load_page_with_enhanced_metadata dir page_num = (JList items, st, JDict md) ∧
     load_existing_page_data dir page_num = (JList items, st)) ∧
  (∀ items,
     content f = Ok (JList items) →
     let st := JStr (if contains (filename f) "completed"
                     then "completed" else "in_progress") in
     load_page_with_enhanced_metadata dir page_num = (JList items, st, JDict ∅) ∧
     load_existing_page_data dir page_num = (JList items, st)) ∧
  load_page_with_enhanced_metadata None page_num = (JList [], JNull, JNull) ∧
  load_page_with_enhanced_metadata (Some pre) page_num = (JList [], JNull, JNull) ∧
  load_existing_page_data None page_num = (JNull, JNull) ∧
  load_existing_page_data (Some pre) page_num = (JNull, JNull).
Proof.
  intros Hpre Hf dir. subst dir.
  unfold load_page_with_enhanced_metadata, load_existing_page_data.
  rewrite (load_page_loop_skip _ _ _ Hpre), (load_existing_loop_skip _ _ _ Hpre).
  split_and!; try reflexivity.
  - intros d md items st Hc Hmd Hvcs Hst. simpl. rewrite Hf, Hc. simpl.
    rewrite Hmd, Hvcs. simpl.
    unfold dict_get. rewrite Hmd, Hst. simpl.
    unfold dict_get. rewrite Hst. done.
  - intros items Hc. simpl. rewrite Hf, Hc. done.
  - rewrite <- (app_nil_r pre), (load_page_loop_skip _ _ _ Hpre). reflexivity.
  - rewrite <- (app_nil_r pre), (load_existing_loop_skip _ _ _ Hpre). reflexivity.
Qed.

Lemma load_snapshot_first_listed_witness :
  let first := saved_page 1 "in_progress" [beta_item] "101500" in
  let later := saved_page 1 "completed" [beta_item; acme_item] "111500" in
  is_page_file 1 (filename legacy_page_2) = false ∧
  is_page_file 1 (filename first) = true ∧
  load_existing_page_data (Some ([legacy_page_2] ++ first :: [later])) 1
  = (JList [beta_item], JStr "in_progress") ∧
  load_existing_page_data (Some ([] ++ legacy_page_2 :: [first])) 2
  = (JList [acme_item], JStr "completed").
Proof.
  simpl.
  assert (H2 : is_page_file 1 (filename legacy_page_2) = false) by reflexivity.
  assert (H1 : is_page_file 1 (filename (saved_page 1 "in_progress" [beta_item] "101500"))
               = true) by reflexivity.
  split; [exact H2|]. split; [exact H1|]. split.
  - destruct (load_snapshot_first_listed 1 [legacy_page_2]
                [saved_page 1 "completed" [beta_item; acme_item] "111500"]
                (saved_page 1 "in_progress" [beta_item] "101500")) as (Hs & _).
    + intros g Hg. apply list_elem_of_singleton in Hg as ->. exact H2.
    + exact H1.
    + eapply Hs; reflexivity.
  - destruct (load_snapshot_first_listed 2 []
                [saved_page 1 "in_progress" [beta_item] "101500"]
                legacy_page_2) as (_ & Hl & _).
    + intros g Hg. by apply elem_of_nil in Hg.
    + reflexivity.
    + eapply Hl; reflexivity.
Defined.

End SnapshotProps.

(** ** The resume planner *)

Module ResumeProps.
Import StateManager Spec Samples.

Lemma scan_file_snapshot st f u :
  snapshot_of f u →
  scan_file st f
  = Ok (if String.eqb u.2 "in_progress" then (JNum u.1, st.2)
        else if String.eqb u.2 "completed" then (st.1, st.2 ++ [JNum u.1])
        else st).
Proof.
  intros (Hs & He & d & md & Hc & Hmd & Hp & Hst).
  unfold scan_file. rewrite Hs, He, Hc. simpl.
  rewrite bool_decide_eq_true_2 by (rewrite Hmd; eauto).
  rewrite Hmd. simpl. unfold dict_get. rewrite Hp, Hst. simpl.
  destruct (String.eqb u.2 "in_progress"); [done|].
  by destruct (String.eqb u.2 "completed").
Qed.

Lemma units_with_cons st (u : Z * string) units :
  units_with st (u :: units)
  = if String.eqb u.2 st then u.1 :: units_with st units else units_with st units.
Proof.
  unfold units_with. rewrite filter_cons.
  destruct (String.eqb_spec u.2 st) as [Heq|Hne].
  - by rewrite decide_True.
  - by rewrite decide_False.
Qed.

Lemma scan_files_snapshots files units : ∀ st,
  Forall2 snapshot_of files units →
  scan_files st files
  = Ok (match last (units_with "in_progress" units) with
        | Some p => JNum p
        | None => st.1
        end,
        st.2 ++ (JNum <$> units_with "completed" units)).
Proof.
  intros st Hall. revert st.
  induction Hall as [|f u files units Hf Hall IH]; intros [ip cps].
  - simpl. by rewrite app_nil_r.
  - simpl. rewrite (scan_file_snapshot _ _ _ Hf). simpl.
    rewrite !units_with_cons.
    destruct (String.eqb_spec u.2 "in_progress") as [Hip|Hip].
    + rewrite IH. simpl. rewrite last_cons.
      assert (Hnc : String.eqb u.2 "completed" = false) by by rewrite Hip.
      rewrite Hnc. by destruct (last (units_with "in_progress" units)).
    + destruct (String.eqb u.2 "completed"); rewrite IH; simpl; [|done].
      by rewrite <- app_assoc.
Qed.

Lemma max_plus_one_nums c cs :
  max_plus_one (JNum c :: (JNum <$> cs)) = Ok (JNum (fold_left Z.max cs c + 1)).
Proof.
  unfold max_plus_one. rewrite <- fmap_cons.
  by rewrite (mapM_fmap_Some as_int JNum (c :: cs)).
Qed.

(** On a listing of structured snapshots [load_previous_state] returns
    [listed_plan]: the page of the in-progress snapshot listed last, else
    one past the highest completed page, else 1. *)
Lemma load_previous_state_listed files units t :
  Forall2 snapshot_of files units →
  (load_previous_state {| results := Some files; target_page := t |}).2
  = JNum (listed_plan units).
Proof.
  intros Hall. unfold load_previous_state, listed_plan. simpl.
  rewrite (scan_files_snapshots _ _ _ Hall). simpl.
  unfold choose_target. simpl.
  destruct (last (units_with "in_progress" units)) as [p|]; [done|].
  destruct (units_with "completed" units) as [|c cs]; [done|].
  rewrite fmap_cons. cbv iota. by rewrite max_plus_one_nums.
Qed.

(** It is the plan of the design document whenever the in-progress
    snapshot listed last is the highest one, so in particular when at most
    one unit is in progress. *)
Lemma load_previous_state_plan files units t :
  Forall2 snapshot_of files units →
  last (units_with "in_progress" units) = max_list (units_with "in_progress" units) →
  (load_previous_state {| results := Some files; target_page := t |}).2
  = JNum (resume_plan units).
Proof.
  intros Hall Hlast. rewrite (load_previous_state_listed _ _ _ Hall).
  unfold listed_plan, resume_plan. by rewrite Hlast.
Qed.

(** The three runs the design document gives for the baseline planner. *)
Lemma load_previous_state_examples :
  (load_previous_state
     (scraper_with [saved_page 1 "completed" [acme_item] "101500";
                    saved_page 2 "completed" [beta_item] "111500"])).2 = JNum 3 ∧
  (load_previous_state
     (scraper_with [saved_page 1 "completed" [acme_item] "101500";
                    saved_page 2 "in_progress" [beta_item] "111500"])).2 = JNum 2 ∧
  (load_previous_state (scraper_with [])).2 = JNum 1 ∧
  (load_previous_state {| results := None; target_page := JNull |}).2 = JNum 1.
Proof. split_and!; vm_compute; reflexivity. Qed.

(** C4 on the listing [two_in_progress]: pages 3 and 2 are both in
    progress, the highest in-progress page is 3, and [load_previous_state]
    returns 2, the page of the file listed last; with the same two files
    listed the other way round it returns 3. *)
Lemma load_previous_state_two_in_progress :
  (load_previous_state (scraper_with two_in_progress)).2 = JNum 2 ∧
  resume_plan [(3, "in_progress"); (2, "in_progress")] = 3 ∧
  _find_last_in_progress_page (Some two_in_progress) = Some 3 ∧
  (load_previous_state (scraper_with (reverse two_in_progress))).2 = JNum 3.
Proof. split_and!; vm_compute; reflexivity. Qed.

Lemma load_previous_state_target s :
  target_page (load_previous_state s).1 = (load_previous_state s).2 ∧
  results (load_previous_state s).1 = results s.
Proof. split; reflexivity. Qed.

(** C9: [load_previous_state_experimental] called without its flag, with
    the flag false, or when the detector could not be imported, is
    [load_previous_state]; and with the flag set, whenever the detection
    raises or returns [None], it returns what [load_previous_state]
    returns and leaves the scraper as [load_previous_state] leaves it.  The
    function is total: nothing it calls can make it raise. *)
Theorem experimental_falls_back (detector : option (scraper → pyresult json))
    (s : scraper) (enable_experimental : option bool) :
  load_previous_state_experimental detector s None = load_previous_state s ∧
  load_previous_state_experimental detector s (Some false) = load_previous_state s ∧
  load_previous_state_experimental None s enable_experimental = load_previous_state s ∧
  (∀ detect, detector = Some detect →
     (detect s = Ok JNull ∨ ∃ e, detect s = Raise e) →
     load_previous_state_experimental detector s enable_experimental
     = load_previous_state s).
Proof.
  split_and!.
  - unfold load_previous_state_experimental. by destruct detector.
  - unfold load_previous_state_experimental. by destruct detector.
  - reflexivity.
  - intros detect -> Hfail. unfold load_previous_state_experimental.
    destruct (default false enable_experimental); [|reflexivity].
    destruct Hfail as [-> | [e ->]]; reflexivity.
Qed.

Lemma experimental_falls_back_witness :
  failing_detector (scraper_with two_in_progress) = Raise OSError ∧
  load_previous_state_experimental (Some failing_detector)
    (scraper_with two_in_progress) (Some true)
  = load_previous_state (scraper_with two_in_progress) ∧
  detect_resume_point_experimental false (scraper_with two_in_progress) = Ok JNull ∧
  load_previous_state_experimental (Some (detect_resume_point_experimental false))
    (scraper_with two_in_progress) (Some true)
  = load_previous_state (scraper_with two_in_progress).
Proof.
  split; [reflexivity|].
  destruct (experimental_falls_back (Some failing_detector)
              (scraper_with two_in_progress) (Some true)) as (_ & _ & _ & H).
  destruct (experimental_falls_back (Some (detect_resume_point_experimental false))
              (scraper_with two_in_progress) (Some true)) as (_ & _ & _ & H').
  split_and!.
  - apply (H failing_detector eq_refl). right. exists OSError. reflexivity.
  - reflexivity.
  - apply (H' _ eq_refl). left. reflexivity.
Defined.

(** With the flag set and the detector of [enhanced_resume_detector.py]
    at work, the answer can differ from the baseline: on
    [two_in_progress] the detector checks page 2, the page before the
    highest in-progress page 3, finds it in progress and resumes there
    whatever the order of the listing. *)
Lemma experimental_enabled_example :
  (load_previous_state_experimental (Some (detect_resume_point_experimental true))
     (scraper_with (reverse two_in_progress)) (Some true)).2 = JNum 2 ∧
  (load_previous_state (scraper_with (reverse two_in_progress))).2 = JNum 3.
Proof. split; vm_compute; reflexivity. Qed.

End ResumeProps.

(* ===================================================================== *)
(** * Part III: further properties of the embedded code                   *)
(* ===================================================================== *)

(** ** The cache manager over sequences of calls *)

Module CacheRunProps.
Import VCCacheManager Spec Samples.

Lemma do_calls_cons c call calls :
  do_calls c (call :: calls) = do_calls (do_call c call) calls.
Proof. reflexivity. Qed.

Ltac entry_ok_tac :=
  unfold entry_ok; simpl; split_and!;
  solve [done | auto | lia | intros _; eauto].

Lemma do_call_ok c call : cache_ok c → cache_ok (do_call c call).
Proof.
  intros Hc key e.
  destruct call as [w t1 t2 slug name url p | w t1 t2 slug h | w t slug]; simpl.
  - destruct (decide (slug = key)) as [->|Hne].
    + rewrite lookup_insert_eq. intros [= <-]. entry_ok_tac.
    + rewrite lookup_insert_ne by done. apply Hc.
  - unfold mark_vc_completed. destruct (c !! slug) as [e0|] eqn:He0; simpl; [|apply Hc].
    destruct (decide (slug = key)) as [->|Hne].
    + rewrite lookup_insert_eq. intros [= <-].
      destruct (Hc _ _ He0) as (Hs & _ & Ha & _). entry_ok_tac.
    + rewrite lookup_insert_ne by done. apply Hc.
  - unfold mark_vc_failed. destruct (c !! slug) as [e0|] eqn:He0; simpl; [|apply Hc].
    destruct (decide (slug = key)) as [->|Hne].
    + rewrite lookup_insert_eq. intros [= <-].
      destruct (Hc _ _ He0) as (Hs & _ & Ha & _). entry_ok_tac.
    + rewrite lookup_insert_ne by done. apply Hc.
Qed.

Lemma do_calls_ok calls : ∀ c, cache_ok c → cache_ok (do_calls c calls).
Proof.
  induction calls as [|call calls IH]; intros c Hc; [done|].
  rewrite do_calls_cons. by apply IH, do_call_ok.
Qed.

Lemma cache_ok_empty : cache_ok ∅.
Proof. intros key e H. by rewrite lookup_empty in H. Qed.

(** X1: every cache the three writing methods build from the empty cache
    keeps each entry under its own slug, with one of the statuses
    [pending], [completed], [failed], a non-negative attempt count, a
    scrape time on every completed entry, and no attempt, scrape time or
    hash on a pending one; and the methods keep this true of any cache of
    which it is true. *)
Theorem writes_keep_entries_ok (c : cache) (calls : list cache_call) :
  cache_ok (do_calls ∅ calls) ∧
  (cache_ok c → cache_ok (do_calls c calls)).
Proof.
  split.
  - apply do_calls_ok, cache_ok_empty.
  - apply do_calls_ok.
Qed.

Lemma writes_keep_entries_ok_witness :
  cache_ok one_entry_cache ∧
  cache_ok (do_calls one_entry_cache
              [CallFailed true "2025-03-01 10:00:00" "acme";
               CallAdd true "2025-03-01 10:05:00" "2025-03-01 10:05:00"
                 "beta" "Beta Fund" beta_url (Some 4)]).
Proof.
  assert (Hok : cache_ok one_entry_cache).
  { intros key e. unfold one_entry_cache.
    destruct (decide (key = "acme")) as [->|Hne].
    - rewrite lookup_singleton_eq. intros [= <-]. entry_ok_tac.
    - by rewrite lookup_singleton_ne. }
  split; [exact Hok|].
  by apply (writes_keep_entries_ok one_entry_cache).
Defined.

Lemma filter3_length {A} (P1 P2 P3 : A → Prop)
    `{!∀ x, Decision (P1 x)} `{!∀ x, Decision (P2 x)} `{!∀ x, Decision (P3 x)}
    (l : list A) :
  (∀ x, P1 x → ¬ P2 x ∧ ¬ P3 x) → (∀ x, P2 x → ¬ P3 x) →
  (length (filter P1 l) + length (filter P2 l) + length (filter P3 l) ≤ length l)%nat ∧
  (Forall (fun x => P1 x ∨ P2 x ∨ P3 x) l →
   (length (filter P1 l) + length (filter P2 l) + length (filter P3 l) = length l)%nat).
Proof.
  intros Hex1 Hex2. induction l as [|x l [IHle IHeq]]; [done|].
  rewrite !filter_cons.
  destruct (decide (P1 x)) as [Hx1|Hx1]; destruct (decide (P2 x)) as [Hx2|Hx2];
    destruct (decide (P3 x)) as [Hx3|Hx3]; simpl;
    try (exfalso; pose proof (Hex1 x); pose proof (Hex2 x); tauto); (split; [lia|]);
    intros Hall; apply Forall_cons in Hall as [Hx Hall];
    specialize (IHeq Hall); try lia; exfalso; tauto.
Qed.

Lemma vcs_with_status_length st (c : cache) :
  length (vcs_with_status st c)
  = length (filter (fun kv : string * vc_entry => scraping_status kv.2 = st)
              (map_to_list c)).
Proof. unfold vcs_with_status. by rewrite length_fmap. Qed.

(** X2: in the counters of [get_cache_stats] the completed, pending and
    failed entries never add up to more than the total, and on every cache
    built by the writing methods from the empty cache (no entry of another
    status) they add up to exactly the total. *)
Theorem cache_stats_add_up (c : cache) (calls : list cache_call) :
  let s := get_cache_stats c in
  let s' := get_cache_stats (do_calls ∅ calls) in
  (completed s + pending s + failed s ≤ total_vcs s)%nat ∧
  (cache_ok c → (completed s + pending s + failed s = total_vcs s)%nat) ∧
  (completed s' + pending s' + failed s' = total_vcs s')%nat.
Proof.
  assert (Hgen : ∀ c0 : cache,
    (completed (get_cache_stats c0) + pending (get_cache_stats c0)
     + failed (get_cache_stats c0) ≤ total_vcs (get_cache_stats c0))%nat ∧
    (cache_ok c0 →
     (completed (get_cache_stats c0) + pending (get_cache_stats c0)
      + failed (get_cache_stats c0) = total_vcs (get_cache_stats c0))%nat)).
  { intros c0. unfold get_cache_stats, get_completed_vcs, get_pending_vcs,
      get_failed_vcs. simpl.
    rewrite !vcs_with_status_length, <- (length_map_to_list c0).
    destruct (filter3_length
      (fun kv : string * vc_entry => scraping_status kv.2 = "completed")
      (fun kv : string * vc_entry => scraping_status kv.2 = "pending")
      (fun kv : string * vc_entry => scraping_status kv.2 = "failed")
      (map_to_list c0)) as [Hle Heq].
    { intros x ->. split; discriminate. }
    { intros x ->. discriminate. }
    split; [exact Hle|].
    intros Hok. apply Heq, Forall_forall. intros [k e] Hin.
    apply elem_of_map_to_list in Hin.
    destruct (Hok k e Hin) as (_ & Hst & _). simpl. tauto. }
  simpl. split_and!.
  - apply Hgen.
  - apply Hgen.
  - apply Hgen, do_calls_ok, cache_ok_empty.
Qed.

Lemma cache_stats_add_up_witness :
  cache_ok one_entry_cache ∧
  (completed (get_cache_stats one_entry_cache)
   + pending (get_cache_stats one_entry_cache)
   + failed (get_cache_stats one_entry_cache)
   = total_vcs (get_cache_stats one_entry_cache))%nat.
Proof.
  assert (Hok : cache_ok one_entry_cache).
  { intros key e. unfold one_entry_cache.
    destruct (decide (key = "acme")) as [->|Hne].
    - rewrite lookup_singleton_eq. intros [= <-]. entry_ok_tac.
    - by rewrite lookup_singleton_ne. }
  split; [exact Hok|].
  by apply (cache_stats_add_up one_entry_cache []).
Defined.

Lemma do_call_lookup_other c call key :
  ¬ adds key call → ¬ fails key call →
  (∀ w t1 t2 h, call ≠ CallCompleted w t1 t2 key h) →
  do_call c call !! key = c !! key.
Proof.
  intros Ha Hf Hc.
  destruct call as [w t1 t2 slug name url p | w t1 t2 slug h | w t slug]; simpl in *.
  - by rewrite lookup_insert_ne.
  - unfold mark_vc_completed. destruct (c !! slug) eqn:He; simpl; [|done].
    rewrite lookup_insert_ne; [done|]. intros ->. by eapply Hc.
  - unfold mark_vc_failed. destruct (c !! slug) eqn:He; simpl; [|done].
    by rewrite lookup_insert_ne.
Qed.

Lemma do_calls_absent calls : ∀ c slug,
  c !! slug = None → Forall (fun call => ¬ adds slug call) calls →
  do_calls c calls !! slug = None.
Proof.
  induction calls as [|call calls IH]; intros c slug Hc Hall; [done|].
  apply Forall_cons in Hall as [Hcall Hall]. rewrite do_calls_cons.
  apply IH; [|done].
  destruct call as [w t1 t2 s name url p | w t1 t2 s h | w t s]; simpl in *.
  - by rewrite lookup_insert_ne.
  - unfold mark_vc_completed. destruct (c !! s) eqn:He; simpl; [|done].
    rewrite lookup_insert_ne; [done|]. intros ->. congruence.
  - unfold mark_vc_failed. destruct (c !! s) eqn:He; simpl; [|done].
    rewrite lookup_insert_ne; [done|]. intros ->. congruence.
Qed.

Lemma do_calls_attempts calls : ∀ c slug e,
  c !! slug = Some e → Forall (fun call => ¬ adds slug call) calls →
  ∃ e', do_calls c calls !! slug = Some e' ∧
        scrape_attempts e' = scrape_attempts e + Z.of_nat (length (filter (fails slug) calls)) ∧
        name e' = name e ∧ url e' = url e ∧
        first_seen_page e' = first_seen_page e ∧
        first_discovered e' = first_discovered e.
Proof.
  induction calls as [|call calls IH]; intros c slug e Hc Hall.
  - exists e. simpl. split_and!; try done. lia.
  - apply Forall_cons in Hall as [Hcall Hall]. rewrite do_calls_cons, filter_cons.
    destruct call as [w t1 t2 s name url p | w t1 t2 s h | w t s]; simpl in *.
    + destruct (IH (do_call c (CallAdd w t1 t2 s name url p)) slug e)
        as (e' & He' & Hrest); [|done|].
      { simpl. by rewrite lookup_insert_ne. }
      exists e'. split; [exact He'|]. by destruct (decide False).
    + destruct (decide False) as [[]|_].
      unfold mark_vc_completed. destruct (c !! s) as [e0|] eqn:He0; simpl; [|by apply IH].
      destruct (decide (s = slug)) as [->|Hne].
      * rewrite Hc in He0. injection He0 as <-.
        edestruct IH as (e' & He' & Hrest); [apply lookup_insert_eq|done|].
        exists e'. split; [exact He'|]. simpl in Hrest. exact Hrest.
      * apply IH; [|done]. by rewrite lookup_insert_ne.
    + unfold mark_vc_failed. destruct (decide (s = slug)) as [->|Hne].
      * rewrite Hc. simpl.
        edestruct IH as (e' & He' & Hrest); [apply lookup_insert_eq|done|].
        exists e'. split; [exact He'|]. simpl in Hrest.
        destruct Hrest as (Hatt & Hrest). split; [|exact Hrest].
        simpl. lia.
      * destruct (c !! s) as [e0|] eqn:He0; simpl; [|by apply IH].
        apply IH; [|done]. by rewrite lookup_insert_ne.
Qed.

(** X3: over any sequence of calls that does not add the identifier
    again, the attempt count of an entry grows by exactly the number of
    [mark_vc_failed] calls made for it, whatever [mark_vc_completed] calls
    and calls for other identifiers come between, and its name, url, first
    page and discovery time stay; an identifier that is absent stays
    absent ([mark_vc_completed] and [mark_vc_failed] never create an
    entry). *)
Theorem attempts_count_failures (c : cache) (calls : list cache_call) slug :
  Forall (fun call => ¬ adds slug call) calls →
  (c !! slug = None → do_calls c calls !! slug = None) ∧
  (∀ e, c !! slug = Some e →
     ∃ e', do_calls c calls !! slug = Some e' ∧
           scrape_attempts e'
           = scrape_attempts e + Z.of_nat (length (filter (fails slug) calls)) ∧
           name e' = name e ∧ url e' = url e ∧
           first_seen_page e' = first_seen_page e ∧
           first_discovered e' = first_discovered e).
Proof.
  intros Hall. split.
  - intros Hc. by apply do_calls_absent.
  - intros e Hc. by apply do_calls_attempts.
Qed.

Lemma attempts_count_failures_witness :
  let calls := [CallFailed true "2025-03-01 10:00:00" "acme";
                CallCompleted true "2025-03-02 10:00:00" "2025-03-02 10:00:00" "acme" None;
                CallFailed false "2025-03-03 10:00:00" "beta";
                CallFailed true "2025-03-04 10:00:00" "acme"] in
  (scrape_attempts <$> do_calls one_entry_cache calls !! "acme") = Some 4 ∧
  do_calls one_entry_cache calls !! "beta" = None.
Proof.
  intros calls.
  assert (Hno : ∀ slug, Forall (fun call => ¬ adds slug call) calls).
  { intros slug. unfold calls. repeat constructor; simpl; tauto. }
  split.
  - destruct (attempts_count_failures one_entry_cache calls "acme" (Hno _))
      as [_ H].
    destruct (H acme_done) as (e' & -> & Hatt & _).
    + unfold one_entry_cache. apply lookup_singleton_eq.
    + simpl. f_equal. rewrite Hatt. reflexivity.
  - apply (attempts_count_failures one_entry_cache calls "beta" (Hno _)).
    unfold one_entry_cache. by apply lookup_singleton_ne.
Defined.

Lemma do_call_dom (c : cache) call slug :
  slug ∈ dom (do_call c call) ↔ slug ∈ dom c ∨ adds slug call.
Proof.
  destruct call as [w t1 t2 s name url p | w t1 t2 s h | w t s]; simpl.
  - rewrite dom_insert_L, elem_of_union, elem_of_singleton.
    split; [intros [Heq|Hin]; [right; by symmetry | by left] | intros [Hin|Heq]; [by right | left; by symmetry]].
  - unfold mark_vc_completed. destruct (c !! s) as [e|] eqn:He; simpl; [|tauto].
    rewrite dom_insert_lookup_L by eauto. tauto.
  - unfold mark_vc_failed. destruct (c !! s) as [e|] eqn:He; simpl; [|tauto].
    rewrite dom_insert_lookup_L by eauto. tauto.
Qed.

(** X4: no call of the writing methods removes an entry, and only
    [add_vc] creates one: after any sequence of calls an identifier is in
    the cache exactly when it was there before or one of the calls was an
    [add_vc] for it. *)
Theorem writes_never_remove (c : cache) (calls : list cache_call) slug :
  slug ∈ dom (do_calls c calls) ↔ slug ∈ dom c ∨ Exists (adds slug) calls.
Proof.
  revert c. induction calls as [|call calls IH]; intros c.
  - simpl. rewrite Exists_nil. tauto.
  - rewrite do_calls_cons, IH, do_call_dom, Exists_cons. tauto.
Qed.

End CacheRunProps.

(** ** Reading the cache *)

Module CacheReadMore.
Import VCCacheManager SearchPageHelper Spec Samples CacheReadProps.

Lemma get_vc_status_saved (c : cache) slug :
  get_vc_status (cache_to_json c) slug
  = Ok (match c !! slug with
        | Some e => JStr (scraping_status e)
        | None => JNull
        end).
Proof.
  unfold get_vc_status, cache_to_json. simpl.
  unfold dict_get. rewrite lookup_fmap.
  destruct (c !! slug) as [e|]; simpl.
  - unfold dict_get.
    repeat (rewrite lookup_insert_ne by discriminate).
    by rewrite lookup_insert_eq.
  - unfold dict_get. by rewrite lookup_empty.
Qed.

(** X5: a cache file holding what [_save_cache] dumps loads back as that
    dictionary, and on it [get_vc_status] returns the status of the entry
    ([None] for an unknown identifier) and [is_vc_completed] tells whether
    that status is [completed]; neither raises. *)
Theorem saved_cache_reads_back (c : cache) slug :
  _load_cache (FileContent (Ok (cache_to_json c))) = cache_to_json c ∧
  get_vc_status (_load_cache (FileContent (Ok (cache_to_json c)))) slug
  = Ok (match c !! slug with
        | Some e => JStr (scraping_status e)
        | None => JNull
        end) ∧
  is_vc_completed (_load_cache (FileContent (Ok (cache_to_json c)))) slug
  = Ok (bool_decide (scraping_status <$> c !! slug = Some "completed")).
Proof.
  assert (Hl : _load_cache (FileContent (Ok (cache_to_json c))) = cache_to_json c)
    by reflexivity.
  rewrite Hl. split_and!.
  - reflexivity.
  - apply get_vc_status_saved.
  - apply is_vc_completed_saved.
Qed.

Lemma cache_filter_loop_sublist cache_data links kept :
  cache_filter_loop cache_data links = Ok kept → kept `sublist_of` links.
Proof.
  revert kept. induction links as [|u rest IH]; intros kept Hrun.
  - injection Hrun as <-. constructor.
  - simpl in Hrun.
    destruct (is_vc_completed cache_data (url_id u)) as [b|e]; [|done].
    simpl in Hrun.
    destruct (cache_filter_loop cache_data rest) as [k|e]; [|done].
    simpl in Hrun. injection Hrun as <-.
    destruct b; [apply sublist_cons | apply sublist_skip]; by apply IH.
Qed.

(** X6: whatever the cache file holds, [_filter_links_by_cache] returns
    links of its input in their input order, and it leaves out a link only
    when the loaded cache answers, without raising, that the identifier of
    the link is completed. *)
Theorem cache_filter_only_drops_completed f (links : list string) :
  _filter_links_by_cache f links `sublist_of` links ∧
  (∀ url, url ∈ links → url ∉ _filter_links_by_cache f links →
          is_vc_completed (_load_cache f) (url_id url) = Ok true).
Proof.
  unfold _filter_links_by_cache.
  destruct (cache_filter_loop (_load_cache f) links) as [kept|e] eqn:Hrun.
  - split; [by eapply cache_filter_loop_sublist|].
    intros url Hin Hout. by eapply cache_filter_loop_drops.
  - split; [done|]. intros url Hin Hout. done.
Qed.

Lemma cache_filter_only_drops_completed_witness :
  let f := FileContent (Ok (cache_to_json one_entry_cache)) in
  acme_url ∈ [acme_url; beta_url] ∧
  _filter_links_by_cache f [acme_url; beta_url] = [beta_url] ∧
  is_vc_completed (_load_cache f) (url_id acme_url) = Ok true.
Proof.
  intros f.
  assert (Hin : acme_url ∈ [acme_url; beta_url]) by by left.
  assert (Hrun : _filter_links_by_cache f [acme_url; beta_url] = [beta_url])
    by (vm_compute; reflexivity).
  split; [exact Hin|]. split; [exact Hrun|].
  destruct (cache_filter_only_drops_completed f [acme_url; beta_url]) as [_ Hd].
  apply (Hd acme_url Hin).
  rewrite Hrun. intros H. apply list_elem_of_singleton in H. discriminate H.
Defined.

Lemma cache_filter_loop_saved (c : cache) links :
  cache_filter_loop (cache_to_json c) links
  = Ok (filter (fun url => scraping_status <$> c !! url_id url ≠ Some "completed") links).
Proof.
  induction links as [|u rest IH]; [reflexivity|].
  simpl. rewrite is_vc_completed_saved, IH. simpl. rewrite filter_cons.
  destruct (decide (scraping_status <$> c !! url_id u = Some "completed")) as [Hc|Hc].
  - rewrite bool_decide_eq_true_2 by done. by rewrite decide_False by tauto.
  - rewrite bool_decide_eq_false_2 by done. by rewrite decide_True.
Qed.

(** X7: on a cache file holding a saved cache, [_filter_links_by_cache]
    keeps exactly the links whose identifier has no entry of status
    [completed]: pending, failed and unknown investors all stay in the
    work list. *)
Theorem cache_filter_on_saved_cache (c : cache) (links : list string) :
  _filter_links_by_cache (FileContent (Ok (cache_to_json c))) links
  = filter (fun url => scraping_status <$> c !! url_id url ≠ Some "completed") links.
Proof.
  unfold _filter_links_by_cache.
  change (_load_cache (FileContent (Ok (cache_to_json c)))) with (cache_to_json c).
  by rewrite cache_filter_loop_saved.
Qed.

End CacheReadMore.

(** ** Identifiers cut from URLs *)

Module UrlProps.
Import SearchPageHelper Samples.

Lemma contains_slash_cons c s :
  contains (String c s) "/" = Ascii.eqb c "/" || contains s "/".
Proof.
  change (contains (String c s) "/")
    with (String.prefix "/" (String c s) || contains s "/").
  f_equal.
  change (String.prefix "/" (String c s))
    with (if Ascii.ascii_dec "/" c then String.prefix "" s else false).
  destruct (Ascii.ascii_dec "/" c) as [<-|Hne].
  - by destruct s.
  - symmetry. apply Ascii.eqb_neq. congruence.
Qed.

Lemma contains_slash_app a b :
  contains (a +:+ b) "/" = contains a "/" || contains b "/".
Proof.
  induction a as [|c a IH].
  - simpl. by destruct b.
  - change (String c a +:+ b) with (String c (a +:+ b)).
    rewrite !contains_slash_cons, IH. by rewrite orb_assoc.
Qed.

Lemma split_shape s :
  split "/" s ≠ [] ∧ Forall (fun seg => contains seg "/" = false) (split "/" s).
Proof.
  induction s as [|c s [Hne Hall]]; simpl.
  - split; [done|]. repeat constructor.
  - destruct (Ascii.eqb c "/") eqn:Hc.
    + split; [done|]. constructor; [done|exact Hall].
    + destruct (split "/" s) as [|seg segs]; [done|].
      split; [done|]. apply Forall_cons in Hall as [Hseg Hall].
      constructor; [|exact Hall].
      by rewrite contains_slash_cons, Hc, Hseg.
Qed.

Lemma split_no_slash s : contains s "/" = false → split "/" s = [s].
Proof.
  induction s as [|c s IH]; [done|].
  rewrite contains_slash_cons. intros [Hc Hs]%orb_false_iff.
  simpl. rewrite Hc, (IH Hs). done.
Qed.

Lemma split_app_slash a b :
  split "/" (a +:+ String "/" b) = split "/" a ++ split "/" b.
Proof.
  induction a as [|c a IH].
  - simpl. reflexivity.
  - change (String c a +:+ String "/" b) with (String c (a +:+ String "/" b)).
    simpl. rewrite IH. destruct (Ascii.eqb c "/"); [done|].
    destruct (split_shape a) as [Hne _].
    by destruct (split "/" a).
Qed.

Lemma last_Forall {A} (P : A → Prop) (l : list A) d :
  l ≠ [] → Forall P l → P (List.last l d).
Proof.
  induction l as [|x [|y l] IH]; intros Hne Hall; [done| |].
  - by apply Forall_cons in Hall as [? _].
  - apply Forall_cons in Hall as [_ Hall]. by apply IH.
Qed.

Lemma last_app_singleton {A} (l : list A) x d : List.last (l ++ [x]) d = x.
Proof. apply List.last_last. Qed.

(** X8: the identifier [url_id] cuts from a URL is the text after the last
    slash: it never contains a slash, and for a URL made of any base, a
    slash and a slug without slash it is the slug (query parameters
    included); a URL that ends in a slash gives the empty identifier. *)
Theorem url_id_last_segment (url base slug : string) :
  contains (url_id url) "/" = false ∧
  (contains slug "/" = false → url_id (base +:+ "/" +:+ slug) = slug) ∧
  url_id (base +:+ "/") = "".
Proof.
  split_and!.
  - unfold url_id. destruct (contains url "/") eqn:Hc; [|exact Hc].
    destruct (split_shape url) as [Hne Hall].
    by apply (last_Forall (fun seg => contains seg "/" = false)).
  - intros Hslug. unfold url_id.
    change (base +:+ "/" +:+ slug) with (base +:+ String "/" slug).
    rewrite contains_slash_app, contains_slash_cons. simpl Ascii.eqb.
    rewrite orb_true_r, split_app_slash, (split_no_slash slug Hslug).
    apply last_app_singleton.
  - unfold url_id.
    change (base +:+ "/") with (base +:+ String "/" "").
    rewrite contains_slash_app, contains_slash_cons. simpl Ascii.eqb.
    rewrite orb_true_r, split_app_slash. simpl split.
    apply last_app_singleton.
Qed.

Lemma url_id_last_segment_witness :
  contains "acme?section=investments" "/" = false ∧
  url_id ("https://finder.startupnationcentral.org/investor_page" +:+ "/" +:+
          "acme?section=investments") = "acme?section=investments".
Proof.
  split; [reflexivity|].
  by apply (url_id_last_segment "" "https://finder.startupnationcentral.org/investor_page"
              "acme?section=investments").
Defined.

End UrlProps.

(** ** The work selector, continued *)

Module SearchMore.
Import SearchPageHelper VCOrchestrator Spec Samples.

#[local] Arguments determine_vc_status : simpl never.

Lemma add_scraped_raises ids vc e : add_scraped ids vc = Raise e → e = TypeError.
Proof.
  destruct vc as [ | | | | | d]; simpl; try discriminate.
  repeat (match goal with |- context [if ?c then _ else _] => destruct c end);
    try discriminate. by intros [= <-].
Qed.

Lemma collect_scraped_raises vcs : ∀ ids e,
  collect_scraped ids vcs = Raise e → e = TypeError.
Proof.
  induction vcs as [|vc rest IH]; intros ids e; [discriminate|].
  simpl. destruct (add_scraped ids vc) as [ids'|e'] eqn:Ha; simpl.
  - apply IH.
  - intros [= <-]. by eapply add_scraped_raises.
Qed.

(** X9: [filter_unscraped_vcs] either raises [TypeError] (the snapshot is a
    number or [true], or a scraped item has a list or dictionary as
    [vc_id]) or returns links of the pool in the order of the pool; and
    filtering what it returned against the same snapshot returns it
    again. *)
Theorem filter_unscraped_vcs_outcome (links : list string) existing :
  match filter_unscraped_vcs links existing with
  | Ok kept =>
      kept `sublist_of` links ∧ filter_unscraped_vcs kept existing = Ok kept
  | Raise e => e = TypeError ∧ truthy existing = true
  end.
Proof.
  unfold filter_unscraped_vcs.
  destruct (truthy existing) eqn:Ht; simpl; [|done].
  destruct (py_iter existing) as [vcs|e] eqn:Hi; simpl.
  - destruct (collect_scraped [] vcs) as [ids|e] eqn:Hc; simpl.
    + split; [apply sublist_filter|].
      f_equal. apply list_filter_filter_r. intros url Hurl. exact Hurl.
    + split; [exact (collect_scraped_raises _ _ _ Hc) | done].
  - split; [|done]. destruct existing; simpl in Hi; by simplify_eq.
Qed.

Lemma determine_vc_status_fields d d' :
  (∀ field, field ∈ "investments" :: key_overview_fields → d' !! field = d !! field) →
  determine_vc_status (JDict d') = determine_vc_status (JDict d).
Proof.
  intros Hsame. unfold determine_vc_status, dict_get, key_overview_fields in *.
  simpl. rewrite !Hsame; [done|..]; repeat (first [by left | right]).
Qed.

(** X10: [determine_vc_status] reads only the four key overview fields
    and [investments]: writing, changing or deleting any other field of a
    record, a stored [vc_status] or [status] among them, never changes its
    classification. *)
Theorem determine_vc_status_other_fields d key v :
  key ∉ "investments" :: key_overview_fields →
  determine_vc_status (JDict (<[key := v]> d)) = determine_vc_status (JDict d) ∧
  determine_vc_status (JDict (delete key d)) = determine_vc_status (JDict d).
Proof.
  intros Hkey. split; apply determine_vc_status_fields; intros field Hf.
  - apply lookup_insert_ne. by intros ->.
  - apply lookup_delete_ne. by intros ->.
Qed.

Lemma determine_vc_status_other_fields_witness :
  determine_vc_status
    (JDict (<["vc_status" := JStr "scraped"]>
              (<["vc_id" := JStr "beta"]> (<["investments" := JList []]> ∅))))
  = "not_scraped".
Proof.
  destruct (determine_vc_status_other_fields
              (<["vc_id" := JStr "beta"]> (<["investments" := JList []]> ∅))
              "vc_status" (JStr "scraped")) as [-> _].
  - unfold key_overview_fields. intros Hin.
    repeat (apply elem_of_cons in Hin as [Hin|Hin]; [discriminate Hin|]).
    by apply elem_of_nil in Hin.
  - reflexivity.
Defined.

Lemma add_scraped_not_scraped ids vc :
  determine_vc_status vc = "not_scraped" → add_scraped ids vc = Ok ids.
Proof.
  intros Hd. destruct vc as [ | | | | | d]; try reflexivity.
  unfold add_scraped. rewrite Hd. simpl.
  by destruct (truthy (dict_get d "vc_id" (JStr ""))).
Qed.

Lemma filter_nothing_scraped (links : list string) :
  filter (fun url => negb (in_scraped [] (url_id url))) links = links.
Proof.
  induction links as [|u links IH]; [reflexivity|].
  rewrite filter_cons. case_decide as Hu; [by rewrite IH|].
  exfalso. apply Hu. reflexivity.
Qed.

Ltac look_up :=
  repeat (rewrite lookup_insert_ne by discriminate);
  rewrite ?lookup_insert_eq, ?lookup_empty.

Lemma empty_investments_not_scraped d :
  d !! "investments" = Some (JList []) →
  determine_vc_status (JDict d) = "not_scraped".
Proof.
  intros Hi. unfold determine_vc_status.
  cbv zeta. unfold dict_get at 2. rewrite Hi. simpl truthy.
  by rewrite andb_false_r.
Qed.

(** X11: a record [_validate_vc_page] returns with a status other than
    [valid] (an inactive or limited-information profile) is a non-empty
    record with the identifier it was given, and [determine_vc_status]
    classifies it [not_scraped]: once in a snapshot it never takes its
    investor off the work list. *)
Theorem validation_records_not_scraped page_source current_url error_text vc_id r :
  _validate_vc_page page_source current_url error_text vc_id = Ok r →
  py_getitem r "status" ≠ Ok (JStr "valid") →
  truthy r = true ∧
  py_getitem r "vc_id" = Ok (JStr vc_id) ∧
  determine_vc_status r = "not_scraped" ∧
  ∀ links, filter_unscraped_vcs links (JList [r]) = Ok links.
Proof.
  assert (Hgen : ∀ d, d !! "investments" = Some (JList []) →
                      d !! "vc_id" = Some (JStr vc_id) →
    truthy (JDict d) = true ∧
    py_getitem (JDict d) "vc_id" = Ok (JStr vc_id) ∧
    determine_vc_status (JDict d) = "not_scraped" ∧
    ∀ links, filter_unscraped_vcs links (JList [JDict d]) = Ok links).
  { intros d Hi Hv.
    pose proof (empty_investments_not_scraped d Hi) as Hd.
    split_and!.
    - simpl. apply negb_true_iff, bool_decide_eq_false.
      intros ->. by rewrite lookup_empty in Hi.
    - simpl. by rewrite Hv.
    - exact Hd.
    - intros links. unfold filter_unscraped_vcs.
      change (truthy (JList [JDict d])) with true. simpl negb. cbv iota.
      simpl py_iter. unfold mbind, pyresult_bind.
      change (collect_scraped [] [JDict d]) with
        (match add_scraped [] (JDict d) with
         | Ok ids => collect_scraped ids []
         | Raise e => Raise e
         end).
      rewrite (add_scraped_not_scraped _ _ Hd). simpl.
      by rewrite filter_nothing_scraped. }
  unfold _validate_vc_page.
  destruct page_source as [src|e]; simpl.
  - destruct (contains src "presumed inactive no recent investments in israel");
      [|destruct (contains src "this profile has limited information")];
      destruct current_url as [url|e]; simpl; try discriminate;
      intros [= <-] Hst.
    + apply Hgen; by look_up.
    + apply Hgen; by look_up.
    + exfalso. apply Hst. simpl. by look_up.
  - destruct current_url as [url|e']; simpl; try discriminate.
    intros [= <-] Hst. exfalso. apply Hst. simpl. by look_up.
Qed.

Lemma validation_records_not_scraped_witness :
  ∃ r, _validate_vc_page
         (Ok "<h1>beta fund</h1> presumed inactive no recent investments in israel")
         (Ok beta_url) "" "beta" = Ok r ∧
       determine_vc_status r = "not_scraped" ∧
       filter_unscraped_vcs [beta_url] (JList [r]) = Ok [beta_url].
Proof.
  eexists. split; [reflexivity|].
  edestruct (validation_records_not_scraped
               (Ok "<h1>beta fund</h1> presumed inactive no recent investments in israel")
               (Ok beta_url) "" "beta") as (_ & _ & Hd & Hf).
  - reflexivity.
  - discriminate.
  - split; [exact Hd | apply Hf].
Defined.

End SearchMore.

(** ** Status tracking in the scraper *)

Module TrackingProps.
Import SNCVCScraper Samples.

(** X12: after [_set_vc_status] the identifier reads back the status it
    was given and no other identifier changes.  A new identifier starts
    with no attempt, even when its first status is [in_progress], and with
    the page given or else the current page; a known one keeps its url and
    first-seen time whatever url is passed, gains one attempt exactly when
    the status is [in_progress], and changes page only when one is
    passed. *)
Theorem set_vc_status_effect t1 t2 current_page (vc_status : vc_status_map)
    vc_id st url page :
  let after := _set_vc_status t1 t2 current_page vc_status vc_id st url page in
  _get_vc_status after vc_id = st ∧
  (∀ other, other ≠ vc_id → after !! other = vc_status !! other) ∧
  (vc_status !! vc_id = None →
     ∃ r, after !! vc_id = Some r ∧ attempts r = 0 ∧
          SNCVCScraper.url r = default "" url ∧
          discovered_on_page r = page_or page current_page ∧
          size after = S (size vc_status)) ∧
  (∀ old, vc_status !! vc_id = Some old →
     ∃ r, after !! vc_id = Some r ∧
          attempts r = (if String.eqb st "in_progress"
                        then attempts old + 1 else attempts old) ∧
          SNCVCScraper.url r = SNCVCScraper.url old ∧
          first_seen r = first_seen old ∧
          discovered_on_page r = default (discovered_on_page old) page ∧
          size after = size vc_status).
Proof.
  intros after. subst after. unfold _set_vc_status, _get_vc_status.
  destruct (vc_status !! vc_id) as [old|] eqn:Hold.
  - split_and!.
    + by rewrite lookup_insert_eq.
    + intros other Hne. by rewrite lookup_insert_ne.
    + discriminate.
    + intros ? [= <-]. eexists. split; [apply lookup_insert_eq|]. simpl.
      split_and!; try done.
      apply map_size_insert_Some. eauto.
  - split_and!.
    + by rewrite lookup_insert_eq.
    + intros other Hne. by rewrite lookup_insert_ne.
    + intros _. eexists. split; [apply lookup_insert_eq|]. simpl.
      split_and!; try done. by apply map_size_insert_None.
    + discriminate.
Qed.

Lemma set_vc_status_effect_witness :
  let vs : vc_status_map := {["beta" := inactive_on_page_1]} in
  vs !! "beta" = Some inactive_on_page_1 ∧
  vs !! "acme" = None ∧
  (attempts <$> _set_vc_status "t1" "t2" 7 vs "beta" "in_progress" (Some acme_url) None
                !! "beta") = Some 2 ∧
  (attempts <$> _set_vc_status "t1" "t2" 7 vs "acme" "in_progress" (Some acme_url) None
                !! "acme") = Some 0.
Proof.
  intros vs.
  assert (Hb : vs !! "beta" = Some inactive_on_page_1) by apply lookup_singleton_eq.
  assert (Ha : vs !! "acme" = None) by by apply lookup_singleton_ne.
  split; [exact Hb|]. split; [exact Ha|]. split.
  - destruct (set_vc_status_effect "t1" "t2" 7 vs "beta" "in_progress"
                (Some acme_url) None) as (_ & _ & _ & H).
    destruct (H _ Hb) as (r & -> & Hatt & _). simpl. by rewrite Hatt.
  - destruct (set_vc_status_effect "t1" "t2" 7 vs "acme" "in_progress"
                (Some acme_url) None) as (_ & _ & H & _).
    destruct (H Ha) as (r & -> & Hatt & _). simpl. by rewrite Hatt.
Defined.

Lemma update_page_completion_alt (vc_status : vc_status_map) (cp : gset Z) p :
  _update_page_completion vc_status cp p
  = match page_vc_ids vc_status p with
    | [] => cp
    | ids =>
        if bool_decide
             (length (filter (fun vc_id => _get_vc_status vc_status vc_id = "completed") ids)
              = length ids)
        then {[p]} ∪ cp else cp ∖ {[p]}
    end.
Proof.
  unfold _update_page_completion.
  destruct (page_vc_ids vc_status p) as [|id0 ids]; [done|].
  rewrite (bool_decide_eq_true_2 (0 < length (id0 :: ids))%nat) by (simpl; lia).
  rewrite andb_true_r. case_bool_decide; [done|].
  case_bool_decide as Hin; [done|].
  apply set_eq. intros q. rewrite elem_of_difference, elem_of_singleton.
  split; [|tauto]. intros Hq. split; [done|]. by intros ->.
Qed.

(** X13: [_update_page_completion] settles the mark of its page from the
    item statuses alone: running it a second time changes nothing, the
    updates of two pages can be made in either order, and afterwards
    [_is_page_completed] of any other page answers as before. *)
Theorem update_page_completion_settles (vc_status : vc_status_map)
    (completed_pages : gset Z) (p q : Z) :
  _update_page_completion vc_status
    (_update_page_completion vc_status completed_pages p) p
  = _update_page_completion vc_status completed_pages p ∧
  _update_page_completion vc_status
    (_update_page_completion vc_status completed_pages p) q
  = _update_page_completion vc_status
      (_update_page_completion vc_status completed_pages q) p ∧
  (q ≠ p →
   _is_page_completed (_update_page_completion vc_status completed_pages p) q
   = _is_page_completed completed_pages q).
Proof.
  split_and!.
  - rewrite !update_page_completion_alt.
    destruct (page_vc_ids vc_status p) as [|ip idsp]; [done|].
    cbv beta iota zeta.
    match goal with
    | |- context [@bool_decide ?P ?d] => destruct (@bool_decide P d)
    end; set_solver.
  - destruct (decide (q = p)) as [->|Hne]; [done|].
    rewrite !update_page_completion_alt.
    destruct (page_vc_ids vc_status p) as [|ip idsp];
      destruct (page_vc_ids vc_status q) as [|iq idsq];
      cbv beta iota zeta;
      repeat match goal with
             | |- context [@bool_decide ?P ?d] => destruct (@bool_decide P d)
             end;
      set_solver.
  - intros Hne. rewrite update_page_completion_alt.
    destruct (page_vc_ids vc_status p) as [|ip idsp]; [done|].
    cbv beta iota zeta.
    match goal with
    | |- context [@bool_decide ?P ?d] => destruct (@bool_decide P d)
    end; unfold _is_page_completed; apply bool_decide_ext; set_solver.
Qed.

Lemma update_page_completion_settles_witness :
  _is_page_completed
    (_update_page_completion {["beta" := inactive_on_page_1]} {[1; 2]} 1) 2
  = _is_page_completed {[1; 2]} 2.
Proof.
  apply (update_page_completion_settles {["beta" := inactive_on_page_1]} {[1; 2]} 1 2).
  discriminate.
Defined.

Lemma elem_of_status_list (P : vc_record → Prop) `{!∀ r, Decision (P r)}
    (vc_status : vc_status_map) vc_id :
  vc_id ∈ (filter (fun kv : string * vc_record => P kv.2) (map_to_list vc_status)).*1
  ↔ ∃ r, vc_status !! vc_id = Some r ∧ P r.
Proof.
  rewrite list_elem_of_fmap. split.
  - intros ([k r] & -> & Hin). apply list_elem_of_filter in Hin as [Hp Hin].
    apply elem_of_map_to_list in Hin. by exists r.
  - intros (r & Hr & Hp). exists (vc_id, r). split; [done|].
    apply list_elem_of_filter. split; [done|]. by apply elem_of_map_to_list.
Qed.

(** X14: [_get_completed_vcs] lists exactly the tracked identifiers whose
    status is [completed] and [_get_pending_vcs] exactly those whose status
    is [pending] or [failed]; no identifier is in both, and an identifier
    that was never tracked is in neither, though [_get_vc_status] reports
    it as [pending]. *)
Theorem pending_and_completed_lists (vc_status : vc_status_map) vc_id :
  (vc_id ∈ _get_completed_vcs vc_status ↔
     is_Some (vc_status !! vc_id) ∧ _get_vc_status vc_status vc_id = "completed") ∧
  (vc_id ∈ _get_pending_vcs vc_status ↔
     is_Some (vc_status !! vc_id) ∧
     (_get_vc_status vc_status vc_id = "pending" ∨
      _get_vc_status vc_status vc_id = "failed")) ∧
  (¬ (vc_id ∈ _get_completed_vcs vc_status ∧ vc_id ∈ _get_pending_vcs vc_status)) ∧
  (vc_status !! vc_id = None →
     _get_vc_status vc_status vc_id = "pending" ∧
     (vc_id ∉ _get_pending_vcs vc_status) ∧ (vc_id ∉ _get_completed_vcs vc_status)).
Proof.
  assert (Hc : vc_id ∈ _get_completed_vcs vc_status
               ↔ ∃ r, vc_status !! vc_id = Some r ∧ status r = "completed")
    by exact (elem_of_status_list (fun r => status r = "completed") vc_status vc_id).
  assert (Hp : vc_id ∈ _get_pending_vcs vc_status
               ↔ ∃ r, vc_status !! vc_id = Some r
                      ∧ (status r = "pending" ∨ status r = "failed"))
    by exact (elem_of_status_list (fun r => status r = "pending" ∨ status r = "failed")
                vc_status vc_id).
  rewrite Hc, Hp. clear Hc Hp. unfold _get_vc_status.
  destruct (vc_status !! vc_id) as [r|] eqn:Hr.
  - split_and!.
    + split; [intros (? & [= <-] & ?); eauto | intros [_ ?]; eauto].
    + split; [intros (? & [= <-] & ?); eauto | intros [_ ?]; eauto].
    + intros [(? & [= <-] & Hc) (? & [= <-] & [Hp|Hp])]; congruence.
    + discriminate.
  - split_and!.
    + split; [by intros (? & ? & ?) | by intros [[? ?] _]].
    + split; [by intros (? & ? & ?) | by intros [[? ?] _]].
    + by intros [(? & ? & ?) _].
    + intros _. split_and!; [done | by intros (? & ? & ?) | by intros (? & ? & ?)].
Qed.

Lemma pending_and_completed_lists_witness :
  ({["beta" := inactive_on_page_1]} : vc_status_map) !! "acme" = None ∧
  _get_vc_status {["beta" := inactive_on_page_1]} "acme" = "pending" ∧
  ("acme" ∉ _get_pending_vcs {["beta" := inactive_on_page_1]}).
Proof.
  assert (Ha : ({["beta" := inactive_on_page_1]} : vc_status_map) !! "acme" = None)
    by by apply lookup_singleton_ne.
  destruct (pending_and_completed_lists {["beta" := inactive_on_page_1]} "acme")
    as (_ & _ & _ & H).
  destruct (H Ha) as (H1 & H2 & _). by split_and!.
Defined.

End TrackingProps.

(** ** Strings and file names *)

Module StringProps.
Import SNCVCScraper StateManager.

Lemma prefix_cons c a s :
  String.prefix (String c a) (String c s) = String.prefix a s.
Proof.
  change (String.prefix (String c a) (String c s))
    with (if Ascii.ascii_dec c c then String.prefix a s else false).
  by destruct (Ascii.ascii_dec c c).
Qed.

Lemma prefix_cons_ne c d a s :
  c ≠ d → String.prefix (String c a) (String d s) = false.
Proof.
  intros Hne.
  change (String.prefix (String c a) (String d s))
    with (if Ascii.ascii_dec c d then String.prefix a s else false).
  by destruct (Ascii.ascii_dec c d).
Qed.

Lemma prefix_nil s : String.prefix "" s = true.
Proof. by destruct s. Qed.

Lemma app_cons c a b : String c a +:+ b = String c (a +:+ b).
Proof. reflexivity. Qed.

Lemma app_nil_l a : "" +:+ a = a.
Proof. reflexivity. Qed.

Lemma app_nil_r a : a +:+ "" = a.
Proof. induction a as [|c a IH]; [done|]. by rewrite app_cons, IH. Qed.

Lemma app_assoc a b c : a +:+ (b +:+ c) = (a +:+ b) +:+ c.
Proof. induction a as [|x a IH]; [done|]. by rewrite !app_cons, IH. Qed.

Lemma prefix_app a b c : String.prefix (a +:+ b) (a +:+ c) = String.prefix b c.
Proof. induction a as [|x a IH]; [done|]. by rewrite !app_cons, prefix_cons. Qed.

Lemma prefix_app_r a c : String.prefix a (a +:+ c) = true.
Proof.
  induction a as [|x a IH]; [apply prefix_nil|]. by rewrite app_cons, prefix_cons.
Qed.

Lemma rev_app_app a b acc :
  String.rev_app (a +:+ b) acc = String.rev_app b (String.rev_app a acc).
Proof.
  revert acc. induction a as [|x a IH]; intros acc; [done|].
  rewrite app_cons. apply IH.
Qed.

Lemma rev_app_acc a acc : String.rev_app a acc = String.rev_app a "" +:+ acc.
Proof.
  revert acc. induction a as [|x a IH]; intros acc; [done|].
  change (String.rev_app (String x a) acc) with (String.rev_app a (String x acc)).
  change (String.rev_app (String x a) "") with (String.rev_app a (String x "")).
  rewrite (IH (String x acc)), (IH (String x "")). by rewrite <- app_assoc.
Qed.

Lemma endswith_app a suffix : endswith (a +:+ suffix) suffix = true.
Proof.
  unfold endswith, String.rev.
  rewrite rev_app_app, (rev_app_acc suffix (String.rev_app a "")).
  apply prefix_app_r.
Qed.

Lemma contains_app_r a b : contains b a = true → ∀ c, contains (c +:+ b) a = true.
Proof.
  intros Hb c. induction c as [|x c IH]; [done|].
  rewrite app_cons.
  change (contains (String x (c +:+ b)) a)
    with (String.prefix a (String x (c +:+ b)) || contains (c +:+ b) a).
  rewrite IH. apply orb_true_r.
Qed.

Lemma contains_prefix a b : String.prefix a b = true → contains b a = true.
Proof.
  intros H. destruct b as [|x b].
  - change (contains "" a) with (String.prefix a "" || false). by rewrite H.
  - change (contains (String x b) a)
      with (String.prefix a (String x b) || contains b a).
    by rewrite H.
Qed.

Lemma contains_middle a b c : contains (a +:+ b +:+ c) b = true.
Proof. apply contains_app_r, contains_prefix, prefix_app_r. Qed.

(** The name [save_page_with_enhanced_metadata] builds for a page is a
    file of that page. *)
Lemma is_page_file_enhanced p st vcs ts :
  is_page_file p (enhanced_filename p st vcs ts) = true.
Proof.
  unfold is_page_file, enhanced_filename, page_prefix, startswith.
  apply andb_true_intro. split.
  - rewrite (prefix_app "page_"), (prefix_app (pretty p)). apply (prefix_app_r "_").
  - rewrite !app_assoc. apply endswith_app.
Qed.

(** No decimal numeral holds an underscore. *)
Lemma contains_cons_ne c s :
  c ≠ "_"%char → contains (String c s) "_" = contains s "_".
Proof.
  intros Hne.
  change (contains (String c s) "_")
    with (String.prefix "_" (String c s) || contains s "_").
  rewrite prefix_cons_ne by done. done.
Qed.

Lemma contains_cons_eq s : contains (String "_" s) "_" = true.
Proof.
  change (contains (String "_" s) "_")
    with (String.prefix "_" (String "_" s) || contains s "_").
  by rewrite prefix_cons, prefix_nil.
Qed.

Lemma pretty_N_go_no_underscore x s :
  contains s "_" = false → contains (pretty_N_go x s) "_" = false.
Proof.
  revert s. induction (N.lt_wf_0 x) as [x _ IH]; intros s Hs.
  assert (x = 0 ∨ 0 < x)%N as [->|Hpos] by lia.
  - by rewrite pretty_N_go_0.
  - rewrite pretty_N_go_step by done. apply IH; [by apply N.div_lt|].
    rewrite contains_cons_ne; [done|].
    unfold pretty_N_char. by repeat case_match.
Qed.

Lemma pretty_Z_no_underscore (p : Z) : contains (pretty p) "_" = false.
Proof.
  assert (HN : ∀ x : N, contains (pretty x) "_" = false).
  { intros x. unfold pretty, pretty_N. case_decide; [done|].
    by apply pretty_N_go_no_underscore. }
  destruct p as [|x|x]; [done|apply (HN (Npos x))|].
  unfold pretty, pretty_Z. rewrite app_cons, contains_cons_ne by done.
  apply (HN (Npos x)).
Qed.

Lemma prefix_sep_unique a b x y :
  contains a "_" = false → contains b "_" = false →
  String.prefix (a +:+ String "_" x) (b +:+ String "_" y) = true → a = b.
Proof.
  revert b. induction a as [|c a IH]; intros [|d b] Ha Hb Hp.
  - done.
  - exfalso. rewrite app_cons in Hp.
    change ("" +:+ String "_" x) with (String "_" x) in Hp.
    destruct (decide ("_"%char = d)) as [<-|Hne].
    + by rewrite contains_cons_eq in Hb.
    + by rewrite prefix_cons_ne in Hp.
  - exfalso. rewrite app_cons in Hp.
    change ("" +:+ String "_" y) with (String "_" y) in Hp.
    destruct (decide (c = "_"%char)) as [->|Hne].
    + by rewrite contains_cons_eq in Ha.
    + by rewrite prefix_cons_ne in Hp.
  - rewrite !app_cons in Hp.
    destruct (decide (c = d)) as [->|Hne]; [|by rewrite prefix_cons_ne in Hp].
    rewrite prefix_cons in Hp.
    assert (d ≠ "_"%char) as Hd.
    { intros ->. by rewrite contains_cons_eq in Hb. }
    rewrite contains_cons_ne in Ha, Hb by done.
    f_equal. by apply IH.
Qed.

Lemma prefix_split pre name :
  String.prefix pre name = true → ∃ y, name = pre +:+ y.
Proof.
  revert name. induction pre as [|c pre IH]; intros name Hpre.
  - by exists name.
  - destruct name as [|d name]; [discriminate|].
    destruct (decide (c = d)) as [->|Hne]; [|by rewrite prefix_cons_ne in Hpre].
    rewrite prefix_cons in Hpre.
    destruct (IH _ Hpre) as [y ->]. by exists y.
Qed.

(** A file name belongs to at most one page. *)
Lemma is_page_file_unique p q name :
  is_page_file p name = true → is_page_file q name = true → p = q.
Proof.
  unfold is_page_file, startswith, page_prefix.
  intros [Hp _]%andb_prop [Hq _]%andb_prop.
  apply prefix_split in Hp as [y ->].
  rewrite <- !app_assoc in Hq.
  rewrite (prefix_app "page_") in Hq.
  apply (inj pretty).
  symmetry. eapply prefix_sep_unique; [apply pretty_Z_no_underscore..|exact Hq].
Qed.

End StringProps.

(** ** Saving and loading the snapshots of a page *)

Module SaveProps.
Import SNCVCScraper SearchPageHelper Samples StringProps SnapshotProps.

(** A loop over the listing that looks only at the files of page [q]. *)
Section PageLoops.
Context {A : Type} (q : Z) (loop : list result_file → A)
  (step : result_file → A → A).
Hypothesis loop_cons : ∀ g rest,
  loop (g :: rest)
  = if is_page_file q (filename g) then step g (loop rest) else loop rest.

Lemma loop_insert pos f files :
  is_page_file q (filename f) = false →
  loop (take pos files ++ f :: drop pos files) = loop files.
Proof.
  intros Hf. revert pos. induction files as [|g rest IH]; intros [|pos]; simpl.
  - by rewrite loop_cons, Hf.
  - by rewrite loop_cons, Hf.
  - by rewrite (loop_cons f), Hf.
  - by rewrite !(loop_cons g), IH.
Qed.

Lemma loop_drop_named name files :
  is_page_file q name = false →
  loop (filter (fun g => filename g ≠ name) files) = loop files.
Proof.
  intros Hname. induction files as [|g rest IH]; [done|].
  rewrite filter_cons. case_decide as Hg.
  - by rewrite !loop_cons, IH.
  - by rewrite (loop_cons g), Hg, Hname.
Qed.

Lemma loop_remove_old can_remove p tags files :
  p ≠ q →
  loop (remove_old_loop can_remove p tags files) = loop files.
Proof.
  intros Hpq. induction files as [|g rest IH]; [done|]. simpl.
  destruct (is_page_file p (filename g)) eqn:Hp; simpl.
  - assert (is_page_file q (filename g) = false) as Hq.
    { destruct (is_page_file q (filename g)) eqn:Hq; [|done].
      destruct Hpq. by eapply is_page_file_unique. }
    destruct (has_status_tag tags (filename g)).
    + destruct (can_remove (filename g)); [|done].
      by rewrite (loop_cons g), Hq.
    + by rewrite !loop_cons, Hq.
  - by rewrite !loop_cons, IH.
Qed.

Lemma loop_write_file pos f files :
  is_page_file q (filename f) = false →
  loop (write_file pos f files) = loop files.
Proof.
  intros Hf. unfold write_file. by rewrite loop_insert, loop_drop_named.
Qed.

End PageLoops.

Lemma load_page_loop_cons q g rest :
  load_page_loop q (g :: rest)
  = if is_page_file q (filename g)
    then (fun g _ => data ← content g; read_enhanced (filename g) data) g
           (load_page_loop q rest)
    else load_page_loop q rest.
Proof. reflexivity. Qed.

Lemma load_existing_loop_cons q g rest :
  load_existing_loop q (g :: rest)
  = if is_page_file q (filename g)
    then (fun g later =>
            page_data ← content g;
            r ← read_existing (filename g) page_data;
            match r with Some res => mret res | None => later end) g
           (load_existing_loop q rest)
    else load_existing_loop q rest.
Proof. reflexivity. Qed.

Lemma remove_old_loop_sublist can_remove p tags files :
  sublist (remove_old_loop can_remove p tags files) files.
Proof.
  induction files as [|g rest IH]; [done|]. simpl.
  destruct (_ && _); [destruct (can_remove _)|].
  - by apply sublist_cons.
  - done.
  - by apply sublist_skip.
Qed.

Lemma remove_old_loop_removable can_remove p tags files :
  (∀ g, g ∈ files →
        is_page_file p (filename g) && has_status_tag tags (filename g) = true →
        can_remove (filename g) = true) →
  remove_old_loop can_remove p tags files
  = filter (fun g => is_page_file p (filename g) && has_status_tag tags (filename g)
                     = false) files.
Proof.
  induction files as [|g rest IH]; intros Hrm; [done|]. simpl.
  rewrite filter_cons.
  destruct (is_page_file p (filename g) && has_status_tag tags (filename g)) eqn:Hg.
  - rewrite (Hrm g) by (done || by left). rewrite decide_False by done.
    apply IH. intros g' Hg'. apply Hrm. by right.
  - rewrite decide_True by done. f_equal.
    apply IH. intros g' Hg'. apply Hrm. by right.
Qed.

(** X15: [_remove_old_page_files] leaves the remaining files in their
    order, removes only files of the given page whose name holds one of
    the given status tags, and never changes what is loaded for another
    page; when every such file can be removed none of them is left, and
    when a removal fails the files listed after it stay. *)
Theorem remove_old_page_files_effect can_remove files p tags :
  ∃ left_over,
    _remove_old_page_files can_remove (Some files) p tags = Some left_over ∧
    sublist left_over files ∧
    (∀ g, g ∈ files → g ∉ left_over →
          is_page_file p (filename g) = true ∧
          has_status_tag tags (filename g) = true) ∧
    (∀ q, q ≠ p →
          load_page_with_enhanced_metadata (Some left_over) q
          = load_page_with_enhanced_metadata (Some files) q) ∧
    ((∀ g, g ∈ files → can_remove (filename g) = true) →
     ∀ g, g ∈ left_over →
          is_page_file p (filename g) && has_status_tag tags (filename g) = false) ∧
    (∀ pre g rest, files = pre ++ g :: rest →
          (∀ h, h ∈ pre → can_remove (filename h) = true) →
          is_page_file p (filename g) && has_status_tag tags (filename g) = true →
          can_remove (filename g) = false →
          ∃ kept, left_over = kept ++ g :: rest).
Proof.
  eexists. split; [reflexivity|]. split_and!.
  - apply remove_old_loop_sublist.
  - induction files as [|g rest IH]; intros h Hh Hnot; [by apply elem_of_nil in Hh|].
    simpl in Hnot.
    destruct (is_page_file p (filename g) && has_status_tag tags (filename g)) eqn:Hg.
    + destruct (can_remove (filename g)); [|done].
      apply elem_of_cons in Hh as [->|Hh]; [by apply andb_prop in Hg|by apply IH].
    + apply elem_of_cons in Hh as [->|Hh]; [destruct Hnot; by left|].
      apply IH; [done|]. intros Hin. apply Hnot. by right.
  - intros q Hq. unfold load_page_with_enhanced_metadata.
    by rewrite (loop_remove_old q (load_page_loop q) _ (load_page_loop_cons q)).
  - intros Hall g. rewrite remove_old_loop_removable by auto.
    by intros [? _]%list_elem_of_filter.
  - intros pre g rest -> Hpre Hg Hfail.
    induction pre as [|h pre IH]; simpl.
    + rewrite Hg, Hfail. by exists [].
    + destruct IH as [kept Hkept]; [intros ??; apply Hpre; by right|].
      destruct (is_page_file p (filename h) && has_status_tag tags (filename h)).
      * rewrite (Hpre h) by by left. by exists kept.
      * exists (h :: kept). by rewrite Hkept.
Qed.

Lemma remove_old_page_files_effect_witness :
  ∃ left_over,
    _remove_old_page_files (fun _ => true)
      (Some [saved_page 1 "in_progress" [beta_item] "101500";
             saved_page 2 "completed" [acme_item] "111500"])
      1 ["in_progress"; "partial"] = Some left_over ∧
    ∀ g, g ∈ left_over →
         is_page_file 1 (filename g)
         && has_status_tag ["in_progress"; "partial"] (filename g) = false.
Proof.
  destruct (remove_old_page_files_effect (fun _ => true)
              [saved_page 1 "in_progress" [beta_item] "101500";
               saved_page 2 "completed" [acme_item] "111500"]
              1 ["in_progress"; "partial"]) as (left_over & Heq & _ & _ & _ & Hall & _).
  exists left_over. split; [exact Heq|]. apply Hall. reflexivity.
Defined.

Ltac lookups :=
  repeat (rewrite lookup_insert_ne by discriminate);
  rewrite ?lookup_insert_eq, ?lookup_empty.

Lemma bind_ok {A B} (a : A) (f : A → pyresult B) : Ok a ≫= f = f a.
Proof. reflexivity. Qed.

Lemma merged_metadata_status extra p st vcs ts date sid ut ct :
  merged_metadata extra (enhanced_metadata p st vcs ts date sid ut ct) !! "status"
  = Some (default (JStr st) (extra ≫= (fun e => e !! "status"))).
Proof.
  assert (Hbase : enhanced_metadata p st vcs ts date sid ut ct !! "status"
                  = Some (JStr st)).
  { unfold enhanced_metadata. by lookups. }
  destruct extra as [e|]; simpl; [|exact Hbase].
  rewrite lookup_union, Hbase. by destruct (e !! "status").
Qed.

Lemma read_enhanced_saved name md vcs st :
  md !! "status" = Some st →
  read_enhanced name (JDict (<["metadata" := JDict md]> (<["vcs" := JList vcs]> ∅)))
  = Ok (JList vcs, st, JDict md).
Proof.
  intros Hst. unfold read_enhanced.
  rewrite bool_decide_eq_true_2 by (lookups; eauto).
  rewrite bool_decide_eq_true_2 by (lookups; eauto).
  unfold py_getitem. lookups. simpl. by rewrite Hst.
Qed.

Lemma read_existing_saved name md vcs st :
  md !! "status" = Some st →
  read_existing name (JDict (<["metadata" := JDict md]> (<["vcs" := JList vcs]> ∅)))
  = Ok (Some (JList vcs, st)).
Proof.
  intros Hst. unfold read_existing. lookups.
  unfold dict_get. lookups. simpl. unfold dict_get. by rewrite Hst.
Qed.

Lemma save_success env sid ut ct dir p vcs st extra :
  write_ok env = true →
  (dir = None → mkdir_ok env = true) →
  save_page_with_enhanced_metadata env sid ut ct dir p vcs st extra
  = (Some (write_file (position env)
             {| filename := enhanced_filename p st vcs (timestamp env);
                content :=
                  Ok (JDict (<["metadata" :=
                                JDict (merged_metadata extra
                                         (enhanced_metadata p st vcs (timestamp env)
                                            (scrape_date env) sid ut ct))]>
                            (<["vcs" := JList vcs]> ∅))) |}
             (if String.eqb st "completed"
              then remove_old_loop (can_remove env) p ["in_progress"; "partial"]
                     (default [] dir)
              else default [] dir)),
     Some (enhanced_filename p st vcs (timestamp env))).
Proof.
  intros Hw Hmk. unfold save_page_with_enhanced_metadata.
  destruct dir as [files|]; [|rewrite Hmk by done]; by rewrite Hw.
Qed.

(** After a successful save that removes every older snapshot of the
    page, the file written is the first file of the page in the listing. *)
Lemma saved_file_first env sid ut ct dir p vcs st extra :
  write_ok env = true →
  (dir = None → mkdir_ok env = true) →
  (∀ files g, dir = Some files → g ∈ files →
     is_page_file p (filename g) = true →
     st = "completed" ∧
     has_status_tag ["in_progress"; "partial"] (filename g) = true ∧
     can_remove env (filename g) = true) →
  ∃ pre post,
    (save_page_with_enhanced_metadata env sid ut ct dir p vcs st extra).1
    = Some (pre ++
            {| filename := enhanced_filename p st vcs (timestamp env);
               content :=
                 Ok (JDict (<["metadata" :=
                               JDict (merged_metadata extra
                                        (enhanced_metadata p st vcs (timestamp env)
                                           (scrape_date env) sid ut ct))]>
                           (<["vcs" := JList vcs]> ∅))) |} :: post) ∧
    ∀ g, g ∈ pre → is_page_file p (filename g) = false.
Proof.
  intros Hw Hmk Hold. rewrite save_success by done. cbn [fst].
  match goal with
  | |- context [write_file _ ?f ?l] => set (new := f); set (files1 := l)
  end.
  assert (Hnone : ∀ g, g ∈ files1 → is_page_file p (filename g) = false).
  { intros g Hg. destruct (is_page_file p (filename g)) eqn:Hpg; [|done].
    exfalso. subst files1.
    destruct dir as [files|]; simpl in Hg.
    - destruct (String.eqb st "completed") eqn:Hst.
      + rewrite remove_old_loop_removable in Hg.
        * apply list_elem_of_filter in Hg as [Hkeep Hg].
          destruct (Hold files g eq_refl Hg Hpg) as (_ & Htag & _).
          by rewrite Hpg, Htag in Hkeep.
        * intros h Hh [Hph _]%andb_prop. by apply (Hold files h eq_refl Hh Hph).
      + destruct (Hold files g eq_refl Hg Hpg) as (-> & _). discriminate.
    - destruct (String.eqb st "completed"); by apply elem_of_nil in Hg. }
  unfold write_file. eexists _, _. split; [reflexivity|].
  intros g Hg. apply Hnone.
  apply subseteq_take in Hg. by apply list_elem_of_filter in Hg as [_ Hg].
Qed.

Lemma load_first_saved p pre post name md vcs st :
  (∀ g, g ∈ pre → is_page_file p (filename g) = false) →
  is_page_file p name = true →
  md !! "status" = Some st →
  let files :=
    pre ++ {| filename := name;
              content := Ok (JDict (<["metadata" := JDict md]>
                                   (<["vcs" := JList vcs]> ∅))) |} :: post in
  load_page_with_enhanced_metadata (Some files) p = (JList vcs, st, JDict md) ∧
  load_existing_page_data (Some files) p = (JList vcs, st).
Proof.
  intros Hpre Hname Hst files. subst files.
  unfold load_page_with_enhanced_metadata, load_existing_page_data.
  rewrite load_page_loop_skip, load_existing_loop_skip by exact Hpre.
  rewrite load_page_loop_cons, load_existing_loop_cons.
  cbn [filename content]. rewrite Hname. cbv beta. rewrite !bind_ok.
  by rewrite (read_enhanced_saved _ _ _ _ Hst), (read_existing_saved _ _ _ _ Hst).
Qed.

(** X16: a save that succeeds returns the name it wrote; when every
    snapshot the page had is one that the save removes (the status saved
    is [completed] and each of them carries an [in_progress] or [partial]
    tag and can be removed), both loaders then return the saved items, and
    as status the saved one unless the additional metadata brings its
    own. *)
Theorem save_then_load env sid ut ct dir p vcs st extra :
  write_ok env = true →
  (dir = None → mkdir_ok env = true) →
  (∀ files g, dir = Some files → g ∈ files →
     is_page_file p (filename g) = true →
     st = "completed" ∧
     has_status_tag ["in_progress"; "partial"] (filename g) = true ∧
     can_remove env (filename g) = true) →
  let saved := save_page_with_enhanced_metadata env sid ut ct dir p vcs st extra in
  let metadata :=
    merged_metadata extra
      (enhanced_metadata p st vcs (timestamp env) (scrape_date env) sid ut ct) in
  let status := default (JStr st) (extra ≫= (fun e => e !! "status")) in
  saved.2 = Some (enhanced_filename p st vcs (timestamp env)) ∧
  load_page_with_enhanced_metadata saved.1 p = (JList vcs, status, JDict metadata) ∧
  load_existing_page_data saved.1 p = (JList vcs, status).
Proof.
  intros Hw Hmk Hold saved metadata status. split.
  - subst saved. by rewrite save_success.
  - destruct (saved_file_first env sid ut ct dir p vcs st extra Hw Hmk Hold)
      as (pre & post & Hsaved & Hpre).
    subst saved. rewrite Hsaved.
    apply load_first_saved; [exact Hpre|apply is_page_file_enhanced|].
    apply merged_metadata_status.
Qed.

Lemma save_then_load_witness :
  let env := {| mkdir_ok := true; can_remove := fun _ => true; write_ok := true;
                position := 1; timestamp := "121500";
                scrape_date := "2025-01-01 12:15:00" |} in
  let dir := Some [saved_page 1 "in_progress" [beta_item] "101500";
                   saved_page 2 "completed" [acme_item] "111500"] in
  load_existing_page_data
    (save_page_with_enhanced_metadata env "s1" "guest" "direct" dir 1
       [beta_item; acme_item] "completed" None).1 1
  = (JList [beta_item; acme_item], JStr "completed").
Proof.
  intros env dir.
  apply (save_then_load env "s1" "guest" "direct" dir 1 [beta_item; acme_item]
           "completed" None).
  - reflexivity.
  - discriminate.
  - intros files g [= <-] Hg Hpage.
    apply elem_of_cons in Hg as [->|Hg]; [by split_and!|].
    apply list_elem_of_singleton in Hg as ->. discriminate.
Defined.

(** X17: whatever the environment does and whatever is saved for a page,
    [save_page_with_enhanced_metadata] never changes what either loader
    returns for another page. *)
Theorem save_keeps_other_pages env sid ut ct dir p vcs st extra q :
  q ≠ p →
  let saved := save_page_with_enhanced_metadata env sid ut ct dir p vcs st extra in
  load_page_with_enhanced_metadata saved.1 q = load_page_with_enhanced_metadata dir q ∧
  load_existing_page_data saved.1 q = load_existing_page_data dir q.
Proof.
  intros Hq saved.
  assert (Hnew : is_page_file q (enhanced_filename p st vcs (timestamp env)) = false).
  { destruct (is_page_file q _) eqn:Hq'; [|done]. destruct Hq.
    eapply is_page_file_unique; [exact Hq'|apply is_page_file_enhanced]. }
  assert (Hloops : ∀ files1 files : list result_file,
            files1 = files
            ∨ files1 = remove_old_loop (can_remove env) p ["in_progress"; "partial"] files →
            ∀ new, is_page_file q (filename new) = false →
            (load_page_loop q (write_file (position env) new files1)
             = load_page_loop q files ∧
             load_page_loop q files1 = load_page_loop q files) ∧
            (load_existing_loop q (write_file (position env) new files1)
             = load_existing_loop q files ∧
             load_existing_loop q files1 = load_existing_loop q files)).
  { intros files1 files Hfiles new Hn.
    rewrite (loop_write_file q (load_page_loop q) _ (load_page_loop_cons q)) by done.
    rewrite (loop_write_file q (load_existing_loop q) _ (load_existing_loop_cons q))
      by done.
    destruct Hfiles as [->| ->]; [done|].
    rewrite (loop_remove_old q (load_page_loop q) _ (load_page_loop_cons q)) by done.
    by rewrite (loop_remove_old q (load_existing_loop q) _
                  (load_existing_loop_cons q)) by done. }
  subst saved. unfold save_page_with_enhanced_metadata.
  set (new := {| filename := enhanced_filename p st vcs (timestamp env);
                 content := _ |}).
  destruct dir as [files|]; [|destruct (mkdir_ok env); [|done]].
  - destruct (Hloops (if String.eqb st "completed"
                      then remove_old_loop (can_remove env) p
                             ["in_progress"; "partial"] files
                      else files) files
                (ltac:(destruct (String.eqb st "completed"); auto)) new Hnew)
      as ((H1 & H2) & (H3 & H4)).
    destruct (write_ok env); cbn [fst];
      unfold load_page_with_enhanced_metadata, load_existing_page_data.
    + by rewrite H1, H3.
    + by rewrite H2, H4.
  - destruct (Hloops (if String.eqb st "completed"
                      then remove_old_loop (can_remove env) p
                             ["in_progress"; "partial"] []
                      else []) []
                (ltac:(destruct (String.eqb st "completed"); auto)) new Hnew)
      as ((H1 & H2) & (H3 & H4)).
    destruct (write_ok env); cbn [fst];
      unfold load_page_with_enhanced_metadata, load_existing_page_data.
    + by rewrite H1, H3.
    + by rewrite H2, H4.
Qed.

Lemma save_keeps_other_pages_witness :
  let env := {| mkdir_ok := true; can_remove := fun _ => false; write_ok := true;
                position := 0; timestamp := "121500";
                scrape_date := "2025-01-01 12:15:00" |} in
  let dir := Some [saved_page 1 "in_progress" [beta_item] "101500";
                   saved_page 2 "completed" [acme_item] "111500"] in
  load_existing_page_data
    (save_page_with_enhanced_metadata env "s1" "guest" "direct" dir 1
       [beta_item; acme_item] "completed" None).1 2
  = load_existing_page_data dir 2.
Proof.
  intros env dir.
  apply (save_keeps_other_pages env "s1" "guest" "direct" dir 1
           [beta_item; acme_item] "completed" None 2).
  discriminate.
Defined.

End SaveProps.

(** ** Page numbers in file names *)

Module NameProps.
Import SNCVCScraper StateManager StringProps.

Lemma substring_all t : String.substring 0 (String.length t) t = t.
Proof. induction t as [|c t IH]; [done|]. simpl. by rewrite IH. Qed.

Lemma is_digit_pretty_N_char n : is_digit (pretty_N_char n) = true.
Proof. unfold pretty_N_char. by repeat case_match. Qed.

Lemma pretty_N_char_value n :
  (n < 10)%N → Z.of_nat (Ascii.nat_of_ascii (pretty_N_char n)) - 48 = Z.of_N n.
Proof.
  intros Hn.
  assert (n = 0 ∨ n = 1 ∨ n = 2 ∨ n = 3 ∨ n = 4 ∨ n = 5 ∨ n = 6 ∨ n = 7
          ∨ n = 8 ∨ n = 9)%N as Hcases by lia.
  repeat (destruct Hcases as [->|Hcases]; [reflexivity|]). by subst.
Qed.

Lemma span_digits_cons c t :
  is_digit c = true →
  span_digits (String c t) = (String c (span_digits t).1, (span_digits t).2).
Proof. intros Hc. simpl. rewrite Hc. by destruct (span_digits t). Qed.

(** What [pretty_N_go] puts before its accumulator is a run of digits
    whose value is the number. *)
Lemma pretty_N_go_digits x s :
  ∃ d k, pretty_N_go x s = d +:+ s ∧
         ((0 < x)%N → d ≠ "") ∧
         (∀ t, span_digits (d +:+ t) = (d +:+ (span_digits t).1, (span_digits t).2)) ∧
         (∀ a t, int_of_digits a (d +:+ t) = int_of_digits (a * k + Z.of_N x) t).
Proof.
  revert s. induction (N.lt_wf_0 x) as [x _ IH]; intros s.
  assert (x = 0 ∨ 0 < x)%N as [->|Hpos] by lia.
  - exists "", 1. rewrite pretty_N_go_0. split_and!.
    + done.
    + intros H0. lia.
    + intros t. change ("" +:+ t) with t. by destruct (span_digits t).
    + intros a t. change ("" +:+ t) with t. f_equal. lia.
  - rewrite pretty_N_go_step by done.
    destruct (IH (x `div` 10)%N (N.div_lt x 10 Hpos eq_refl)
                (String (pretty_N_char (x `mod` 10)) s))
      as (d & k & Hd & _ & Hspan & Hint).
    exists (d +:+ String (pretty_N_char (x `mod` 10)) ""), (k * 10).
    split_and!.
    + by rewrite Hd, <- app_assoc.
    + intros _. by destruct d.
    + intros t. rewrite <- !app_assoc, !app_cons, !app_nil_l.
      by rewrite Hspan, span_digits_cons by apply is_digit_pretty_N_char.
    + intros a t. rewrite <- app_assoc, app_cons, app_nil_l.
      rewrite Hint. cbn [int_of_digits].
      rewrite pretty_N_char_value by (by apply N.mod_lt).
      f_equal. pose proof (N.div_mod x 10 ltac:(done)). lia.
Qed.

Lemma pretty_Z_digits (p : Z) :
  0 ≤ p →
  pretty p ≠ "" ∧
  (∀ t, span_digits (pretty p +:+ t)
        = (pretty p +:+ (span_digits t).1, (span_digits t).2)) ∧
  (∀ t, int_of_digits 0 (pretty p +:+ t) = int_of_digits p t).
Proof.
  intros Hp. destruct p as [|x|x]; [|clear Hp|lia].
  - split_and!; [done| |done].
    intros t. by apply span_digits_cons.
  - destruct (pretty_N_go_digits (Npos x) "") as (d & k & Hd & Hne & Hspan & Hint).
    rewrite app_nil_r in Hd.
    assert (pretty (Zpos x) = d) as ->.
    { rewrite <- Hd. unfold pretty, pretty_Z, pretty, pretty_positive, pretty, pretty_N.
      by rewrite decide_False by done. }
    split_and!; [by apply Hne|done|].
    intros t. rewrite Hint. f_equal.
Qed.

Lemma match_page_at_page r :
  match_page_at ("page_" +:+ r)
  = let '(ds, rest) := span_digits r in
    if negb (String.eqb ds "") && String.prefix "_" rest
    then Some (int_of_digits 0 ds) else None.
Proof.
  unfold match_page_at.
  change ("page_" +:+ r)
    with (String "p" (String "a" (String "g" (String "e" (String "_" r))))).
  rewrite !prefix_cons, prefix_nil.
  replace (String.substring 5 _ _) with r; [done|].
  cbn [String.length Nat.sub String.substring].
  by rewrite Nat.sub_0_r, substring_all.
Qed.

Lemma search_page_number_unfold s :
  search_page_number s
  = match match_page_at s with
    | Some n => Some n
    | None =>
        match s with
        | EmptyString => None
        | String _ s' => search_page_number s'
        end
    end.
Proof. by destruct s. Qed.

Lemma search_page_number_page_file p name :
  0 ≤ p → is_page_file p name = true → search_page_number name = Some p.
Proof.
  intros Hp Hname. unfold is_page_file, startswith, page_prefix in Hname.
  apply andb_prop in Hname as [Hname _].
  apply prefix_split in Hname as [y ->].
  rewrite <- !app_assoc.
  destruct (pretty_Z_digits p Hp) as (Hne & Hspan & Hint).
  rewrite search_page_number_unfold, match_page_at_page, Hspan.
  change (span_digits ("_" +:+ y)) with ("", "_" +:+ y). cbn [fst snd].
  rewrite app_nil_r.
  rewrite (proj2 (String.eqb_neq _ _) Hne), (prefix_app_r "_"). simpl.
  f_equal. rewrite <- (app_nil_r (pretty p)). by rewrite Hint.
Qed.

(** X18: the two conventions for file names agree.  A name that
    [startswith(f'page_{p}_')] for some page [p] does so for no other page,
    and for [p] not negative the regular expression [page_(\d+)_] of the
    resume detector reads the number [p] from it. *)
Theorem page_file_number p name :
  is_page_file p name = true →
  (∀ q, is_page_file q name = true → q = p) ∧
  (0 ≤ p → search_page_number name = Some p).
Proof.
  intros Hname. split.
  - intros q Hq. by eapply is_page_file_unique.
  - intros Hp. by apply search_page_number_page_file.
Qed.

Lemma page_file_number_witness :
  search_page_number (enhanced_filename 12 "in_progress" [] "101500") = Some 12.
Proof.
  apply (page_file_number 12 (enhanced_filename 12 "in_progress" [] "101500"));
    [reflexivity|lia].
Defined.

End NameProps.

(** ** The resume detector *)

Module DetectorProps.
Import SNCVCScraper StateManager Samples StringProps NameProps SaveProps.

Lemma fold_max_spec zs z :
  (fold_left Z.max zs z = z ∨ fold_left Z.max zs z ∈ zs) ∧
  z ≤ fold_left Z.max zs z ∧
  (∀ x, x ∈ zs → x ≤ fold_left Z.max zs z).
Proof.
  revert z. induction zs as [|y zs IH]; intros z; simpl.
  - split_and!; [by left|lia|]. intros x Hx. by apply elem_of_nil in Hx.
  - destruct (IH (Z.max z y)) as (Hin & Hle & Hall). split_and!.
    + destruct Hin as [Heq|Hin]; [|right; by right].
      rewrite Heq. destruct (Z.max_spec z y) as [[_ ->]|[_ ->]];
        [right; by left|by left].
    + lia.
    + intros x [->|Hx]%elem_of_cons; [lia|by apply Hall].
Qed.

Lemma max_list_Some l m :
  max_list l = Some m ↔ m ∈ l ∧ ∀ x, x ∈ l → x ≤ m.
Proof.
  destruct l as [|z zs]; simpl.
  - split; [discriminate|]. intros [H _]. by apply elem_of_nil in H.
  - destruct (fold_max_spec zs z) as (Hin & Hle & Hall). split.
    + intros [= <-]. split.
      * destruct Hin as [->|Hin]; [by left|by right].
      * intros x [->|Hx]%elem_of_cons; [done|by apply Hall].
    + intros [Hm Hub]. f_equal. apply Z.le_antisymm.
      * apply Hub. destruct Hin as [->|Hin]; [by left|by right].
      * apply elem_of_cons in Hm as [->|Hm]; [done|by apply Hall].
Qed.

Lemma max_list_None l : max_list l = None ↔ l = [].
Proof. by destruct l. Qed.

Lemma elem_of_tagged_pages tag files x :
  x ∈ tagged_pages tag files
  ↔ ∃ f, f ∈ files ∧
         contains (filename f) tag && endswith (filename f) ".json" = true ∧
         search_page_number (filename f) = Some x.
Proof.
  unfold tagged_pages. rewrite list_elem_of_omap. split.
  - intros (f & Hf & Hx). exists f. split; [done|].
    by destruct (contains _ _ && endswith _ _).
  - intros (f & Hf & Htag & Hx). exists f. split; [done|]. by rewrite Htag.
Qed.

Lemma elem_of_write_file pos f files g :
  g ∈ write_file pos f files ↔ g = f ∨ (g ∈ files ∧ filename g ≠ filename f).
Proof.
  unfold write_file. set (others := filter _ files).
  assert (Ho : g ∈ others ↔ g ∈ take pos others ∨ g ∈ drop pos others)
    by by rewrite <- elem_of_app, take_drop.
  assert (Hf : g ∈ others ↔ filename g ≠ filename f ∧ g ∈ files)
    by (unfold others; by rewrite list_elem_of_filter).
  rewrite elem_of_app, elem_of_cons. tauto.
Qed.

Lemma remove_old_loop_keeps can_remove p tags files g :
  g ∈ files → is_page_file p (filename g) = false →
  g ∈ remove_old_loop can_remove p tags files.
Proof.
  intros Hg Hpg. induction files as [|h rest IH]; [done|]. simpl.
  apply elem_of_cons in Hg as [<-|Hg].
  - rewrite Hpg. simpl. by left.
  - destruct (_ && _); [destruct (can_remove _)|]; auto; by right; auto.
Qed.

Lemma find_next_available_page_alt dir :
  _find_next_available_page dir
  = match max_list (tagged_pages "completed" (default [] dir)) with
    | Some m => m + 1
    | None => 1
    end.
Proof. by destruct dir. Qed.

(** X19: the saver and the detector fit together.  After a successful
    save of a page [p], not negative, with the status [completed],
    [_find_next_available_page] is the page after [p], or what it was
    before the save when that is larger: whatever files the save removed
    and wherever the new file is listed. *)
Theorem save_completed_next_available env sid ut ct dir p vcs extra :
  write_ok env = true →
  (dir = None → mkdir_ok env = true) →
  0 ≤ p →
  _find_next_available_page
    (save_page_with_enhanced_metadata env sid ut ct dir p vcs "completed" extra).1
  = Z.max (p + 1) (_find_next_available_page dir).
Proof.
  intros Hw Hmk Hp. rewrite save_success by done. cbn [fst].
  rewrite !find_next_available_page_alt.
  change (String.eqb "completed" "completed") with true. cbv iota.
  set (files0 := default [] dir).
  cbn [from_option]. unfold id.
  match goal with
  | |- context [write_file ?pos ?f ?l] =>
      set (new := f); set (files1 := l); set (files' := write_file pos new files1)
  end.
  assert (Hnew_page : is_page_file p (filename new) = true)
    by apply is_page_file_enhanced.
  assert (Hnew : p ∈ tagged_pages "completed" files').
  { apply elem_of_tagged_pages. exists new. split_and!.
    - apply elem_of_write_file. by left.
    - apply andb_true_intro. split.
      + subst new. cbn [filename]. unfold enhanced_filename.
        do 3 apply contains_app_r. apply contains_prefix, prefix_app_r.
      + unfold is_page_file in Hnew_page. by apply andb_prop in Hnew_page as [_ ?].
    - by apply search_page_number_page_file. }
  assert (Hfrom : ∀ x, x ∈ tagged_pages "completed" files' →
                       x = p ∨ x ∈ tagged_pages "completed" files0).
  { intros x (f & Hf & Htag & Hx)%elem_of_tagged_pages.
    apply elem_of_write_file in Hf as [->|[Hf _]].
    - left. rewrite (search_page_number_page_file p) in Hx by done. congruence.
    - right. apply elem_of_tagged_pages. exists f. split; [|done].
      eapply elem_of_sublist; [exact Hf|].
      apply remove_old_loop_sublist. }
  assert (Hto : ∀ x, x ∈ tagged_pages "completed" files0 →
                     x = p ∨ x ∈ tagged_pages "completed" files').
  { intros x (f & Hf & Htag & Hx)%elem_of_tagged_pages.
    destruct (is_page_file p (filename f)) eqn:Hpf.
    - left. rewrite (search_page_number_page_file p) in Hx by done. congruence.
    - right. apply elem_of_tagged_pages. exists f. split; [|done].
      apply elem_of_write_file. right. split.
      + by apply remove_old_loop_keeps.
      + intros Heq. rewrite Heq in Hpf. pose proof Hnew_page as Hn.
        unfold new in Hn, Hpf. cbn [filename] in Hn, Hpf. congruence. }
  destruct (max_list (tagged_pages "completed" files0)) as [m|] eqn:Hold.
  - apply max_list_Some in Hold as [Hm Hub].
    assert (max_list (tagged_pages "completed" files') = Some (Z.max p m)) as ->.
    { apply max_list_Some. split.
      - destruct (Z.max_spec p m) as [[Hlt ->]|[_ ->]]; [|done].
        destruct (Hto m Hm) as [->|?]; [lia|done].
      - intros x Hx. destruct (Hfrom x Hx) as [->|Hx']; [lia|].
        specialize (Hub x Hx'). lia. }
    cbv beta iota. lia.
  - apply max_list_None in Hold.
    assert (max_list (tagged_pages "completed" files') = Some p) as ->.
    { apply max_list_Some. split; [done|].
      intros x Hx. destruct (Hfrom x Hx) as [->|Hx']; [lia|].
      rewrite Hold in Hx'. by apply elem_of_nil in Hx'. }
    cbv beta iota. lia.
Qed.

Lemma save_completed_next_available_witness :
  let env := {| mkdir_ok := true; can_remove := fun _ => true; write_ok := true;
                position := 0; timestamp := "121500";
                scrape_date := "2025-01-01 12:15:00" |} in
  let dir := Some [saved_page 1 "in_progress" [beta_item] "101500";
                   saved_page 2 "completed" [acme_item] "111500"] in
  _find_next_available_page
    (save_page_with_enhanced_metadata env "s1" "guest" "direct" dir 1
       [beta_item] "completed" None).1
  = Z.max (1 + 1) (_find_next_available_page dir).
Proof.
  intros env dir.
  apply (save_completed_next_available env "s1" "guest" "direct" dir 1
           [beta_item] None); [reflexivity|discriminate|lia].
Defined.

Lemma int_of_digits_nonneg s : ∀ ds r acc,
  span_digits s = (ds, r) → 0 ≤ acc → 0 ≤ int_of_digits acc ds.
Proof.
  induction s as [|c s IH]; intros ds r acc Hspan Hacc.
  - injection Hspan as <- <-. exact Hacc.
  - simpl in Hspan. destruct (is_digit c) eqn:Hc.
    + destruct (span_digits s) as [ds' r'] eqn:Hs. injection Hspan as <- <-.
      simpl. apply (IH ds' r'); [done|].
      unfold is_digit in Hc. apply andb_prop in Hc as [Hlo _].
      apply Nat.leb_le in Hlo. lia.
    + injection Hspan as <- <-. exact Hacc.
Qed.

Lemma search_page_number_nonneg s x : search_page_number s = Some x → 0 ≤ x.
Proof.
  induction s as [|c s IH]; rewrite search_page_number_unfold;
    (destruct (match_page_at _) as [n|] eqn:Hm; [|by auto]);
    intros [= <-]; unfold match_page_at in Hm;
    (destruct (String.prefix "page_" _); [|done]);
    (destruct (span_digits _) as [ds r] eqn:Hs);
    (destruct (_ && _); [|done]); injection Hm as <-;
    by eapply int_of_digits_nonneg.
Qed.

Lemma max_list_tagged_nonneg tag files m :
  max_list (tagged_pages tag files) = Some m → 0 ≤ m.
Proof.
  intros [(f & _ & _ & Hm)%elem_of_tagged_pages _]%max_list_Some.
  by eapply search_page_number_nonneg.
Qed.

(** X23: with its flag set the detector of [enhanced_resume_detector.py]
    always names a page, never [None] and never an exception, so
    [load_previous_state_experimental] built on it never falls back to
    [load_previous_state].  The page is not negative; it is at least 1 and
    one past the highest completed page when no file is in progress, and
    otherwise the highest in-progress page or the page before it. *)
Theorem detector_enabled_resumes s :
  ∃ n, detect_resume_point_experimental true s = Ok (JNum n) ∧
       load_previous_state_experimental
         (Some (detect_resume_point_experimental true)) s (Some true)
       = (set_target_page s (JNum n), JNum n) ∧
       0 ≤ n ∧
       match _find_last_in_progress_page (results s) with
       | None => n = _find_next_available_page (results s) ∧ 1 ≤ n
       | Some last => last - 1 ≤ n ≤ Z.max 1 last
       end.
Proof.
  unfold load_previous_state_experimental, detect_resume_point_experimental.
  cbn [negb default from_option id].
  destruct (_find_last_in_progress_page (results s)) as [last|] eqn:Hlast.
  - eexists. split; [reflexivity|]. split; [reflexivity|].
    assert (0 ≤ last) as Hpos.
    { destruct (results s) as [files|]; [|done].
      by eapply max_list_tagged_nonneg. }
    unfold _determine_optimal_resume_point.
    destruct (_page_needs_work _ _); lia.
  - eexists. split; [reflexivity|]. split; [reflexivity|].
    assert (1 ≤ _find_next_available_page (results s)) as Hnext.
    { rewrite find_next_available_page_alt.
      destruct (max_list _) as [m|] eqn:Hm; [|lia].
      apply max_list_tagged_nonneg in Hm. lia. }
    lia.
Qed.

End DetectorProps.

(** ** The baseline resume over arbitrary files *)

Module BaselineProps.
Import SNCVCScraper StateManager Spec Samples StringProps ResumeProps.

Lemma passed_over_scan f st : passed_over f → scan_file st f = Ok st.
Proof.
  unfold scan_file.
  intros [Hname|[Hc|[(d & Hc & Hmd)|[(l & Hc & Hl)|(d & md & Hc & Hmd & Hip & Hcp)]]]].
  - by rewrite Hname.
  - rewrite Hc. by destruct (_ && _).
  - rewrite Hc. simpl. rewrite Hmd.
    rewrite bool_decide_eq_false_2 by (by intros [? ?]). by destruct (_ && _).
  - rewrite Hc. simpl. rewrite Hl. by destruct (_ && _).
  - rewrite Hc. simpl. rewrite Hmd.
    rewrite bool_decide_eq_true_2 by eauto. simpl.
    rewrite Hip, Hcp. by destruct (_ && _).
Qed.

Lemma breaks_scan_raises f st : breaks_scan f → ∃ e, scan_file st f = Raise e.
Proof.
  unfold scan_file.
  intros [-> [(e & Hc & He)|[Hc|[(z & Hc)|[(b & Hc)|(d & m & Hc & Hmd & Hm)]]]]];
    rewrite Hc; simpl.
  - exists e. by destruct e.
  - by exists TypeError.
  - by exists TypeError.
  - by exists TypeError.
  - rewrite Hmd. rewrite bool_decide_eq_true_2 by eauto. simpl.
    exists AttributeError. by destruct m.
Qed.

Lemma scan_files_app st pre post :
  scan_files st (pre ++ post) = st' ← scan_files st pre; scan_files st' post.
Proof.
  revert st. induction pre as [|g pre IH]; intros st; [done|]. simpl.
  destruct (scan_file st g) as [st'|e]; simpl; [apply IH|done].
Qed.

Lemma scan_files_raises files f st :
  f ∈ files → breaks_scan f → ∃ e, scan_files st files = Raise e.
Proof.
  intros Hf Hbreak. revert st.
  induction files as [|g rest IH]; intros st; [by apply elem_of_nil in Hf|].
  simpl. apply elem_of_cons in Hf as [<-|Hf].
  - destruct (breaks_scan_raises f st Hbreak) as [e ->]. by exists e.
  - destruct (scan_file st g) as [st'|e]; simpl; [by apply IH|by exists e].
Qed.

(** X20: the baseline resume passes over every file that is not named
    [page_*.json], is not JSON, is a dictionary without [metadata], is a
    list without the string [metadata] (a legacy snapshot), or carries a
    status other than [in_progress] and [completed]: wherever such a file
    is listed, [load_previous_state] returns what it returns without
    it. *)
Theorem load_previous_state_passes_over pre f post t :
  passed_over f →
  (load_previous_state {| results := Some (pre ++ f :: post); target_page := t |}).2
  = (load_previous_state {| results := Some (pre ++ post); target_page := t |}).2.
Proof.
  intros Hf. unfold load_previous_state. cbn [results snd].
  rewrite !scan_files_app.
  destruct (scan_files (JNull, []) pre) as [st|e]; [|done].
  simpl. by rewrite (passed_over_scan f st Hf).
Qed.

Lemma load_previous_state_passes_over_witness :
  (load_previous_state
     (scraper_with [saved_page 1 "completed" [acme_item] "101500"; legacy_page_2])).2
  = (load_previous_state
       (scraper_with [saved_page 1 "completed" [acme_item] "101500"])).2.
Proof.
  apply (load_previous_state_passes_over
           [saved_page 1 "completed" [acme_item] "101500"] legacy_page_2 [] JNull).
  right. right. right. left. exists [acme_item]. split; reflexivity.
Defined.

(** X21: one file named [page_*.json] that cannot be read, that holds
    [null], a number or a boolean, or whose [metadata] is not a
    dictionary, makes [load_previous_state] return 1 and set the target
    page to 1, whatever the other files record. *)
Theorem load_previous_state_breaks files f t :
  f ∈ files → breaks_scan f →
  load_previous_state {| results := Some files; target_page := t |}
  = ({| results := Some files; target_page := JNum 1 |}, JNum 1).
Proof.
  intros Hf Hbreak. unfold load_previous_state. cbn [results].
  by destruct (scan_files_raises files f (JNull, []) Hf Hbreak) as [e ->].
Qed.

Lemma load_previous_state_breaks_witness :
  let broken := {| filename := "page_9_notes.json"; content := Ok JNull |} in
  (load_previous_state (scraper_with (two_in_progress ++ [broken]))).2 = JNum 1.
Proof.
  intros broken. unfold scraper_with.
  rewrite (load_previous_state_breaks (two_in_progress ++ [broken]) broken JNull).
  - reflexivity.
  - apply elem_of_app. right. by left.
  - split; [reflexivity|]. right. by left.
Defined.

Lemma written_for_snapshot f u : written_for f u → snapshot_of f u.
Proof.
  intros (vcs & ts & date & sid & ut & ct & Hname & Hc).
  unfold snapshot_of. rewrite Hname, Hc. split_and!.
  - unfold startswith, enhanced_filename. apply prefix_app_r.
  - pose proof (is_page_file_enhanced u.1 u.2 vcs ts) as H.
    unfold is_page_file in H. by apply andb_prop in H as [_ ?].
  - eexists _, _. split_and!; [reflexivity|..].
    + apply lookup_insert_eq.
    + apply lookup_insert_eq.
    + rewrite lookup_insert_ne by done. apply lookup_insert_eq.
Qed.

(** X22: the baseline resume reads what the saver writes.  On a directory
    holding files written by [save_page_with_enhanced_metadata] without
    additional metadata, in any number and order, [load_previous_state]
    returns the page of the in-progress file listed last, else one past
    the highest completed page, else 1, and stores it as target page. *)
Theorem load_previous_state_on_written files units t :
  Forall2 written_for files units →
  load_previous_state {| results := Some files; target_page := t |}
  = ({| results := Some files; target_page := JNum (listed_plan units) |},
     JNum (listed_plan units)).
Proof.
  intros Hall.
  assert (Hsnap : Forall2 snapshot_of files units).
  { eapply Forall2_impl; [exact Hall|]. apply written_for_snapshot. }
  pose proof (load_previous_state_listed files units t Hsnap) as Hret.
  destruct (load_previous_state_target {| results := Some files; target_page := t |})
    as [Htarget Hresults].
  destruct (load_previous_state _) as [[files' t'] ret].
  simpl in *. by subst.
Qed.

Lemma load_previous_state_on_written_witness :
  (load_previous_state
     (scraper_with [saved_page 4 "completed" [acme_item] "101500";
                    saved_page 2 "completed" [beta_item] "111500"])).2
  = JNum (listed_plan [(4, "completed"); (2, "completed")]).
Proof.
  unfold scraper_with.
  rewrite (load_previous_state_on_written _ [(4, "completed"); (2, "completed")]);
    [reflexivity|].
  repeat constructor; repeat eexists.
Defined.

End BaselineProps.

(** ** The two passes over the candidates *)

Module TwoPassProps.
Import VCCacheManager SearchPageHelper Spec Samples CacheReadProps CacheReadMore.

Lemma filter_links_by_cache_sublist f links :
  _filter_links_by_cache f links `sublist_of` links.
Proof.
  unfold _filter_links_by_cache.
  destruct (cache_filter_loop _ links) as [kept|e] eqn:Hrun; [|done].
  by eapply cache_filter_loop_sublist.
Qed.

(** X24: [filter_unscraped_vcs_by_cache] raises exactly when the snapshot
    pass [filter_unscraped_vcs] raises on the snapshot loaded for the
    current page; otherwise it returns candidates of the snapshot pass in
    their order, which are candidates of the pool in their order, and it
    returns the result of the snapshot pass itself when the flag is
    omitted or false and when the cache file cannot be read. *)
Theorem filter_by_cache_narrows dir current_page f links flag :
  match filter_unscraped_vcs links (load_existing_page_data dir current_page).1 with
  | Raise e =>
      filter_unscraped_vcs_by_cache dir current_page f links flag = Raise e
  | Ok first =>
      ∃ kept,
        filter_unscraped_vcs_by_cache dir current_page f links flag = Ok kept ∧
        kept `sublist_of` first ∧ first `sublist_of` links ∧
        (default false flag = false → kept = first) ∧
        (unreadable f → kept = first)
  end.
Proof.
  unfold filter_unscraped_vcs_by_cache.
  destruct (load_existing_page_data dir current_page) as [existing status].
  cbn [fst].
  destruct (filter_unscraped_vcs links existing) as [first|e] eqn:Hfirst; [|done].
  simpl.
  assert (Hsub : first `sublist_of` links).
  { unfold filter_unscraped_vcs in Hfirst.
    destruct (negb (truthy existing)); [by injection Hfirst as <-|].
    destruct (py_iter existing) as [vcs|]; [|done]. simpl in Hfirst.
    destruct (collect_scraped [] vcs) as [ids|]; [|done]. simpl in Hfirst.
    injection Hfirst as <-. apply sublist_filter. }
  destruct (default false flag) eqn:Hflag.
  - eexists. split; [reflexivity|]. split_and!.
    + apply filter_links_by_cache_sublist.
    + exact Hsub.
    + discriminate.
    + intros Hf. unfold _filter_links_by_cache.
      by rewrite (unreadable_loads_empty f Hf), cache_filter_loop_empty.
  - eexists. by split_and!.
Qed.

Lemma filter_by_cache_narrows_witness :
  filter_unscraped_vcs_by_cache (Some []) 1 (FileContent (Raise JSONDecodeError))
    [acme_url; beta_url] (Some true)
  = Ok [acme_url; beta_url].
Proof.
  pose proof (filter_by_cache_narrows (Some []) 1 (FileContent (Raise JSONDecodeError))
                [acme_url; beta_url] (Some true)) as H.
  simpl in H. destruct H as (kept & -> & _ & _ & _ & Hf).
  f_equal. apply Hf. constructor.
Defined.

End TwoPassProps.

(** ** One visit of an investor page *)

Module OrchestratorProps.
Import Spec SNCVCScraper VCOrchestrator Samples.


Lemma set_lookup_other t1 t2 cur (vs : vc_status_map) vc_id st url page other :
  other ≠ vc_id →
  _set_vc_status t1 t2 cur vs vc_id st url page !! other = vs !! other.
Proof.
  intros Hne. unfold _set_vc_status.
  destruct (vs !! vc_id); by rewrite lookup_insert_ne.
Qed.

Lemma set_in_progress_record t1 t2 cur (vs : vc_status_map) vc_id link :
  ∃ r, _set_vc_status t1 t2 cur vs vc_id "in_progress" (Some link) None !! vc_id
       = Some r ∧
       status r = "in_progress" ∧
       attempts r = match vs !! vc_id with
                    | Some old => attempts old + 1
                    | None => 0
                    end ∧
       SNCVCScraper.url r = match vs !! vc_id with
                            | Some old => SNCVCScraper.url old
                            | None => link
                            end.
Proof.
  unfold _set_vc_status.
  destruct (vs !! vc_id) as [old|]; rewrite lookup_insert_eq; eauto.
Qed.

Lemma set_again_record t1 t2 cur (vs : vc_status_map) vc_id st link r :
  vs !! vc_id = Some r →
  st ≠ "in_progress" →
  ∃ r', _set_vc_status t1 t2 cur vs vc_id st link None !! vc_id = Some r' ∧
        status r' = st ∧ attempts r' = attempts r ∧
        SNCVCScraper.url r' = SNCVCScraper.url r.
Proof.
  intros Hr Hst. unfold _set_vc_status. rewrite Hr, lookup_insert_eq.
  eexists. split; [reflexivity|]. simpl.
  by rewrite (proj2 (String.eqb_neq _ _) Hst).
Qed.

(** What [_validate_vc_page] returns is a record for the identifier it
    was given, with one of three statuses. *)
Lemma validate_shape source link text vc_id :
  (∃ e, _validate_vc_page source link text vc_id = Raise e) ∨
  (∃ d s, _validate_vc_page source link text vc_id = Ok (JDict d) ∧
          d !! "status" = Some (JStr s) ∧
          d !! "vc_id" = Some (JStr vc_id) ∧
          (s = "inactive" ∨ s = "limited_info" ∨ s = "valid")).
Proof.
  unfold _validate_vc_page.
  destruct source as [src|e]; simpl.
  - destruct (contains src "presumed inactive no recent investments in israel").
    + destruct link as [u|e]; simpl; [|left; eauto].
      right. eexists _, _. split; [reflexivity|].
      split_and!; [by rewrite lookup_insert_eq| |by left].
      by repeat (rewrite lookup_insert_ne by done); rewrite lookup_insert_eq.
    + destruct (contains src "this profile has limited information").
      * destruct link as [u|e]; simpl; [|left; eauto].
        right. eexists _, _. split; [reflexivity|].
        split_and!; [by rewrite lookup_insert_eq| |right; by left].
        by repeat (rewrite lookup_insert_ne by done); rewrite lookup_insert_eq.
      * destruct link as [u|e]; simpl; [|left; eauto].
        right. eexists _, _. split; [reflexivity|].
        split_and!; [by rewrite lookup_insert_eq| |right; by right].
        by repeat (rewrite lookup_insert_ne by done); rewrite lookup_insert_eq.
  - destruct link as [u|e']; simpl; [|left; eauto].
    right. eexists _, _. split; [reflexivity|].
    split_and!; [by rewrite lookup_insert_eq| |right; by right].
    by repeat (rewrite lookup_insert_ne by done); rewrite lookup_insert_eq.
Qed.

Lemma bind_validation {A B} (a : A) (f : A → pyresult B) : Ok a ≫= f = f a.
Proof. reflexivity. Qed.

Lemma complete_data_shape overview_data investment_data data :
  complete_data overview_data investment_data = Ok data →
  ∃ od d, overview_data = JDict od ∧ data = JDict d ∧
          is_Some (d !! "investments") ∧
          (∀ key, key ∉ ["investments"; "investment_rounds_by_sector_detailed";
                         "investment_rounds_by_type_detailed"; "investment_summary"] →
                  d !! key = od !! key).
Proof.
  unfold complete_data. destruct overview_data as [| | | | |od]; try done.
  destruct (py_getitem investment_data "investments") as [i|]; [|done].
  destruct (py_getitem investment_data "investment_rounds_by_sector") as [bs|]; [|done].
  destruct (py_getitem investment_data "investment_rounds_by_type") as [bt|]; [|done].
  destruct (py_getitem investment_data "summary") as [sm|]; [|done].
  simpl. intros [= <-]. eexists od, _. split_and!; [done|done| |].
  - repeat (rewrite lookup_insert_ne by done). rewrite lookup_insert_eq. eauto.
  - intros key Hkey.
    rewrite !lookup_insert_ne; [done|..]; intros <-; apply Hkey;
      repeat first [by left | right].
Qed.

(** The four ways a visit of a page not yet completed can end. *)
Lemma scrape_cases visit st link t1 t2 t3 :
  clock visit = (t1, t2, t3) →
  _get_vc_status (vc_status st) (url_id link) ≠ "completed" →
  let st1 := set_status t1 t2 st (url_id link) "in_progress" (Some link) in
  let st2 := set_status t3 t3 st1 (url_id link) "completed" (Some link) in
  (∃ e, scrape_investor_complete_with_investments visit st link = (st1, Raise e)) ∨
  (∃ d s, scrape_investor_complete_with_investments visit st link
          = (st1, Ok (JDict d)) ∧
          d !! "status" = Some (JStr s) ∧
          d !! "vc_id" = Some (JStr (url_id link)) ∧
          (s = "inactive" ∨ s = "limited_info")) ∨
  (scrape_investor_complete_with_investments visit st link
   = (set_status t3 t3 st1 (url_id link) "failed" None, Ok JNull) ∧
   ∃ od, overview visit = Ok od ∧ truthy od = false) ∨
  (∃ od result,
     overview visit = Ok (JDict od) ∧
     scrape_investor_complete_with_investments visit st link
     = ({| vc_status := vc_status st2;
           scraped_urls := {[link]} ∪ scraped_urls st;
           scraped_vc_ids := {[url_id link]} ∪ scraped_vc_ids st;
           scraped_count := scraped_count st + 1;
           rate_limit_detected := rate_limit_detected st;
           current_page := current_page st |}, result) ∧
     ((∃ e, result = Raise e) ∨
      (∃ d, result = Ok (JDict d) ∧ is_Some (d !! "investments") ∧
            ∀ key, key ∉ ["investments"; "investment_rounds_by_sector_detailed";
                          "investment_rounds_by_type_detailed"; "investment_summary"] →
                   d !! key = od !! key))).
Proof.
  intros Hclock Hnot st1 st2.
  remember (scrape_investor_complete_with_investments visit st link) as out eqn:Hout.
  unfold scrape_investor_complete_with_investments in Hout. rewrite Hclock in Hout.
  rewrite (proj2 (String.eqb_neq _ _) Hnot) in Hout.
  unfold detect_rate_limit in Hout. cbv iota in Hout. fold st1 in Hout.
  destruct (validate_shape (page_source visit) (current_url visit) (error_text visit)
              (url_id link)) as [[e He]|(d & s & Hv & Hs & Hid & Hcases)].
  { rewrite He in Hout. left. by exists e. }
  rewrite Hv, bind_validation in Hout. unfold py_getitem in Hout at 1.
  rewrite Hs, bind_validation in Hout.
  destruct Hcases as [-> | [-> | ->]].
  { right. left. exists d, "inactive". split_and!; auto. }
  { right. left. exists d, "limited_info". split_and!; auto. }
  change (negb (eq_str (JStr "valid") "valid")) with false in Hout. cbv iota in Hout.
  destruct (overview visit) as [overview_data|e]; [|left; by exists e].
  destruct (truthy overview_data) eqn:Htruthy; cbn [negb] in Hout; cbv iota in Hout;
    [|right; right; left; split; [done|by exists overview_data]].
  destruct (investment visit (vc_slug link)) as [investment_data|e];
    [|left; by exists e].
  rewrite bind_validation in Hout.
  destruct (complete_data overview_data investment_data) as [data|e] eqn:Hdata;
    [|left; by exists e].
  destruct (complete_data_shape _ _ _ Hdata) as (od & d' & -> & -> & Hinv & Hkeys).
  rewrite bind_validation in Hout. cbv beta iota in Hout.
  right. right. right.
  destruct (closing_prints (JDict od) investment_data) as [[]|e].
  - exists od, (Ok (JDict d')). split_and!; [done|done|]. right. by exists d'.
  - exists od, (Raise e). split_and!; [done|done|]. left. by exists e.
Qed.

(** X25: whatever a visit of an investor page brings,
    [scrape_investor_complete_with_investments] changes the record of no
    other identifier, never sets [rate_limit_detected]
    ([detect_rate_limit] returns [False]) and leaves the current page.  An
    identifier already completed is left alone and [None] is returned.
    Otherwise its record ends as [in_progress], [failed] or [completed],
    with one attempt more than before (none for a new identifier) and the
    url it had, or the link for a new identifier: also when an exception
    leaves the method. *)
Theorem scrape_tracking visit st link :
  let out := scrape_investor_complete_with_investments visit st link in
  (∀ other, other ≠ url_id link →
            vc_status out.1 !! other = vc_status st !! other) ∧
  rate_limit_detected out.1 = rate_limit_detected st ∧
  current_page out.1 = current_page st ∧
  (_get_vc_status (vc_status st) (url_id link) = "completed" →
   out = (st, Ok JNull)) ∧
  (_get_vc_status (vc_status st) (url_id link) ≠ "completed" →
   ∃ r, vc_status out.1 !! url_id link = Some r ∧
        (status r = "in_progress" ∨ status r = "failed" ∨ status r = "completed") ∧
        attempts r = match vc_status st !! url_id link with
                     | Some old => attempts old + 1
                     | None => 0
                     end ∧
        SNCVCScraper.url r = match vc_status st !! url_id link with
                             | Some old => SNCVCScraper.url old
                             | None => link
                             end).
Proof.
  intros out.
  destruct (decide (_get_vc_status (vc_status st) (url_id link) = "completed"))
    as [Hdone|Hnot].
  { assert (out = (st, Ok JNull)) as ->.
    { subst out. unfold scrape_investor_complete_with_investments.
      destruct (clock visit) as [[t1 t2] t3]. by rewrite Hdone. }
    by split_and!. }
  destruct (clock visit) as [[t1 t2] t3] eqn:Hclock.
  destruct (set_in_progress_record t1 t2 (current_page st) (vc_status st)
              (url_id link) link) as (r1 & Hr1 & Hst1 & Hatt1 & Hurl1).
  destruct (scrape_cases visit st link t1 t2 t3 Hclock Hnot)
    as [[e Hout]|[(d & s & Hout & _)|[[Hout _]|(od & result & _ & Hout & _)]]];
    subst out; rewrite Hout; cbn [fst set_status vc_status rate_limit_detected
                                  current_page].
  - split_and!; [|done|done|done|].
    + intros other Hother. by apply set_lookup_other.
    + intros _. exists r1. split_and!; auto.
  - split_and!; [|done|done|done|].
    + intros other Hother. by apply set_lookup_other.
    + intros _. exists r1. split_and!; auto.
  - split_and!; [|done|done|done|].
    + intros other Hother. by rewrite !set_lookup_other.
    + intros _.
      destruct (set_again_record t3 t3 (current_page st) _ (url_id link) "failed"
                  None r1 Hr1) as (r2 & Hr2 & Hst2 & Hatt2 & Hurl2); [done|].
      exists r2. split_and!; [done|auto|congruence|congruence].
  - split_and!; [|done|done|done|].
    + intros other Hother. by rewrite !set_lookup_other.
    + intros _.
      destruct (set_again_record t3 t3 (current_page st) _ (url_id link) "completed"
                  (Some link) r1 Hr1) as (r2 & Hr2 & Hst2 & Hatt2 & Hurl2); [done|].
      exists r2. split_and!; [done|auto|congruence|congruence].
Qed.

Lemma scrape_tracking_witness :
  attempts <$> vc_status
                 (scrape_investor_complete_with_investments inactive_visit
                    fresh_tracking acme_url).1 !! url_id acme_url
  = Some 0.
Proof.
  destruct (scrape_tracking inactive_visit fresh_tracking acme_url)
    as (_ & _ & _ & _ & H).
  destruct H as (r & Hr & _ & Hatt & _); [by vm_compute|].
  rewrite Hr. simpl. by rewrite Hatt.
Defined.



End OrchestratorProps.

(** ** One run over a page *)

Module PageRunProps.
Import SearchPageHelper SNCVCScraper PageOrchestrator Samples StringProps SaveProps.

Lemma filter_unscraped_vcs_idem links existing kept :
  filter_unscraped_vcs links existing = Ok kept →
  filter_unscraped_vcs kept existing = Ok kept ∧ kept `sublist_of` links.
Proof.
  unfold filter_unscraped_vcs. destruct (negb (truthy existing)); [by intros [= ->]|].
  destruct (py_iter existing) as [vcs|]; [|done]. simpl.
  destruct (collect_scraped [] vcs) as [ids|]; [|done]. simpl.
  intros [= <-]. split; [|apply sublist_filter].
  f_equal. apply list_filter_filter_r. intros link Hlink. exact Hlink.
Qed.

Lemma filter_unscraped_vcs_raises links links' existing e :
  filter_unscraped_vcs links existing = Raise e →
  filter_unscraped_vcs links' existing = Raise e.
Proof.
  unfold filter_unscraped_vcs. destruct (negb (truthy existing)); [done|].
  destruct (py_iter existing) as [vcs|]; [|done]. simpl.
  by destruct (collect_scraped [] vcs) as [ids|].
Qed.

Lemma extract_filtered run dir current_page :
  extract_vc_links_from_search_page run dir current_page = [] ∨
  filter_unscraped_vcs (extract_vc_links_from_search_page run dir current_page)
    (load_existing_page_data dir current_page).1
  = Ok (extract_vc_links_from_search_page run dir current_page).
Proof.
  unfold extract_vc_links_from_search_page.
  destruct (load_existing_page_data dir current_page) as [existing status]. cbn [fst].
  destruct (found run) as [l|e]; simpl.
  - destruct (filter_unscraped_vcs l existing) as [kept|e] eqn:Hl.
    + right. by apply filter_unscraped_vcs_idem in Hl as [? _].
    + destruct (fallback run) as [l'|e']; simpl; [|by left].
      rewrite (filter_unscraped_vcs_raises _ l' _ _ Hl). by left.
  - destruct (fallback run) as [l'|e']; simpl; [|by left].
    destruct (filter_unscraped_vcs l' existing) as [kept|e'] eqn:Hl; [|by left].
    right. by apply filter_unscraped_vcs_idem in Hl as [? _].
Qed.

(** X27: [extract_vc_links_from_search_page] never raises.  What it
    returns is empty or passes unchanged through [filter_unscraped_vcs]
    against the snapshot of the current page, and its links are, in their
    order, links the first attempt or the fallback found.  When the first
    attempt finds links it returns what the filter keeps of them; and a
    snapshot on which the filter raises makes the page look empty, the
    fallback failing on it as well. *)
Theorem extract_links_outcome run dir current_page :
  let links := extract_vc_links_from_search_page run dir current_page in
  let existing := (load_existing_page_data dir current_page).1 in
  (links = [] ∨ filter_unscraped_vcs links existing = Ok links) ∧
  (links = [] ∨ (∃ l, found run = Ok l ∧ links `sublist_of` l)
   ∨ (∃ l, fallback run = Ok l ∧ links `sublist_of` l)) ∧
  (∀ l kept, found run = Ok l → filter_unscraped_vcs l existing = Ok kept →
             links = kept) ∧
  (∀ l e, found run = Ok l → filter_unscraped_vcs l existing = Raise e →
          links = []).
Proof.
  intros links existing. split; [apply extract_filtered|].
  subst links existing. unfold extract_vc_links_from_search_page.
  destruct (load_existing_page_data dir current_page) as [existing status]. cbn [fst].
  destruct (found run) as [l|e]; simpl.
  - destruct (filter_unscraped_vcs l existing) as [kept|e] eqn:Hl.
    + split_and!.
      * right. left. exists l. split; [done|].
        by apply filter_unscraped_vcs_idem in Hl as [_ ?].
      * intros l0 kept0 [= <-] Hk. congruence.
      * intros l0 e [= <-] Hk. congruence.
    + assert (Hnil : match fallback run ≫= (fun unique_links =>
                               filter_unscraped_vcs unique_links existing) with
                     | Ok vcs_to_scrape => vcs_to_scrape
                     | Raise _ => []
                     end = []).
      { destruct (fallback run) as [l'|e']; simpl; [|done].
        by rewrite (filter_unscraped_vcs_raises _ l' _ _ Hl). }
      rewrite Hnil. split_and!; [by left| |done].
      intros l0 kept0 [= <-] Hk. congruence.
  - split_and!; [|done|done].
    destruct (fallback run) as [l'|e']; simpl; [|by left].
    destruct (filter_unscraped_vcs l' existing) as [kept|e'] eqn:Hl; [|by left].
    right. right. exists l'. split; [done|].
    by apply filter_unscraped_vcs_idem in Hl as [_ ?].
Qed.

Lemma extract_links_outcome_witness :
  extract_vc_links_from_search_page acme_run
    (Some [saved_page 1 "in_progress" [acme_item] "101500"]) 1 = [].
Proof.
  destruct (extract_links_outcome acme_run
              (Some [saved_page 1 "in_progress" [acme_item] "101500"]) 1)
    as (_ & _ & H & _).
  by apply (H [acme_url] []).
Defined.

(** A page whose snapshot in the directory is marked completed is
    returned as it is. *)
Lemma process_loaded_completed run dir current_page p vcs md :
  load_page_with_enhanced_metadata dir p = (JList vcs, JStr "completed", md) →
  vcs ≠ [] →
  process_single_page run dir current_page (Some p) = (dir, Ok (JList vcs, p)).
Proof.
  intros Hload Hvcs. unfold process_single_page. cbn [default from_option id].
  rewrite Hload. by destruct vcs.
Qed.

(** X28: a page is scraped once.  When a run over a page returns a list
    of results that is not empty, and its save could write and remove
    (each older file of the page carries an [in_progress] or [partial] tag
    and can be removed), then any later run over that page, whatever the
    browser then does, returns the same results and leaves the directory
    as it is. *)
Theorem process_page_twice run run' dir current_page current_page' p results dir' :
  write_ok (saving run) = true →
  (dir = None → mkdir_ok (saving run) = true) →
  (∀ files g, dir = Some files → g ∈ files →
     is_page_file p (filename g) = true →
     has_status_tag ["in_progress"; "partial"] (filename g) = true ∧
     can_remove (saving run) (filename g) = true) →
  results ≠ [] →
  process_single_page run dir current_page (Some p)
  = (dir', Ok (JList results, p)) →
  process_single_page run' dir' current_page' (Some p)
  = (dir', Ok (JList results, p)).
Proof.
  intros Hw Hmk Hold Hne Hfirst.
  assert (Hsaved : ∀ vcs,
            load_page_with_enhanced_metadata
              (save_page_with_enhanced_metadata (saving run) (session_id run)
                 (user_type run) (connection_type run) dir p vcs "completed" None).1 p
            = (JList vcs, JStr "completed",
               JDict (merged_metadata None
                        (enhanced_metadata p "completed" vcs (timestamp (saving run))
                           (scrape_date (saving run)) (session_id run) (user_type run)
                           (connection_type run))))).
  { intros vcs.
    destruct (saved_file_first (saving run) (session_id run) (user_type run)
                (connection_type run) dir p vcs "completed" None Hw Hmk)
      as (pre & post & -> & Hpre).
    { intros files g Hdir Hg Hpg. split; [done|]. by eapply Hold. }
    apply load_first_saved; [exact Hpre|apply is_page_file_enhanced|].
    apply (merged_metadata_status None). }
  assert (Hrun : ∀ existing links,
            scrape_and_save run dir p existing links = (dir', Ok (JList results, p)) →
            process_single_page run' dir' current_page' (Some p)
            = (dir', Ok (JList results, p))).
  { intros existing links. unfold scrape_and_save.
    destruct (_ ≫= _) as [all|e]; [|done].
    intros [= <- <-]. eapply process_loaded_completed; [apply Hsaved|done]. }
  unfold process_single_page in Hfirst. cbn [default from_option id] in Hfirst.
  destruct (load_page_with_enhanced_metadata dir p) as [[existing status] md] eqn:Hload.
  destruct (truthy existing) eqn:Htruthy.
  - destruct (eq_str status "completed") eqn:Hstatus.
    + injection Hfirst as <- ->.
      unfold process_single_page. cbn [default from_option id].
      by rewrite Hload, Htruthy, Hstatus.
    + destruct (extract_vc_links_from_search_page run dir current_page)
        as [|link links]; [by injection Hfirst as <- <-|].
      destruct (filter_unscraped_vcs (link :: links) existing) as [[|v vs]|e];
        [|by eapply Hrun|done].
      injection Hfirst as <- ->. cbn [save_page_value].
      eapply process_loaded_completed; [apply Hsaved|done].
  - destruct (extract_vc_links_from_search_page run dir current_page)
      as [|link links]; [by injection Hfirst as <- <-|].
    by eapply Hrun.
Qed.

Lemma process_page_twice_witness :
  let first := process_single_page acme_run (Some []) 1 (Some 1) in
  process_single_page failing_run first.1 7 (Some 1)
  = (first.1, Ok (JList [acme_item], 1)).
Proof.
  intros first.
  apply (process_page_twice acme_run failing_run (Some []) 1 7 1 [acme_item] first.1).
  - reflexivity.
  - discriminate.
  - intros files g [= <-] Hg. by apply elem_of_nil in Hg.
  - discriminate.
  - vm_compute. reflexivity.
Defined.

(** X29: a page in progress is never completed without scraping.  When
    both loaders return the same snapshot of the current page, not empty
    and not marked completed, [process_single_page] returns the empty list
    and leaves the directory as it is as soon as the extraction returns no
    link, which is the case when the snapshot records every link found as
    scraped; otherwise it scrapes the links extracted.  The branch that
    saves the snapshot again as completed is not reached. *)
Theorem process_in_progress_page run dir p existing status status' md :
  load_page_with_enhanced_metadata dir p = (existing, status, md) →
  load_existing_page_data dir p = (existing, status') →
  truthy existing = true →
  eq_str status "completed" = false →
  process_single_page run dir p (Some p)
  = match extract_vc_links_from_search_page run dir p with
    | [] => (dir, Ok (JList [], p))
    | links => scrape_and_save run dir p existing links
    end ∧
  (∀ l, found run = Ok l → filter_unscraped_vcs l existing = Ok [] →
        process_single_page run dir p (Some p) = (dir, Ok (JList [], p))).
Proof.
  intros Hload Hexisting Htruthy Hstatus.
  assert (Hmain : process_single_page run dir p (Some p)
                  = match extract_vc_links_from_search_page run dir p with
                    | [] => (dir, Ok (JList [], p))
                    | links => scrape_and_save run dir p existing links
                    end).
  { unfold process_single_page. cbn [default from_option id].
    rewrite Hload, Htruthy, Hstatus.
    destruct (extract_filtered run dir p) as [Hnil|Hsame].
    - by rewrite Hnil.
    - rewrite Hexisting in Hsame. cbn [fst] in Hsame.
      destruct (extract_vc_links_from_search_page run dir p) as [|link links];
        [done|].
      by rewrite Hsame. }
  split; [exact Hmain|].
  intros l Hfound Hall. rewrite Hmain.
  unfold extract_vc_links_from_search_page.
  rewrite Hexisting, Hfound. simpl. by rewrite Hall.
Qed.

Lemma process_in_progress_page_witness :
  process_single_page acme_run
    (Some [saved_page 1 "in_progress" [acme_item] "101500"]) 1 (Some 1)
  = (Some [saved_page 1 "in_progress" [acme_item] "101500"], Ok (JList [], 1)).
Proof.
  eapply (process_in_progress_page acme_run
            (Some [saved_page 1 "in_progress" [acme_item] "101500"]) 1);
    reflexivity.
Defined.

End PageRunProps.

(** ** The cache migration *)

Module PopulateProps.
Import VCCacheManager PopulateCache Spec Samples CacheReadMore.

Lemma already_in_cache_spec (c : cache) key :
  already_in_cache c key = bool_decide (is_Some (c !! key)).
Proof.
  unfold already_in_cache. rewrite get_vc_status_saved.
  destruct (c !! key) as [e|].
  - symmetry. apply bool_decide_eq_true_2. eauto.
  - symmetry. apply bool_decide_eq_false_2. by intros [? ?].
Qed.

Lemma populate_vc_present (c : cache) round :
  is_Some (c !! PopulateCache.slug round.2) → populate_vc c round = (c, false).
Proof.
  intros Hin. destruct round as [env vc]. unfold populate_vc.
  by rewrite already_in_cache_spec, bool_decide_eq_true_2.
Qed.

Lemma set_scraped_at_lookup (c : cache) key stamp other :
  other ≠ key → set_scraped_at c key stamp !! other = c !! other.
Proof.
  intros Hne. unfold set_scraped_at.
  destruct (c !! key); [by rewrite lookup_insert_ne|done].
Qed.

Lemma populate_vc_other (c : cache) round key :
  key ≠ PopulateCache.slug round.2 → (populate_vc c round).1 !! key = c !! key.
Proof.
  intros Hne. destruct round as [env vc]. unfold populate_vc, add_vc, _save_cache.
  destruct (already_in_cache c (PopulateCache.slug vc)); [done|].
  destruct (add_saved env); cbn [fst]; [|by rewrite lookup_insert_ne].
  unfold mark_vc_completed. rewrite lookup_insert_eq. cbn [fst].
  destruct (negb _).
  - rewrite set_scraped_at_lookup by done. by rewrite !lookup_insert_ne.
  - by rewrite !lookup_insert_ne.
Qed.

Lemma populate_vc_keeps (c : cache) round key e :
  c !! key = Some e → (populate_vc c round).1 !! key = Some e.
Proof.
  intros He. destruct (decide (key = PopulateCache.slug round.2)) as [->|Hne].
  - by rewrite populate_vc_present by eauto.
  - by rewrite populate_vc_other.
Qed.

Lemma populate_vc_new (c : cache) round :
  c !! PopulateCache.slug round.2 = None →
  ∃ e, (populate_vc c round).1 !! PopulateCache.slug round.2 = Some e ∧
       migrated round e.
Proof.
  intros Hnew. destruct round as [env vc]. cbn [snd] in Hnew.
  unfold populate_vc, add_vc, _save_cache.
  rewrite already_in_cache_spec, bool_decide_eq_false_2
    by (rewrite Hnew; by intros [? ?]).
  unfold migrated. cbn [fst snd].
  destruct (add_saved env); cbn [fst].
  - unfold mark_vc_completed. rewrite lookup_insert_eq. cbn [fst].
    destruct (negb _).
    + unfold set_scraped_at. rewrite !lookup_insert_eq. eexists. by split_and!.
    + rewrite lookup_insert_eq. eexists. by split_and!.
  - rewrite lookup_insert_eq. eexists. by split_and!.
Qed.

Lemma populate_vcs_cons c round rounds :
  populate_vcs c (round :: rounds) = populate_vcs (populate_vc c round).1 rounds.
Proof. reflexivity. Qed.

Lemma populate_vcs_keeps rounds : ∀ (c : cache) key e,
  c !! key = Some e → populate_vcs c rounds !! key = Some e.
Proof.
  induction rounds as [|round rounds IH]; intros c key e He; [done|].
  rewrite populate_vcs_cons. by apply IH, populate_vc_keeps.
Qed.

Lemma populate_vcs_origin rounds : ∀ (c : cache) key e,
  populate_vcs c rounds !! key = Some e →
  c !! key = Some e ∨
  (c !! key = None ∧
   ∃ round, round ∈ rounds ∧ PopulateCache.slug round.2 = key ∧ migrated round e).
Proof.
  induction rounds as [|round rounds IH]; intros c key e He; [by left|].
  rewrite populate_vcs_cons in He.
  destruct (c !! key) as [e0|] eqn:Hc.
  - left. rewrite (populate_vcs_keeps rounds _ key e0) in He; [done|].
    by apply populate_vc_keeps.
  - right. split; [done|].
    destruct (IH _ _ _ He) as [Hnow|(_ & r & Hr & Hkey & Hm)].
    + destruct (decide (key = PopulateCache.slug round.2)) as [->|Hne].
      * destruct (populate_vc_new c round Hc) as (e' & He' & Hm).
        exists round. split_and!; [by left|done|congruence].
      * rewrite populate_vc_other in Hnow by done. congruence.
    + exists r. split_and!; [by right|done|done].
Qed.

Lemma populate_vcs_present rounds : ∀ (c : cache),
  (∀ round, round ∈ rounds → is_Some (c !! PopulateCache.slug round.2)) →
  populate_vcs c rounds = c.
Proof.
  induction rounds as [|round rounds IH]; intros c Hall; [done|].
  rewrite populate_vcs_cons, populate_vc_present by (apply Hall; by left).
  apply IH. intros r Hr. apply Hall. by right.
Qed.

(** X30: the cache migration never overwrites.  Over any items and
    whatever the saves do, the loop of [populate_cache_from_results] leaves
    every entry that was in the cache exactly as it was; an entry it has
    after the loop and had not before was made by one of the rounds, from
    that item, with no attempt, completed when the save of [add_vc]
    succeeded and pending when it failed; every item has an entry
    afterwards, so a second migration over the same identifiers changes
    nothing. *)
Theorem populate_never_overwrites (cache_data : cache) rounds :
  let after := populate_vcs cache_data rounds in
  (∀ key e, cache_data !! key = Some e → after !! key = Some e) ∧
  (∀ key e, after !! key = Some e → cache_data !! key = None →
            ∃ round, round ∈ rounds ∧ PopulateCache.slug round.2 = key ∧
                     migrated round e) ∧
  (∀ round, round ∈ rounds → is_Some (after !! PopulateCache.slug round.2)) ∧
  (∀ again,
     (∀ round, round ∈ again →
               ∃ round', round' ∈ rounds ∧
                         PopulateCache.slug round'.2 = PopulateCache.slug round.2) →
     populate_vcs after again = after).
Proof.
  intros after.
  assert (Hall : ∀ round, round ∈ rounds →
                          is_Some (after !! PopulateCache.slug round.2)).
  { subst after. revert cache_data.
    induction rounds as [|r rounds IH]; intros c round Hin;
      [by apply elem_of_nil in Hin|].
    rewrite populate_vcs_cons. apply elem_of_cons in Hin as [->|Hin]; [|by apply IH].
    destruct (c !! PopulateCache.slug r.2) as [e|] eqn:Hc.
    - exists e. by apply populate_vcs_keeps, populate_vc_keeps.
    - destruct (populate_vc_new c r Hc) as (e & He & _).
      exists e. by apply populate_vcs_keeps. }
  split_and!.
  - intros key e. apply populate_vcs_keeps.
  - intros key e He Hnew.
    destruct (populate_vcs_origin rounds cache_data key e He) as [Hold|[_ H]];
      [congruence|exact H].
  - exact Hall.
  - intros again Hagain. apply populate_vcs_present.
    intros round Hround. destruct (Hagain round Hround) as (r & Hr & <-).
    by apply Hall.
Qed.

Lemma populate_never_overwrites_witness :
  populate_vcs one_entry_cache [acme_round] !! "acme" = Some acme_done.
Proof.
  apply (populate_never_overwrites one_entry_cache [acme_round]).
  apply lookup_singleton_eq.
Defined.

End PopulateProps.
